(** * install-fedora-zfsbootmenu: a shallow embedding of the installer

    The installer is one Python script.  Every privileged action goes
    through a handful of "bash primitives" ([sys], [sys_output],
    [cat_to_file], [mkdir], [chmod], [chroot], ...) which log a shell
    command line and, unless [CONFIG.dry_mode] is set, perform the action.

    The embedding threads an explicit [world] (the logger output, the
    operating-system calls made so far, the process root, working
    directory and descriptor table, the random draws made) through a
    state-and-exception monad.  What the operating system answers (exit
    statuses, program output, failing calls, directory listings, file
    contents) is read from a [Host] oracle which sees the history of calls.

    Modelling choices:
    - a Python [str] is a Rocq [string] whose characters are the code
      points; code points above 255 are outside the model, and the output
      of a program is taken as already decoded;
    - a [dict] is the list of its items in insertion order, a [set] a
      [gset];
    - the global [CONFIG] is a parameter of every function;
    - the process runs as root: [os.chroot] and the calls on an open
      descriptor succeed.

    Layout: the Python helpers and the data classes, the installer itself
    (section [Installer]), the vocabulary of the statements, then the
    lemmas and, per component, the theorems. *)

From Stdlib Require Import ZArith String Ascii DecimalString.
From stdpp Require Import base decidable option list countable gmap strings.

Local Open Scope Z_scope.
Local Open Scope string_scope.
Local Open Scope list_scope.

(** ** Python strings *)

Module Py.

Definition NL : string := String (ascii_of_nat 10) "".
Definition TAB : string := String (ascii_of_nat 9) "".
Definition DQUOTE : string := String (ascii_of_nat 34) "".

(** [c in s] for a one-character [c]. *)
Fixpoint contains (c : ascii) (s : string) : bool :=
  match s with
  | EmptyString => false
  | String d r => if Ascii.eqb c d then true else contains c r
  end.

(** [sep.join(xs)] *)
Definition join (sep : string) (xs : list string) : string :=
  String.concat sep xs.

(** [s.split(sep)] for a one-character separator. *)
Fixpoint split (sep : ascii) (s : string) : list string :=
  match s with
  | EmptyString => [""]
  | String c r =>
      if Ascii.eqb c sep then "" :: split sep r
      else match split sep r with
           | [] => [String c ""]
           | x :: xs => String c x :: xs
           end
  end.

(** [s.lstrip(c)] *)
Fixpoint lstrip (c : ascii) (s : string) : string :=
  match s with
  | EmptyString => ""
  | String d r => if Ascii.eqb c d then lstrip c r else s
  end.

(** The line boundaries of [str.splitlines] below code point 256:
    LF, VT, FF, FS, GS, RS, NEL, and CR (alone or followed by LF). *)
Definition is_linebreak (c : ascii) : bool :=
  let n := nat_of_ascii c in
  bool_decide (n = 10 \/ n = 11 \/ n = 12 \/ n = 13 \/ n = 28 \/ n = 29 \/ n = 30 \/ n = 133)%nat.

(** [s.splitlines()] *)
Fixpoint splitlines (s : string) : list string :=
  match s with
  | EmptyString => []
  | String c r =>
      if is_linebreak c then
        match r with
        | String d r' =>
            if bool_decide (nat_of_ascii c = 13 /\ nat_of_ascii d = 10)%nat
            then "" :: splitlines r'
            else "" :: splitlines r
        | EmptyString => [""]
        end
      else match splitlines r with
           | [] => [String c ""]
           | x :: xs => String c x :: xs
           end
  end.

(** [s[:-1]], written [s[: -len("\n")]] in the source: the string without
    its last character, whatever that character is; [""] stays [""]. *)
Fixpoint drop_last (s : string) : string :=
  match s with
  | EmptyString => ""
  | String c r => match r with EmptyString => "" | _ => String c (drop_last r) end
  end.

(** [s.index(c)]: the first position of [c], or [None] where Python
    raises [ValueError]. *)
Fixpoint index (c : ascii) (s : string) : option nat :=
  match s with
  | EmptyString => None
  | String d r => if Ascii.eqb c d then Some 0%nat else S <$> index c r
  end.

(** [s[:n]] for [0 <= n]. *)
Fixpoint take (n : nat) (s : string) : string :=
  match n, s with
  | S n', String c r => String c (take n' r)
  | _, _ => ""
  end.

(** [s[n:]] for [0 <= n]. *)
Fixpoint drop (n : nat) (s : string) : string :=
  match n, s with
  | S n', String _ r => drop n' r
  | _, _ => s
  end.

(** [s.startswith(p)] *)
Definition startswith (p s : string) : bool := String.prefix p s.

(** [s.replace(old, new)] for a non-empty [old]; [skip] counts the
    characters of a match still to be passed over. *)
Fixpoint replace_from (old new : string) (skip : nat) (s : string) : string :=
  match s with
  | EmptyString => ""
  | String c r =>
      match skip with
      | S k => replace_from old new k r
      | O =>
          if String.prefix old s
          then new +:+ replace_from old new (String.length old - 1) r
          else String c (replace_from old new 0 r)
      end
  end.

Definition replace (old new s : string) : string := replace_from old new 0 s.

(** [str(n)] and [f"{n}"] for an [int]. *)
Definition str_int (n : Z) : string := NilZero.string_of_int (Z.to_int n).

Fixpoint oct_digits (fuel : nat) (n : N) (acc : string) : string :=
  match fuel with
  | O => acc
  | S f =>
      let d := String (ascii_of_N (48 + N.modulo n 8)) acc in
      if N.ltb n 8 then d else oct_digits f (N.div n 8) d
  end.

(** [f"{n:o}"] *)
Definition oct (n : Z) : string :=
  let digits := oct_digits (S (N.to_nat (N.log2 (Z.abs_N n)))) (Z.abs_N n) "" in
  if Z.ltb n 0 then "-" +:+ digits else digits.

End Py.

(** ** [pathlib.Path] (pure POSIX paths)

    A path is its root (["" ], ["/"] or ["//"]) and its components;
    parsing drops empty and ["."] components, so two paths are equal
    exactly when Python's [==] says so. *)

Record Path : Type := mkPath { anchor : string; parts : list string }.

Global Instance Path_eq_dec : EqDecision Path.
Proof. solve_decision. Defined.

Global Instance Path_countable : Countable Path.
Proof.
  refine (inj_countable' (fun p => (anchor p, parts p))
                         (fun '(a, ps) => mkPath a ps) _).
  by intros [].
Defined.

Definition keep_part (x : string) : bool :=
  negb (String.eqb x "") && negb (String.eqb x ".").

(** [Path(s)] *)
Definition Path_of (s : string) : Path :=
  let rel := Py.lstrip "/" s in
  let slashes := (String.length s - String.length rel)%nat in
  {| anchor := match slashes with O => "" | 2%nat => "//" | _ => "/" end;
     parts := filter (fun x => Is_true (keep_part x)) (Py.split "/" rel) |}.

(** [str(p)] *)
Definition str (p : Path) : string :=
  match anchor p, parts p with
  | EmptyString, [] => "."
  | a, ps => a +:+ Py.join "/" ps
  end.

(** [p / key]: an absolute [key] replaces [p]. *)
Definition joinpath (p : Path) (key : string) : Path :=
  let q := Path_of key in
  match anchor q with
  | EmptyString => {| anchor := anchor p; parts := parts p ++ parts q |}
  | _ => q
  end.

Notation "p // key" := (joinpath p key) (at level 40, left associativity).

(** [p.name] *)
Definition Path_name (p : Path) : string := default "" (last (parts p)).

(** ** The configuration classes *)

(** [Union[Path, Literal["none", "legacy"]]]; the field itself is
    optional ([None] by default). *)
Inductive Mountpoint : Type :=
| MountPath (p : Path)
| MountNone
| MountLegacy.

Definition Mountpoint_str (m : Mountpoint) : string :=
  match m with
  | MountPath p => str p
  | MountNone => "none"
  | MountLegacy => "legacy"
  end.

Module ZfsPool.
Record t : Type := mk {
  name : string;
  disks : list Path;
  mountpoint : option Mountpoint;
  kind : string;
  password : string;
  (* dicts are iterated in insertion order *)
  pool_properties : list (string * string);
  file_system_properties : list (string * string);
}.
End ZfsPool.

Module User.
Record t : Type := mk {
  name : string;
  comment : string;
  password : string;
  wheel : bool;
}.
End User.

Module Config.
Record t : Type := mk {
  root_pool : ZfsPool.t;
  data_pools : list ZfsPool.t;
  swap_size : string;
  root_password : string;
  users : list User.t;
  packages : list string;
  locale : string;
  keymap : string;
  timezone : string;
  hostname : string;
  zero_disks : bool;
  dry_mode : bool;
}.
End Config.

(** Truth value of a [str]: non-empty. *)
Definition truthy (s : string) : bool := negb (String.eqb s "").

(** ** The world, the host and the monad *)

Inductive exn : Type :=
| Exception (msg : string)
| ValueError (msg : string)
| CalledProcessError (returncode : Z) (cmd : list string)
| OSError (msg : string)
| StopIteration.

(** Calls into the operating system whose outcome the host decides. *)
Inductive os_op : Type :=
| Exec (argv : list string) (shell : bool)
| ExecStdin (argv : list string) (input : string)
| WriteText (file : Path) (contents : string)
| ReadText (file : Path)
| Mkdir (path : Path)
| Unlink (path : Path)
| Chmod (path : Path) (mode : Z)
| Chown (path : Path) (user group : string)
| Copy2 (src dst : Path)
| Copytree (src dst : Path)
| Glob (dir : Path) (pattern : string)
| Chdir (path : Path)
| Sleep (secs : Z).

(** The answers of the operating system, each given the calls made so far. *)
Record Host : Type := mkHost {
  (* exit status and standard output (decoded) of a program *)
  run : list os_op -> list string -> bool -> Z * string;
  (* the error with which a call fails, if it fails *)
  os_error : list os_op -> os_op -> option string;
  (* the matches of a glob *)
  listing : list os_op -> Path -> string -> list Path;
  (* the text of a file *)
  file_text : list os_op -> Path -> string;
  (* [os.uname().release] *)
  uname_release : string;
  (* [date.today()] formatted with [%Y%m%d] *)
  today : string;
  (* the random generator: draw number and bound to value *)
  randbelow : nat -> nat -> nat;
}.

Record world : Type := mkWorld {
  log : list string;          (* lines handed to LOGGER.info, oldest first *)
  trace : list os_op;         (* operating-system calls made, oldest first *)
  root : Path;                (* root directory of the process *)
  cwd : Path;                 (* working directory of the process *)
  fds : list (nat * Path);    (* open directory descriptors *)
  draws : nat;                (* random draws made *)
}.

Definition set_log (f : list string -> list string) (w : world) : world :=
  mkWorld (f (log w)) (trace w) (root w) (cwd w) (fds w) (draws w).
Definition set_trace (f : list os_op -> list os_op) (w : world) : world :=
  mkWorld (log w) (f (trace w)) (root w) (cwd w) (fds w) (draws w).
Definition set_root (p : Path) (w : world) : world :=
  mkWorld (log w) (trace w) p (cwd w) (fds w) (draws w).
Definition set_cwd (p : Path) (w : world) : world :=
  mkWorld (log w) (trace w) (root w) p (fds w) (draws w).
Definition set_fds (f : list (nat * Path) -> list (nat * Path)) (w : world) : world :=
  mkWorld (log w) (trace w) (root w) (cwd w) (f (fds w)) (draws w).
Definition set_draws (n : nat) (w : world) : world :=
  mkWorld (log w) (trace w) (root w) (cwd w) (fds w) n.

Inductive result (A : Type) : Type :=
| Ok (a : A)
| Raise (e : exn).
Arguments Ok {A} a.
Arguments Raise {A} e.

Definition is_ok {A} (r : result A) : bool :=
  match r with Ok _ => true | Raise _ => false end.

(** A computation: from a world to a value or an exception, and the world
    it leaves behind (effects made before an exception stay made). *)
Definition M (A : Type) : Type := world -> result A * world.

Global Instance M_ret : MRet M := fun A a w => (Ok a, w).
Global Instance M_bind : MBind M := fun A B k m w =>
  match m w with
  | (Ok a, w') => k a w'
  | (Raise e, w') => (Raise e, w')
  end.

Definition raise {A} (e : exn) : M A := fun w => (Raise e, w).

(** [try: body finally: fin] *)
Definition try_finally {A} (body : M A) (fin : M unit) : M A := fun w =>
  let '(r, w1) := body w in
  match fin w1 with
  | (Ok _, w2) => (r, w2)
  | (Raise e, w2) => (Raise e, w2)
  end.

(** [for x in xs: body x] *)
Fixpoint for_ {A} (xs : list A) (body : A -> M unit) : M unit :=
  match xs with
  | [] => mret tt
  | x :: xs' => body x ;; for_ xs' body
  end.

(** [if c: body] *)
Definition when (c : bool) (body : M unit) : M unit :=
  if c then body else mret tt.

(** [int(s)] for a [str]: surrounding white space, an optional sign,
    decimal digits with single underscores between them. *)
Module PyInt.

Definition is_space (c : ascii) : bool :=
  let n := nat_of_ascii c in
  bool_decide ((9 <= n <= 13) \/ (28 <= n <= 32) \/ n = 133 \/ n = 160)%nat.

Definition is_digit (c : ascii) : bool :=
  let n := nat_of_ascii c in bool_decide (48 <= n <= 57)%nat.

Fixpoint rstrip (s : string) : string :=
  match s with
  | EmptyString => ""
  | String c r =>
      match rstrip r with
      | EmptyString => if is_space c then "" else String c ""
      | r' => String c r'
      end
  end.

Fixpoint lstrip (s : string) : string :=
  match s with
  | EmptyString => ""
  | String c r => if is_space c then lstrip r else s
  end.

Fixpoint digits (s : string) (acc : Z) (after_digit : bool) : option Z :=
  match s with
  | EmptyString => if after_digit then Some acc else None
  | String c r =>
      if is_digit c then digits r (10 * acc + (Z.of_nat (nat_of_ascii c) - 48)) true
      else if Ascii.eqb c "_" && after_digit then digits r acc false
      else None
  end.

Definition int (s : string) : option Z :=
  match lstrip (rstrip s) with
  | String "-" r => Z.opp <$> digits r 0 false
  | String "+" r => digits r 0 false
  | t => digits t 0 false
  end.

End PyInt.

Global Instance Mountpoint_eq_dec : EqDecision Mountpoint.
Proof. solve_decision. Defined.

Global Instance ZfsPool_eq_dec : EqDecision ZfsPool.t.
Proof. solve_decision. Defined.

(** ** The installer *)

Section Installer.

Variable host : Host.
Variable CONFIG : Config.t.

Definition CONFIG_POOLS : list ZfsPool.t :=
  CONFIG.(Config.root_pool) :: CONFIG.(Config.data_pools).

Definition NEW_SYSTEM_ROOT : Path := Path_of "/rpool".

(** *** Logging and operating-system calls *)

Definition update (f : world -> world) : M unit := fun w => (Ok tt, f w).

(** [LOGGER.info(line)] *)
Definition info (line : string) : M unit :=
  update (set_log (fun l => l ++ [line])).

Definition history : M (list os_op) := fun w => (Ok (trace w), w).

(** Make the call [op]; the host may fail it. *)
Definition perform (op : os_op) : M unit := fun w =>
  let w' := set_trace (fun t => t ++ [op]) w in
  match os_error host (trace w) op with
  | Some msg => (Raise (OSError msg), w')
  | None => (Ok tt, w')
  end.

Definition subprocess_run (args : list string) (shell : bool) : M (Z * string) :=
  h ← history;
  perform (Exec args shell);;
  mret (run host h args shell).

(** [subprocess.call(args)]: the exit status, whatever it is. *)
Definition subprocess_call (args : list string) : M Z :=
  r ← subprocess_run args false;
  mret (fst r).

(** [subprocess.check_call(args)]: raises on a non-zero exit status. *)
Definition subprocess_check_call (args : list string) : M unit :=
  r ← subprocess_run args false;
  if Z.eqb (fst r) 0 then mret tt else raise (CalledProcessError (fst r) args).

(** [subprocess.check_output(args, shell=shell).decode()] *)
Definition subprocess_check_output (args : list string) (shell : bool) : M string :=
  r ← subprocess_run args shell;
  if Z.eqb (fst r) 0 then mret (snd r) else raise (CalledProcessError (fst r) args).

(** [" ".join(arg if " " not in arg else f'"{arg}"' for arg in args)] *)
Definition command_line (args : list string) : string :=
  Py.join " "
    (map (fun arg => if negb (Py.contains " " arg) then arg
                     else Py.DQUOTE +:+ arg +:+ Py.DQUOTE) args).

(** *** Bash primitives *)

Definition sys (args : list string) (ignore_exit_code : bool) : M unit :=
  info (command_line args);;
  when (negb CONFIG.(Config.dry_mode))
    (if ignore_exit_code
     then subprocess_check_call args
     else subprocess_call args;; mret tt).

Definition sys_output (args : list string) (dry_mode_output : string) (shell : bool)
  : M string :=
  info (command_line args);;
  output ← (if negb CONFIG.(Config.dry_mode)
            then out ← subprocess_check_output args shell; mret (Py.drop_last out)
            else mret dry_mode_output);
  for_ (Py.splitlines output) (fun line => info ("#> " +:+ line));;
  mret output.

Definition cat_to_file (file : Path) (contents : string) : M unit :=
  info ("cat > " +:+ str file +:+ " << EOF");;
  for_ (Py.splitlines contents) info;;
  info "EOF";;
  when (negb CONFIG.(Config.dry_mode)) (perform (WriteText file contents)).

Definition sleep (secs : Z) : M unit :=
  info ("sleep " +:+ Py.str_int secs);;
  when (negb CONFIG.(Config.dry_mode)) (perform (Sleep secs)).

Definition rm (path : Path) : M unit :=
  info ("rm --force " +:+ str path);;
  when (negb CONFIG.(Config.dry_mode)) (perform (Unlink path)).

Definition mkdir (path : Path) : M unit :=
  info ("mkdir --parents " +:+ str path);;
  when (negb CONFIG.(Config.dry_mode)) (perform (Mkdir path)).

Definition chmod (path : Path) (mode : Z) : M unit :=
  info ("chmod " +:+ Py.oct mode +:+ " " +:+ str path +:+ " ");;
  when (negb CONFIG.(Config.dry_mode)) (perform (Chmod path mode)).

(** [path.glob(pattern)], listed in one call. *)
Definition glob (dir : Path) (pattern : string) : M (list Path) :=
  h ← history;
  perform (Glob dir pattern);;
  mret (listing host h dir pattern).

Definition chown (path : Path) (user group : string) (recursive : bool) : M unit :=
  info ("chown " +:+ (if recursive then "--recursive" else "") +:+ " "
        +:+ user +:+ ":" +:+ group +:+ " " +:+ str path);;
  when (negb CONFIG.(Config.dry_mode))
    (if recursive
     then perform (Chown path user group);;
          ps ← glob path "**/*";
          for_ ps (fun p => perform (Chown p user group))
     else perform (Chown path user group)).

Definition copytree (src dst : Path) : M unit :=
  info ("cp --archive --recursive " +:+ str src +:+ " " +:+ str dst);;
  when (negb CONFIG.(Config.dry_mode)) (perform (Copytree src dst)).

Definition copy2 (src dst : Path) : M unit :=
  info ("cp --archive " +:+ str src +:+ " " +:+ str dst);;
  when (negb CONFIG.(Config.dry_mode)) (perform (Copy2 src dst)).

(** *** The process root

    The installer runs as root: [os.open] of the root directory,
    [os.chroot(".")], and [os.chdir]/[os.close] of an open descriptor
    succeed; [os.chdir] to a path fails when the host says so, and using a
    descriptor that is not open fails with [EBADF]. *)

Definition fresh_fd (tbl : list (nat * Path)) : nat :=
  S (foldr Nat.max 2%nat (map fst tbl)).

Definition fd_lookup (fd : nat) (tbl : list (nat * Path)) : option Path :=
  snd <$> find (fun e => Nat.eqb (fst e) fd) tbl.

Definition fd_remove (fd : nat) (tbl : list (nat * Path)) : list (nat * Path) :=
  List.filter (fun e => negb (Nat.eqb (fst e) fd)) tbl.

(** Where [path] leads from the current root and working directory. *)
Definition resolve (w : world) (path : Path) : Path :=
  match anchor path with
  | EmptyString => mkPath "/" (parts (cwd w) ++ parts path)
  | _ => mkPath "/" (parts (root w) ++ parts path)
  end.

(** [os.open(Path("/"), os.O_PATH)] *)
Definition os_open_root : M nat := fun w =>
  let fd := fresh_fd (fds w) in
  (Ok fd, set_fds (fun t => (fd, root w) :: t) w).

(** [os.chdir(path)] *)
Definition os_chdir (path : Path) : M unit :=
  perform (Chdir path);;
  update (fun w => set_cwd (resolve w path) w).

(** [os.chdir(fd)] *)
Definition os_fchdir (fd : nat) : M unit := fun w =>
  match fd_lookup fd (fds w) with
  | Some dir => (Ok tt, set_cwd dir w)
  | None => (Raise (OSError "Bad file descriptor"), w)
  end.

(** [os.chroot(".")] *)
Definition os_chroot_dot : M unit := update (fun w => set_root (cwd w) w).

(** [os.close(fd)] *)
Definition os_close (fd : nat) : M unit := fun w =>
  match fd_lookup fd (fds w) with
  | Some _ => (Ok tt, set_fds (fd_remove fd) w)
  | None => (Raise (OSError "Bad file descriptor"), w)
  end.

(** [with chroot(newroot): body] *)
Definition chroot {A} (newroot : Path) (body : M A) : M A :=
  info ("chroot " +:+ str newroot);;
  oldroot_fd ← os_open_root;
  try_finally
    (when (negb CONFIG.(Config.dry_mode)) (os_chdir newroot;; os_chroot_dot);;
     body)
    (info ("exit  # chroot " +:+ str newroot);;
     when (negb CONFIG.(Config.dry_mode)) (os_fchdir oldroot_fd;; os_chroot_dot);;
     os_close oldroot_fd).


(** *** Pool and file-system commands *)

(** [-o key=value] (or [-O key=value]) for every item of a dict. *)
Definition property_args (flag : string) (properties : list (string * string))
  : list string :=
  flat_map (fun kv => [flag; fst kv +:+ "=" +:+ snd kv]) properties.

(** The value of the local [zpool_create_args] of [zpool_create] when it
    is handed to [sys]. *)
Definition zpool_create_args (pool : ZfsPool.t) (key_file : option Path)
    (altroot : option Path) (partition : string) : list string :=
  ["zpool"; "create"; "-f"]
  ++ property_args "-o" pool.(ZfsPool.pool_properties)
  ++ property_args "-O" pool.(ZfsPool.file_system_properties)
  ++ match key_file with
     | Some key_file =>
         ["-O"; "encryption=aes-256-gcm";
          "-O"; "keyformat=passphrase";
          "-O"; "keylocation=file://" +:+ str key_file]
     | None => []
     end
  ++ match pool.(ZfsPool.mountpoint) with
     | Some mountpoint => ["-m"; Mountpoint_str mountpoint]
     | None => []
     end
  ++ match altroot with
     | Some altroot => ["-R"; str altroot]
     | None => []
     end
  ++ [pool.(ZfsPool.name)]
  ++ (if negb (String.eqb pool.(ZfsPool.kind) "single") then [pool.(ZfsPool.kind)] else [])
  ++ map (fun disk => str disk +:+ partition) pool.(ZfsPool.disks).

Definition zpool_create (pool : ZfsPool.t) (altroot : option Path)
    (partition : string) : M (option Path) :=
  key_file ← (if truthy pool.(ZfsPool.password)
              then let key_file := Path_of ("/etc/zfs/" +:+ pool.(ZfsPool.name) +:+ ".key") in
                   cat_to_file key_file (pool.(ZfsPool.password) +:+ Py.NL);;
                   chmod key_file 0;;
                   mret (Some key_file)
              else mret None);
  sys (zpool_create_args pool key_file altroot partition) true;;
  mret key_file.

Definition zfs_create_args (pool : ZfsPool.t) (filesystem : string)
    (properties : list (string * string)) : list string :=
  ["zfs"; "create"]
  ++ property_args "-o" properties
  ++ [pool.(ZfsPool.name) +:+ "/" +:+ filesystem].

Definition zfs_create (pool : ZfsPool.t) (filesystem : string)
    (properties : list (string * string)) : M unit :=
  sys (zfs_create_args pool filesystem properties) true.

Definition dnf_install (args : list string) (installroot : option Path)
    (releasever : option Z) : M unit :=
  sys (["dnf"; "install"; "--assumeyes"]
       ++ match installroot with
          | Some installroot => ["--installroot=" +:+ str installroot]
          | None => []
          end
       ++ match releasever with
          | Some releasever =>
              if Z.eqb releasever 0 then [] else ["--releasever=" +:+ Py.str_int releasever]
          | None => []
          end
       ++ args) true.

Definition passwd (user_name password : string) (lock_if_empty : bool) : M unit :=
  if truthy password then
    info ("passwd " +:+ user_name +:+ " --stdin");;
    when (negb CONFIG.(Config.dry_mode))
      (let args := ["passwd"; user_name; "--stdin"] in
       h ← history;
       perform (ExecStdin args password);;
       let returncode := fst (run host h args false) in
       if Z.eqb returncode 0 then mret tt
       else raise (CalledProcessError returncode args))
  else if lock_if_empty then sys ["passwd"; "--lock"; "root"] true
  else sys ["passwd"; user_name; "--delete"] true.

(** *** The configuration check *)

(** The inner loop [for disk in pool.disks] with the set it updates. *)
Fixpoint check_disks (disks : list Path) (seen_disks : gset Path) : M (gset Path) :=
  match disks with
  | [] => mret seen_disks
  | disk :: disks' =>
      if decide (disk ∈ seen_disks)
      then raise (Exception ("Disk '" +:+ str disk +:+ "' configured multiple times."))
      else check_disks disks' ({[disk]} ∪ seen_disks)
  end.

(** The [if not pool.disks: ... elif ... elif ...] chain of the loop body. *)
Definition check_pool_shape (pool : ZfsPool.t) : M unit :=
  match pool.(ZfsPool.disks) with
  | [] => raise (Exception ("Pool " +:+ pool.(ZfsPool.name) +:+ " configured without disks."))
  | _ =>
      if String.eqb pool.(ZfsPool.kind) "single" && (1 <? length pool.(ZfsPool.disks))%nat
      then raise (Exception ("Pool " +:+ pool.(ZfsPool.name)
                             +:+ " kind 'single' configured with more than one disk."))
      else if negb (String.eqb pool.(ZfsPool.kind) "single")
              && (length pool.(ZfsPool.disks) =? 1)%nat
      then raise (Exception ("Pool " +:+ pool.(ZfsPool.name) +:+ " kind '"
                             +:+ pool.(ZfsPool.kind) +:+ "' configured with only one disk."))
      else mret tt
  end.

(** The loop [for pool in CONFIG_POOLS] with the two sets it updates. *)
Fixpoint check_pools (pools : list ZfsPool.t) (seen_pool_names : gset string)
    (seen_disks : gset Path) : M unit :=
  match pools with
  | [] => mret tt
  | pool :: pools' =>
      if decide (pool.(ZfsPool.name) ∈ seen_pool_names)
      then raise (Exception ("Name '" +:+ pool.(ZfsPool.name)
                             +:+ "' configured for multiple pools."))
      else
        check_pool_shape pool;;
        seen_disks ← check_disks pool.(ZfsPool.disks) seen_disks;
        check_pools pools' ({[pool.(ZfsPool.name)]} ∪ seen_pool_names) seen_disks
  end.

(** The loop [for user in CONFIG.users] with the set it updates. *)
Fixpoint check_users (users : list User.t) (seen_user_names : gset string) : M unit :=
  match users with
  | [] => mret tt
  | user :: users' =>
      if decide (user.(User.name) ∈ seen_user_names)
      then raise (Exception ("Name '" +:+ user.(User.name)
                             +:+ "' configured for multiple users."))
      else check_users users' ({[user.(User.name)]} ∪ seen_user_names)
  end.

Definition check_config_for_errors : M unit :=
  check_pools CONFIG_POOLS ∅ ∅;;
  check_users CONFIG.(Config.users) ∅.

(** *** The installation steps *)

Definition zfs_release_rpm (version_id : Z) : string :=
  "https://zfsonlinux.org/fedora/zfs-release-2-2.fc"
  +:+ Py.str_int (Z.min version_id 37) +:+ ".noarch.rpm".

Definition install_zfs_to_live_environment (version_id : Z) : M unit :=
  sys ["rpm"; "--erase"; "--nodeps"; "zfs-fuse"] true;;
  dnf_install [zfs_release_rpm version_id] None None;;
  when (Z.ltb 37 version_id)
    (sys ["sed"; "--in-place"; "s/$releasever/37/g";
          str (Path_of "/" // "etc" // "yum.repos.d" // "zfs.repo")] true);;
  dnf_install ["kernel-devel-" +:+ uname_release host; "zfs"] None None;;
  sys ["modprobe"; "zfs"] true.

Definition blkdiscard_and_zero_disks : M unit :=
  for_ CONFIG_POOLS (fun pool =>
    for_ pool.(ZfsPool.disks) (fun disk =>
      sys ["blkdiscard"; "--force"; str disk] true;;
      when CONFIG.(Config.zero_disks)
        (sys ["dd"; "if=/dev/zero"; "of=" +:+ str disk; "bs=4096"; "status=progress"]
             false))).

Definition partition_root_pool_disks : M unit :=
  for_ CONFIG.(Config.root_pool).(ZfsPool.disks) (fun disk =>
    sys ["sgdisk"; "--zap-all"; str disk] true;;
    sys ["sgdisk"; "--new=0:1M:+512M"; "--typecode=0:EF00";
         "--change-name=0:EFI System Partition"; str disk] true;;
    when (truthy CONFIG.(Config.swap_size))
      (sys ["sgdisk"; "--new=0:0:+" +:+ CONFIG.(Config.swap_size); "--typecode=0:8200";
            "--change-name=0:Swap"; str disk] true);;
    sys ["sgdisk"; "--new=0:0:0"; "--typecode=0:BF00";
         "--change-name=0:ZFS Pool " +:+ CONFIG.(Config.root_pool).(ZfsPool.name);
         str disk] true);;
  sleep 2.

(** [acc = []; for x in xs: acc.append(body x)] *)
Fixpoint collect {A B} (xs : list A) (body : A -> M B) : M (list B) :=
  match xs with
  | [] => mret []
  | x :: xs' => y ← body x; ys ← collect xs' body; mret (y :: ys)
  end.

Definition ascii_lowercase : string := "abcdefghijklmnopqrstuvwxyz".
Definition digits : string := "0123456789".

(** [random.choices(population, k=k)]: [k] draws with replacement, each
    the generator's next draw reduced below [len(population)]. *)
Definition choices (population : string) (k : nat) : M (list ascii) := fun w =>
  let pop := list_ascii_of_string population in
  let n := length pop in
  (Ok (map (fun i => nth (randbelow host (draws w + i) n mod n) pop Ascii.zero) (seq 0 k)),
   set_draws (draws w + k) w).

Definition root_fs_properties : list (string * string) :=
  [("mountpoint", "/");
   ("canmount", "noauto");
   ("org.zfsbootmenu:rootprefix", "root=zfs:");
   ("org.zfsbootmenu:commandline", "ro quiet")].

Definition create_zfs_pools_and_file_systems : M (list Path) :=
  let root_pool := CONFIG.(Config.root_pool) in
  sys ["zgenhostid"] true;;
  root_key_file ← zpool_create root_pool (Some NEW_SYSTEM_ROOT)
                     (if truthy CONFIG.(Config.swap_size) then "-part3" else "-part2");
  data_key_files ← collect CONFIG.(Config.data_pools) (fun pool => zpool_create pool None "");
  let pool_key_files := root_key_file :: data_key_files in
  zfs_create root_pool "ROOT" [("mountpoint", "none")];;
  suffix ← choices (ascii_lowercase +:+ digits) 6;
  let root_fs_name := "ROOT/fedora_" +:+ string_of_list_ascii suffix in
  zfs_create root_pool root_fs_name root_fs_properties;;
  sys ["zfs"; "mount"; root_pool.(ZfsPool.name) +:+ "/" +:+ root_fs_name] true;;
  sys ["zpool"; "set"; "bootfs=" +:+ root_pool.(ZfsPool.name) +:+ "/" +:+ root_fs_name;
       root_pool.(ZfsPool.name)] true;;
  zfs_create root_pool "home" [("mountpoint", "/home")];;
  zfs_create root_pool "home/root" [("mountpoint", "/root")];;
  for_ CONFIG.(Config.users) (fun user =>
    zfs_create root_pool ("home/" +:+ user.(User.name)) []);;
  mret (omap id pool_key_files).

(** [Path.cwd()]: the working directory as the process sees it. *)
Definition Path_cwd : M Path := fun w =>
  (Ok (mkPath "/" (drop (length (parts (root w))) (parts (cwd w)))), w).

(** [next(iter(xs))] *)
Definition next {A} (xs : list A) : M A :=
  match xs with
  | x :: _ => mret x
  | [] => raise StopIteration
  end.

Definition setup_efi_partitions_and_install_zfsbootmenu : M (list string) :=
  sys ["curl"; "--remote-name"; "--remote-header-name"; "--location";
       "https://get.zfsbootmenu.org/efi"] true;;
  zfsbootmenu_image ← (if negb CONFIG.(Config.dry_mode)
                       then here ← Path_cwd;
                            found ← glob here "zfsbootmenu-*";
                            next found
                       else mret (Path_of "zbfsbootmenu.efi"));
  let efis_dir := NEW_SYSTEM_ROOT // "boot/efis" in
  collect CONFIG.(Config.root_pool).(ZfsPool.disks) (fun disk =>
    sys ["mkfs.fat"; "-F"; "32"; "-s"; "1"; "-n"; "EFI"; str disk +:+ "-part1"] true;;
    efi_disk_uuid ← sys_output ["blkid"; "--match-tag"; "UUID"; "--output"; "value";
                                str disk +:+ "-part1"] "A48C-0D61" false;
    let disk_efi_dir := efis_dir // efi_disk_uuid in
    mkdir disk_efi_dir;;
    sys ["mount"; str disk +:+ "-part1"; str disk_efi_dir] true;;
    copy2 zfsbootmenu_image disk_efi_dir;;
    sys ["efibootmgr"; "--create";
         "--disk"; str disk;
         "--part"; "1";
         "--label"; "ZFSBootMenu (" +:+ efi_disk_uuid +:+ ")";
         "--loader"; "\" +:+ Path_name zfsbootmenu_image] true;;
    mret efi_disk_uuid).

Definition install_packages (version_id : Z) : M unit :=
  match Py.index "_" CONFIG.(Config.locale) with
  | None => raise (ValueError "substring not found")
  | Some i =>
      let locale_lang := Py.take i CONFIG.(Config.locale) in
      dnf_install
        ([zfs_release_rpm version_id;
          "@core"; "kernel"; "kernel-devel"; "kexec-tools"; "efibootmgr";
          "glibc-minimal-langpack"; "glibc-langpack-" +:+ locale_lang;
          "zfs"; "zfs-dracut"] ++ CONFIG.(Config.packages))
        (Some NEW_SYSTEM_ROOT) (Some version_id);;
      when (Z.ltb 37 version_id)
        (sys ["sed"; "--in-place"; "s/$releasever/37/g";
              str (NEW_SYSTEM_ROOT // "etc" // "yum.repos.d" // "zfs.repo")] true)
  end.

(** *** Files of the new system *)

Definition crypttab_contents : string :=
  String.concat ""
    (imap (fun i disk =>
             "cryptswap" +:+ Py.str_int (Z.of_nat i + 1) +:+ " " +:+ str disk
             +:+ "-part2 /dev/urandom "
             +:+ "swap,cipher=aes-xts-plain64:sha256,size=256,discard" +:+ Py.NL)
          CONFIG.(Config.root_pool).(ZfsPool.disks)).

Definition write_crypttab : M unit :=
  when (truthy CONFIG.(Config.swap_size))
    (cat_to_file (NEW_SYSTEM_ROOT // "etc/crypttab") crypttab_contents).

Definition fstab_efi_line (efi_disk_uuid : string) : string :=
  "/dev/disk/by-uuid/" +:+ efi_disk_uuid +:+ " /boot/efis/" +:+ efi_disk_uuid +:+ " "
  +:+ "vfat umask=0077,shortname=winnt,nofail 0 2" +:+ Py.NL.

Definition fstab_swap_line (i : nat) : string :=
  "/dev/mapper/cryptswap" +:+ Py.str_int (Z.of_nat i + 1) +:+ " none swap "
  +:+ "x-systemd.requires=cryptsetup.target,defaults 0 0" +:+ Py.NL.

(** The value of the local [contents] of [write_fstab] when it is written. *)
Definition fstab_contents (efi_disk_uuids : list string) : string :=
  let disks := CONFIG.(Config.root_pool).(ZfsPool.disks) in
  String.concat "" (map (fun de => fstab_efi_line (snd de)) (zip disks efi_disk_uuids))
  +:+ (if truthy CONFIG.(Config.swap_size)
       then String.concat "" (map fstab_swap_line (seq 0 (length disks)))
       else "").

Definition write_fstab (efi_disk_uuids : list string) : M unit :=
  cat_to_file (NEW_SYSTEM_ROOT // "etc/fstab") (fstab_contents efi_disk_uuids).

Definition write_dracut_zfs_conf (pool_key_files : list Path) : M unit :=
  cat_to_file (NEW_SYSTEM_ROOT // "etc/dracut.conf.d/zfs.conf")
    ("add_dracutmodules+=" +:+ Py.DQUOTE +:+ " zfs " +:+ Py.DQUOTE +:+ Py.NL
     +:+ match pool_key_files with
         | [] => ""
         | _ => "install_items+=" +:+ Py.DQUOTE +:+ " "
                +:+ Py.join " " (map str pool_key_files) +:+ " " +:+ Py.DQUOTE +:+ Py.NL
         end).

(** [Path(file).read_text(encoding="UTF-8")] *)
Definition read_text (file : Path) : M string :=
  h ← history;
  perform (ReadText file);;
  mret (file_text host h file).

Definition PROPS_prefix : string := "PROPS=" +:+ Py.DQUOTE.

Definition write_zfs_mount_generator_cache : M unit :=
  zfs_properties_text ← read_text (Path_of "/etc/zfs/zed.d/history_event-zfs-list-cacher.sh");
  let zfs_properties :=
    foldl (fun found line =>
             if Py.startswith PROPS_prefix line
             then Some (Py.drop_last (Py.drop (String.length PROPS_prefix) line))
             else found)
          None
          (Py.splitlines (Py.replace ("\" +:+ Py.NL) "" zfs_properties_text)) in
  match zfs_properties with
  | None | Some EmptyString =>
      raise (Exception "Could not determine properties for /etc/zfs/zfs-list.cache")
  | Some zfs_properties =>
      let zfs_list_cache_dir := NEW_SYSTEM_ROOT // "etc/zfs/zfs-list.cache" in
      mkdir zfs_list_cache_dir;;
      for_ CONFIG_POOLS (fun pool =>
        let name := pool.(ZfsPool.name) in
        properties_of_pool ←
          sys_output ["zfs"; "list"; "-H"; "-r"; "-t"; "filesystem"; "-o"; zfs_properties; name]
            (Py.join Py.TAB [name; "/"; "off"; "on"; "on"; "on"; "on"; "off"; "on"; "off";
                             name; "prompt"; "-"; "-"; "-"; "-"; "-"; "-"; "-"; "-"])
            false;
        let properties_of_pool :=
          if decide (pool = CONFIG.(Config.root_pool))
          then Py.replace (str NEW_SYSTEM_ROOT +:+ Py.TAB) ("/" +:+ Py.TAB)
                 (Py.replace (str NEW_SYSTEM_ROOT +:+ "/") "/" properties_of_pool)
          else properties_of_pool in
        cat_to_file (zfs_list_cache_dir // name) properties_of_pool)
  end.

Definition run_systemd_firstboot_and_enable_services : M unit :=
  rm (NEW_SYSTEM_ROOT // "etc/localtime");;
  sys ["systemd-firstboot";
       "--root=" +:+ str NEW_SYSTEM_ROOT;
       "--locale=" +:+ CONFIG.(Config.locale);
       "--locale-messages=" +:+ CONFIG.(Config.locale);
       "--keymap=" +:+ CONFIG.(Config.keymap);
       "--timezone=" +:+ CONFIG.(Config.timezone);
       "--hostname=" +:+ CONFIG.(Config.hostname);
       "--force"] true;;
  sys ["systemctl"; "--root=" +:+ str NEW_SYSTEM_ROOT; "enable";
       "systemd-timesyncd"; "zfs-import-cache"; "zfs-zed"; "zfs-import.target";
       "zfs.target"] true.

Definition compile_kernel_dkms_modules_and_generate_initramfs : M unit :=
  kernels ← sys_output ["rpm"; "--query"; "kernel"] "kernel-5.17.5-200.fc35.x86_64" false;
  for_ (Py.splitlines kernels) (fun kernel_version =>
    let version := Py.drop (String.length "kernel-") kernel_version in
    sys ["kernel-install"; "add"; version; "/usr/lib/modules/" +:+ version +:+ "/vmlinuz"]
        true).

Definition S_IRUSR : Z := 256.
Definition S_IWUSR : Z := 128.
Definition S_IXUSR : Z := 64.

Definition setup_users : M unit :=
  passwd "root" CONFIG.(Config.root_password) true;;
  for_ CONFIG.(Config.users) (fun user =>
    let user_home_dir := Path_of "/home" // user.(User.name) in
    sys (["useradd"; "--user-group"]
         ++ (if user.(User.wheel) then ["--groups"; "wheel"] else [])
         ++ (if truthy user.(User.comment) then ["--comment"; user.(User.comment)] else [])
         ++ ["--no-create-home"; "--home-dir"; str user_home_dir]
         ++ [user.(User.name)]) true;;
    sys ["zfs"; "allow"; "-u"; user.(User.name); "mount,snapshot,destroy";
         CONFIG.(Config.root_pool).(ZfsPool.name) +:+ "/home/" +:+ user.(User.name)] true;;
    copytree (Path_of "/etc/skel") user_home_dir;;
    chown user_home_dir user.(User.name) user.(User.name) true;;
    chmod user_home_dir (Z.lor (Z.lor S_IRUSR S_IWUSR) S_IXUSR);;
    sys ["restorecon"; str user_home_dir] true;;
    passwd user.(User.name) user.(User.password) false).

(** *** The run *)

Definition main : M unit :=
  check_config_for_errors;;
  sys ["setenforce"; "0"] true;;
  version_text ← sys_output
                   ["source /etc/os-release; echo "
                    +:+ Py.DQUOTE +:+ "$VERSION_ID" +:+ Py.DQUOTE] "36" true;
  version_id ← match PyInt.int version_text with
               | Some n => mret n
               | None => raise (ValueError "invalid literal for int() with base 10")
               end;
  install_zfs_to_live_environment version_id;;
  blkdiscard_and_zero_disks;;
  partition_root_pool_disks;;
  pool_key_files ← create_zfs_pools_and_file_systems;
  efi_disk_uuids ← setup_efi_partitions_and_install_zfsbootmenu;
  for_ ["dev"; "proc"; "sys"] (fun rbind_dir =>
    mkdir (NEW_SYSTEM_ROOT // rbind_dir);;
    sys ["mount"; "--rbind"; "/" +:+ rbind_dir; str (NEW_SYSTEM_ROOT // rbind_dir)] true);;
  install_packages version_id;;
  write_crypttab;;
  write_fstab efi_disk_uuids;;
  write_dracut_zfs_conf pool_key_files;;
  write_zfs_mount_generator_cache;;
  copy2 (Path_of "/etc/hostid") (NEW_SYSTEM_ROOT // "etc");;
  for_ pool_key_files (fun pool_key_file =>
    copy2 pool_key_file (NEW_SYSTEM_ROOT // "etc/zfs"));;
  run_systemd_firstboot_and_enable_services;;
  chroot NEW_SYSTEM_ROOT
    (sys ["fixfiles"; "-F"; "onboot"] true;;
     for_ CONFIG_POOLS (fun pool =>
       sys ["zpool"; "set"; "cachefile=/etc/zfs/zpool.cache"; pool.(ZfsPool.name)] true);;
     compile_kernel_dkms_modules_and_generate_initramfs;;
     setup_users);;
  sys ["zfs"; "snapshot"; "-r";
       CONFIG.(Config.root_pool).(ZfsPool.name) +:+ "@" +:+ today host
       +:+ "-before-first-boot"] true;;
  sys ["umount"; "--recursive"; "--lazy"; str NEW_SYSTEM_ROOT] true;;
  sleep 10;;
  sys ["zpool"; "export"; "-a"] true.

End Installer.

(** * Specification vocabulary *)

(** ** Summaries of runs *)

(** The world after [lines] were logged and nothing else happened. *)
Definition emit (lines : list string) (w : world) : world :=
  set_log (fun l => l ++ lines) w.

(** The world after [lines] were logged and the calls [ops] were made. *)
Definition advance (lines : list string) (ops : list os_op) (w : world) : world :=
  set_trace (fun t => t ++ ops) (emit lines w).

(** [yields cfg m v lines ops]: in dry mode [m] returns [v] and only logs
    [lines]; in live mode, whenever [m] returns, it returns [v] having
    logged [lines] and made exactly the calls [ops]. *)
Definition yields {A} (CONFIG : Config.t) (m : M A) (v : A)
    (lines : list string) (ops : list os_op) : Prop :=
  forall w,
    if CONFIG.(Config.dry_mode)
    then m w = (Ok v, emit lines w)
    else is_ok (m w).1 = true -> m w = (Ok v, advance lines ops w).

(** [completes m]: [m] returns normally from every world. *)
Definition completes {A} (m : M A) : Prop :=
  forall w, is_ok (m w).1 = true.

(** A host on which no call fails and every program exits with status 0. *)
Definition obliging (host : Host) : Prop :=
  (forall h op, os_error host h op = None)
  /\ (forall h args shell, (run host h args shell).1 = 0).

(** [dry_yields m v lines]: [m] returns [v] and only logs [lines]. *)
Definition dry_yields {A} (m : M A) (v : A) (lines : list string) : Prop :=
  forall w, m w = (Ok v, emit lines w).

(** [only_logs m]: [m] returns, whatever the world, and only logs. *)
Definition only_logs {A} (m : M A) : Prop :=
  exists v lines, dry_yields m v lines.

(** ** Key files and partitions *)

(** The lines [cat_to_file] logs. *)
Definition cat_to_file_lines (file : Path) (contents : string) : list string :=
  ("cat > " +:+ str file +:+ " << EOF") :: Py.splitlines contents ++ ["EOF"].

(** The key file of a pool: [/etc/zfs/<pool>.key] when the pool has a
    password, none otherwise. *)
Definition key_file_of (pool : ZfsPool.t) : option Path :=
  if truthy pool.(ZfsPool.password)
  then Some (Path_of ("/etc/zfs/" +:+ pool.(ZfsPool.name) +:+ ".key"))
  else None.

(** What creating the key file logs and does. *)
Definition key_file_lines (pool : ZfsPool.t) : list string :=
  match key_file_of pool with
  | Some key_file =>
      cat_to_file_lines key_file (pool.(ZfsPool.password) +:+ Py.NL)
      ++ ["chmod 0 " +:+ str key_file +:+ " "]
  | None => []
  end.

Definition key_file_ops (pool : ZfsPool.t) : list os_op :=
  match key_file_of pool with
  | Some key_file =>
      [WriteText key_file (pool.(ZfsPool.password) +:+ Py.NL); Chmod key_file 0]
  | None => []
  end.

(** The [sgdisk] invocations for one disk of the root pool. *)
Definition sgdisk_zap (disk : Path) : list string :=
  ["sgdisk"; "--zap-all"; str disk].

Definition sgdisk_new_efi (disk : Path) : list string :=
  ["sgdisk"; "--new=0:1M:+512M"; "--typecode=0:EF00";
   "--change-name=0:EFI System Partition"; str disk].

Definition sgdisk_new_swap (CONFIG : Config.t) (disk : Path) : list string :=
  ["sgdisk"; "--new=0:0:+" +:+ CONFIG.(Config.swap_size); "--typecode=0:8200";
   "--change-name=0:Swap"; str disk].

Definition sgdisk_new_pool (CONFIG : Config.t) (disk : Path) : list string :=
  ["sgdisk"; "--new=0:0:0"; "--typecode=0:BF00";
   "--change-name=0:ZFS Pool " +:+ CONFIG.(Config.root_pool).(ZfsPool.name); str disk].

(** The partition-creating invocations for one disk, in order. *)
Definition partition_creations (CONFIG : Config.t) (disk : Path) : list (list string) :=
  [sgdisk_new_efi disk]
  ++ (if truthy CONFIG.(Config.swap_size) then [sgdisk_new_swap CONFIG disk] else [])
  ++ [sgdisk_new_pool CONFIG disk].

(** An [sgdisk] invocation creates a partition when its first option is
    [--new=...]. *)
Definition creates_partition (argv : list string) : bool :=
  match argv with
  | _ :: option :: _ => String.prefix "--new=" option
  | _ => false
  end.

(** The suffix of the pool-member partition of a root-pool disk. *)
Definition root_partition_suffix (CONFIG : Config.t) : string :=
  if truthy CONFIG.(Config.swap_size) then "-part3" else "-part2".

(** ** Pools and file systems *)

(** What one [zpool_create] logs and does. *)
Definition zpool_create_lines (pool : ZfsPool.t) (altroot : option Path)
    (partition : string) : list string :=
  key_file_lines pool
  ++ [command_line (zpool_create_args pool (key_file_of pool) altroot partition)].

Definition zpool_create_ops (pool : ZfsPool.t) (altroot : option Path)
    (partition : string) : list os_op :=
  key_file_ops pool
  ++ [Exec (zpool_create_args pool (key_file_of pool) altroot partition) false].

(** The commands that create the pools: [zgenhostid], the root pool, the
    data pools. *)
Definition create_pools_lines (CONFIG : Config.t) : list string :=
  "zgenhostid"
  :: zpool_create_lines CONFIG.(Config.root_pool) (Some NEW_SYSTEM_ROOT)
       (root_partition_suffix CONFIG)
  ++ flat_map (fun pool => zpool_create_lines pool None "") CONFIG.(Config.data_pools).

Definition create_pools_ops (CONFIG : Config.t) : list os_op :=
  Exec ["zgenhostid"] false
  :: zpool_create_ops CONFIG.(Config.root_pool) (Some NEW_SYSTEM_ROOT)
       (root_partition_suffix CONFIG)
  ++ flat_map (fun pool => zpool_create_ops pool None "") CONFIG.(Config.data_pools).

(** The six characters [create_zfs_pools_and_file_systems] draws in [w]. *)
Definition drawn_suffix (host : Host) (w : world) : string :=
  match (choices host (ascii_lowercase +:+ digits) 6 w).1 with
  | Ok cs => string_of_list_ascii cs
  | Raise _ => ""
  end.

(** The commands that create the file systems of the root pool, in order,
    for the root file system [ROOT/fedora_<suffix>]. *)
Definition create_file_systems_plan (CONFIG : Config.t) (suffix : string)
  : list (list string) :=
  let rpool := CONFIG.(Config.root_pool).(ZfsPool.name) in
  let root_fs := rpool +:+ "/ROOT/fedora_" +:+ suffix in
  [ ["zfs"; "create"; "-o"; "mountpoint=none"; rpool +:+ "/ROOT"];
    ["zfs"; "create"; "-o"; "mountpoint=/"; "-o"; "canmount=noauto";
     "-o"; "org.zfsbootmenu:rootprefix=root=zfs:";
     "-o"; "org.zfsbootmenu:commandline=ro quiet"; root_fs];
    ["zfs"; "mount"; root_fs];
    ["zpool"; "set"; "bootfs=" +:+ root_fs; rpool];
    ["zfs"; "create"; "-o"; "mountpoint=/home"; rpool +:+ "/home"];
    ["zfs"; "create"; "-o"; "mountpoint=/root"; rpool +:+ "/home/root"] ]
  ++ map (fun user => ["zfs"; "create"; rpool +:+ "/home/" +:+ user.(User.name)])
         CONFIG.(Config.users).

(** The key files [create_zfs_pools_and_file_systems] returns. *)
Definition pool_key_files_of (CONFIG : Config.t) : list Path :=
  omap id (key_file_of CONFIG.(Config.root_pool)
           :: map key_file_of CONFIG.(Config.data_pools)).

(** ** The boot provisioner *)

Definition blkid_args (disk : Path) : list string :=
  ["blkid"; "--match-tag"; "UUID"; "--output"; "value"; str disk +:+ "-part1"].

(** [uuid] is what was read back for the EFI partition of [disk]: the
    placeholder in dry mode, and in live mode the output of [blkid] on that
    partition (at some point of the run) without its last character. *)
Definition read_back (host : Host) (CONFIG : Config.t) (disk : Path) (uuid : string)
  : Prop :=
  if CONFIG.(Config.dry_mode)
  then uuid = "A48C-0D61"
  else exists h, uuid = Py.drop_last (run host h (blkid_args disk) false).2.

(** What the boot provisioner logs for one disk in dry mode. *)
Definition efi_dry_lines (disk : Path) : list string :=
  let dir := NEW_SYSTEM_ROOT // "boot/efis" // "A48C-0D61" in
  [command_line ["mkfs.fat"; "-F"; "32"; "-s"; "1"; "-n"; "EFI"; str disk +:+ "-part1"];
   command_line (blkid_args disk);
   "#> A48C-0D61";
   "mkdir --parents " +:+ str dir;
   command_line ["mount"; str disk +:+ "-part1"; str dir];
   "cp --archive zbfsbootmenu.efi " +:+ str dir;
   command_line ["efibootmgr"; "--create"; "--disk"; str disk; "--part"; "1";
                 "--label"; "ZFSBootMenu (A48C-0D61)"; "--loader"; "\zbfsbootmenu.efi"]].

(** ** The isolated root *)

(** The world in which the body of [with chroot(newroot)] starts: the
    entry is logged and a descriptor for the current root is open; in live
    mode the process has moved to [newroot] and made it its root. *)
Definition chroot_entered (CONFIG : Config.t) (newroot : Path) (w : world) : world :=
  let w0 := set_fds (fun t => (fresh_fd (fds w), root w) :: t)
                    (emit ["chroot " +:+ str newroot] w) in
  if CONFIG.(Config.dry_mode) then w0
  else let w1 := set_trace (fun t => t ++ [Chdir newroot]) w0 in
       set_root (resolve w1 newroot) (set_cwd (resolve w1 newroot) w1).

(** The world [with chroot(newroot)] leaves behind when its body ended in
    [w1] with the descriptor [fd] still open on [dir]: the exit is logged,
    in live mode the process is back in [dir] with [dir] as its root, and
    the descriptor is closed. *)
Definition chroot_left (CONFIG : Config.t) (newroot : Path) (fd : nat) (dir : Path)
    (w1 : world) : world :=
  let w2 := emit ["exit  # chroot " +:+ str newroot] w1 in
  set_fds (fd_remove fd)
          (if CONFIG.(Config.dry_mode) then w2 else set_root dir (set_cwd dir w2)).

(** ** What the configuration check accepts *)

(** A pool has a disk; a [single] pool has one, any other kind not one. *)
Definition pool_shape_ok (pool : ZfsPool.t) : Prop :=
  pool.(ZfsPool.disks) <> []
  /\ (pool.(ZfsPool.kind) = "single" -> length pool.(ZfsPool.disks) = 1%nat)
  /\ (pool.(ZfsPool.kind) <> "single" -> length pool.(ZfsPool.disks) <> 1%nat).

(** No pool name twice, every pool well shaped, no disk twice in the disk
    lists of all pools taken together, no user name twice. *)
Definition config_ok (CONFIG : Config.t) : Prop :=
  NoDup (map ZfsPool.name (CONFIG_POOLS CONFIG))
  /\ Forall pool_shape_ok (CONFIG_POOLS CONFIG)
  /\ NoDup (concat (map ZfsPool.disks (CONFIG_POOLS CONFIG)))
  /\ NoDup (map User.name CONFIG.(Config.users)).

(** The messages of the check, each naming what it found. *)
Definition pool_complaint (pools : list ZfsPool.t) (msg : string) : Prop :=
  exists pool, pool ∈ pools /\
    (msg = "Name '" +:+ pool.(ZfsPool.name) +:+ "' configured for multiple pools."
     \/ msg = "Pool " +:+ pool.(ZfsPool.name) +:+ " configured without disks."
     \/ msg = "Pool " +:+ pool.(ZfsPool.name)
              +:+ " kind 'single' configured with more than one disk."
     \/ msg = "Pool " +:+ pool.(ZfsPool.name) +:+ " kind '" +:+ pool.(ZfsPool.kind)
              +:+ "' configured with only one disk."
     \/ exists disk, disk ∈ pool.(ZfsPool.disks)
                     /\ msg = "Disk '" +:+ str disk +:+ "' configured multiple times.").

Definition user_complaint (users : list User.t) (msg : string) : Prop :=
  exists user, user ∈ users
    /\ msg = "Name '" +:+ user.(User.name) +:+ "' configured for multiple users.".

(** What [check_pools] accepts, given the names and disks already seen. *)
Definition pools_ok (pools : list ZfsPool.t) (seen_pool_names : gset string)
    (seen_disks : gset Path) : Prop :=
  NoDup (map ZfsPool.name pools)
  /\ (forall p, p ∈ pools -> p.(ZfsPool.name) ∉ seen_pool_names)
  /\ Forall pool_shape_ok pools
  /\ NoDup (concat (map ZfsPool.disks pools))
  /\ (forall d, d ∈ concat (map ZfsPool.disks pools) -> d ∉ seen_disks).

(** Following the words of the claim: the configurations it says are
    rejected.  [shares_disk_across] holds when a disk is assigned to more
    than one pool. *)
Fixpoint shares_disk_across (pools : list ZfsPool.t) : bool :=
  match pools with
  | [] => false
  | pool :: others =>
      existsb (fun other =>
                 existsb (fun disk => bool_decide (disk ∈ other.(ZfsPool.disks)))
                         pool.(ZfsPool.disks)) others
      || shares_disk_across others
  end.

Definition rejected_as_claimed (CONFIG : Config.t) : bool :=
  let pools := CONFIG_POOLS CONFIG in
  bool_decide (~ NoDup (map ZfsPool.name pools))
  || shares_disk_across pools
  || existsb (fun pool => String.eqb pool.(ZfsPool.kind) "single"
                          && ((1 <? length pool.(ZfsPool.disks))%nat
                              || (length pool.(ZfsPool.disks) =? 0)%nat)) pools
  || existsb (fun pool => negb (String.eqb pool.(ZfsPool.kind) "single")
                          && (length pool.(ZfsPool.disks) =? 1)%nat) pools
  || bool_decide (~ NoDup (map User.name CONFIG.(Config.users))).

(** ** What a run leaves in place *)

(** From [w] to [w'] the log and the trace were only appended to, and every
    call appended satisfies [P]. *)
Definition grows_by (P : os_op -> Prop) (w w' : world) : Prop :=
  (exists lines, log w' = log w ++ lines)
  /\ (exists ops, trace w' = trace w ++ ops /\ Forall P ops).

(** As [grows_by], and the process has the root, the working directory and
    the descriptors it had. *)
Definition quiet (P : os_op -> Prop) (w w' : world) : Prop :=
  grows_by P w w' /\ root w' = root w /\ cwd w' = cwd w /\ fds w' = fds w.

(** As [grows_by], and the process has the root and the descriptors it
    had (the working directory may have moved). *)
Definition rooted (P : os_op -> Prop) (w w' : world) : Prop :=
  grows_by P w w' /\ root w' = root w /\ fds w' = fds w.

(** [steady R m]: whatever [m] does, returning or raising, the world it
    leaves is related by [R] to the one it started from. *)
Definition steady (R : world -> world -> Prop) {A} (m : M A) : Prop :=
  forall w, R w (m w).2.

(** The script [write_zfs_mount_generator_cache] reads the property list
    from. *)
Definition cacher_script : Path :=
  Path_of "/etc/zfs/zed.d/history_event-zfs-list-cacher.sh".

(** ** Texts

    [one_line s]: no character of [s] is a line boundary of
    [str.splitlines]. *)
Fixpoint one_line (s : string) : bool :=
  match s with
  | EmptyString => true
  | String c r => negb (Py.is_linebreak c) && one_line r
  end.

(** What [write_zfs_mount_generator_cache] takes for the properties out of
    the text of the event script: the value of its local [zfs_properties]
    after the loop over the lines, [None] when no line starts with
    [PROPS_prefix]. *)
Definition zfs_properties_of (zfs_properties_text : string) : option string :=
  foldl (fun found line =>
           if Py.startswith PROPS_prefix line
           then Some (Py.drop_last (Py.drop (String.length PROPS_prefix) line))
           else found)
        None
        (Py.splitlines (Py.replace ("\" +:+ Py.NL) "" zfs_properties_text)).

(** The name of the [i]-th encrypted swap device, counted from 0. *)
Definition cryptswap_name (i : nat) : string :=
  "cryptswap" +:+ Py.str_int (Z.of_nat i + 1).

(** ** Sample inputs *)

(** The configuration the script ships with. *)
Definition shipped_file_system_properties : list (string * string) :=
  [("acltype", "posixacl"); ("compression", "zstd"); ("dnodesize", "auto");
   ("normalization", "formD"); ("utf8only", "on"); ("relatime", "on"); ("xattr", "sa")].

Definition shipped_root_pool : ZfsPool.t :=
  {| ZfsPool.name := "rpool";
     ZfsPool.disks := [Path_of "/dev/disk/by-path/pci-0000:05:00.0"];
     ZfsPool.mountpoint := Some MountNone;
     ZfsPool.kind := "single";
     ZfsPool.password := "change this pass";
     ZfsPool.pool_properties := [("ashift", "13"); ("autotrim", "on")];
     ZfsPool.file_system_properties := shipped_file_system_properties |}.

Definition shipped_data_pool : ZfsPool.t :=
  {| ZfsPool.name := "rdata";
     ZfsPool.disks := [Path_of "/dev/disk/by-path/pci-0000:06:00.0";
                       Path_of "/dev/disk/by-path/pci-0000:07:00.0"];
     ZfsPool.mountpoint := None;
     ZfsPool.kind := "mirror";
     ZfsPool.password := "change this pass";
     ZfsPool.pool_properties := [("ashift", "12"); ("autotrim", "on")];
     ZfsPool.file_system_properties := shipped_file_system_properties |}.

Definition shipped_CONFIG : Config.t :=
  {| Config.root_pool := shipped_root_pool;
     Config.data_pools := [shipped_data_pool];
     Config.swap_size := "1G";
     Config.root_password := "";
     Config.users := [User.mk "myuser" "John Doe" "change this pass" true];
     Config.packages := ["@workstation-product-environment"];
     Config.locale := "en_US.UTF-8";
     Config.keymap := "us-altgr-intl";
     Config.timezone := "Europe/Berlin";
     Config.hostname := "myhostname";
     Config.zero_disks := false;
     Config.dry_mode := true |}.

Definition with_dry_mode (b : bool) (c : Config.t) : Config.t :=
  Config.mk c.(Config.root_pool) c.(Config.data_pools) c.(Config.swap_size)
    c.(Config.root_password) c.(Config.users) c.(Config.packages) c.(Config.locale)
    c.(Config.keymap) c.(Config.timezone) c.(Config.hostname) c.(Config.zero_disks) b.

Definition with_zero_disks (b : bool) (c : Config.t) : Config.t :=
  Config.mk c.(Config.root_pool) c.(Config.data_pools) c.(Config.swap_size)
    c.(Config.root_password) c.(Config.users) c.(Config.packages) c.(Config.locale)
    c.(Config.keymap) c.(Config.timezone) c.(Config.hostname) b c.(Config.dry_mode).

Definition with_locale (l : string) (c : Config.t) : Config.t :=
  Config.mk c.(Config.root_pool) c.(Config.data_pools) c.(Config.swap_size)
    c.(Config.root_password) c.(Config.users) c.(Config.packages) l
    c.(Config.keymap) c.(Config.timezone) c.(Config.hostname) c.(Config.zero_disks)
    c.(Config.dry_mode).

Definition live_CONFIG : Config.t := with_dry_mode false shipped_CONFIG.

(** A host whose programs all print [out] and exit with [status]. *)
Definition uniform_host (status : Z) (out : string) : Host :=
  {| run := fun _ _ _ => (status, out);
     os_error := fun _ _ => None;
     listing := fun _ _ _ => [Path_of "/root/zfsbootmenu-release-x86_64.EFI"];
     file_text := fun _ _ => "";
     uname_release := "6.2.9-300.fc38.x86_64";
     today := "20230401";
     randbelow := fun i _ => i |}.

Definition quiet_host : Host := uniform_host 0 "".

(** A host on which [dd] exits with status 1 (the disk is full when it has
    been zeroed) and every other program with status 0. *)
Definition dd_fails_host : Host :=
  {| run := fun _ args _ =>
              match args with
              | prog :: _ => if String.eqb prog "dd" then (1, "") else (0, "")
              | [] => (0, "")
              end;
     os_error := fun _ _ => None;
     listing := fun _ _ _ => [];
     file_text := fun _ _ => "";
     uname_release := "6.2.9-300.fc38.x86_64";
     today := "20230401";
     randbelow := fun i _ => i |}.

(** A freshly started process: nothing logged, no call made, root and
    working directory [/], no descriptor open. *)
Definition boot_world : world :=
  {| log := []; trace := []; root := Path_of "/"; cwd := Path_of "/"; fds := [];
     draws := 0 |}.

(** A mirror pool that was given no disk at all. *)
Definition mirror_without_disks : ZfsPool.t :=
  {| ZfsPool.name := "rpool";
     ZfsPool.disks := [];
     ZfsPool.mountpoint := Some MountNone;
     ZfsPool.kind := "mirror";
     ZfsPool.password := "";
     ZfsPool.pool_properties := [];
     ZfsPool.file_system_properties := [] |}.

Definition CONFIG_mirror_without_disks : Config.t :=
  {| Config.root_pool := mirror_without_disks;
     Config.data_pools := [];
     Config.swap_size := "1G";
     Config.root_password := "";
     Config.users := [];
     Config.packages := [];
     Config.locale := "en_US.UTF-8";
     Config.keymap := "us";
     Config.timezone := "UTC";
     Config.hostname := "localhost";
     Config.zero_disks := false;
     Config.dry_mode := true |}.

(** A pool without password whose configured file-system properties ask
    for encryption with a passphrase typed at the prompt. *)
Definition prompt_pool : ZfsPool.t :=
  {| ZfsPool.name := "tank";
     ZfsPool.disks := [Path_of "/dev/sdb"];
     ZfsPool.mountpoint := None;
     ZfsPool.kind := "single";
     ZfsPool.password := "";
     ZfsPool.pool_properties := [];
     ZfsPool.file_system_properties :=
       [("encryption", "aes-256-gcm"); ("keyformat", "passphrase");
        ("keylocation", "prompt")] |}.

(** The scenario of one disk, swap and one user. *)
Definition alice_CONFIG : Config.t :=
  {| Config.root_pool :=
       {| ZfsPool.name := "rpool";
          ZfsPool.disks := [Path_of "/dev/sda"];
          ZfsPool.mountpoint := Some MountNone;
          ZfsPool.kind := "single";
          ZfsPool.password := "";
          ZfsPool.pool_properties := [];
          ZfsPool.file_system_properties := [] |};
     Config.data_pools := [];
     Config.swap_size := "1G";
     Config.root_password := "";
     Config.users := [User.mk "alice" "" "" true];
     Config.packages := [];
     Config.locale := "en_US.UTF-8";
     Config.keymap := "us";
     Config.timezone := "UTC";
     Config.hostname := "localhost";
     Config.zero_disks := false;
     Config.dry_mode := true |}.

(** The scenario of a mirror of two disks without swap. *)
Definition mirror_CONFIG : Config.t :=
  {| Config.root_pool :=
       {| ZfsPool.name := "rpool";
          ZfsPool.disks := [Path_of "/dev/sda"; Path_of "/dev/sdb"];
          ZfsPool.mountpoint := Some MountNone;
          ZfsPool.kind := "mirror";
          ZfsPool.password := "";
          ZfsPool.pool_properties := [];
          ZfsPool.file_system_properties := [] |};
     Config.data_pools := [];
     Config.swap_size := "";
     Config.root_password := "";
     Config.users := [];
     Config.packages := [];
     Config.locale := "en_US.UTF-8";
     Config.keymap := "us";
     Config.timezone := "UTC";
     Config.hostname := "localhost";
     Config.zero_disks := false;
     Config.dry_mode := true |}.

(** * Reasoning about runs *)

Section Runs.

Variable host : Host.
Variable CONFIG : Config.t.

Lemma bind_run {A B} (m : M A) (k : A -> M B) (w : world) :
  (m ≫= k) w =
  match m w with
  | (Ok a, w') => k a w'
  | (Raise e, w') => (Raise e, w')
  end.
Proof. reflexivity. Qed.

Lemma bind_ok {A B} (m : M A) (k : A -> M B) w a w' :
  m w = (Ok a, w') -> (m ≫= k) w = k a w'.
Proof. intros H. rewrite bind_run, H. reflexivity. Qed.

Lemma bind_raise {A B} (m : M A) (k : A -> M B) w e w' :
  m w = (Raise e, w') -> (m ≫= k) w = (Raise e, w').
Proof. intros H. rewrite bind_run, H. reflexivity. Qed.

(** A bind that returns went through both of its halves. *)
Lemma bind_inv {A B} (m : M A) (k : A -> M B) w b w' :
  (m ≫= k) w = (Ok b, w') ->
  exists a w1, m w = (Ok a, w1) /\ k a w1 = (Ok b, w').
Proof.
  rewrite bind_run. destruct (m w) as [[a|e] w1]; intros H.
  - exists a, w1. split; [reflexivity | exact H].
  - discriminate H.
Qed.

Lemma bind_is_ok {A B} (m : M A) (k : A -> M B) w :
  is_ok ((m ≫= k) w).1 = true -> is_ok (m w).1 = true.
Proof.
  rewrite bind_run. destruct (m w) as [[a|e] w1]; simpl; [reflexivity | intros H; exact H].
Qed.

Lemma emit_nil w : emit [] w = w.
Proof. destruct w. unfold emit, set_log. simpl. rewrite app_nil_r. reflexivity. Qed.

Lemma emit_emit l1 l2 w : emit l2 (emit l1 w) = emit (l1 ++ l2) w.
Proof. destruct w. unfold emit, set_log. simpl. rewrite app_assoc. reflexivity. Qed.

Lemma advance_nil w : advance [] [] w = w.
Proof.
  destruct w. unfold advance, emit, set_log, set_trace. simpl.
  rewrite !app_nil_r. reflexivity.
Qed.

Lemma advance_advance l1 o1 l2 o2 w :
  advance l2 o2 (advance l1 o1 w) = advance (l1 ++ l2) (o1 ++ o2) w.
Proof.
  destruct w. unfold advance, emit, set_log, set_trace. simpl.
  rewrite !app_assoc. reflexivity.
Qed.

Lemma yields_ret {A} (v : A) : yields CONFIG (mret v) v [] [].
Proof.
  intros w. destruct (Config.dry_mode CONFIG).
  - rewrite emit_nil. reflexivity.
  - intros _. rewrite advance_nil. reflexivity.
Qed.

Lemma yields_bind {A B} (m : M A) (k : A -> M B) a b l1 o1 l2 o2 :
  yields CONFIG m a l1 o1 ->
  yields CONFIG (k a) b l2 o2 ->
  yields CONFIG (m ≫= k) b (l1 ++ l2) (o1 ++ o2).
Proof.
  intros Hm Hk w. specialize (Hm w). unfold yields in Hk.
  destruct (Config.dry_mode CONFIG).
  - rewrite (bind_ok _ _ _ _ _ Hm), Hk, emit_emit. reflexivity.
  - intros Hok. pose proof (bind_is_ok _ _ _ Hok) as H1.
    specialize (Hm H1). rewrite (bind_ok _ _ _ _ _ Hm) in Hok |- *.
    rewrite (Hk _ Hok), advance_advance. reflexivity.
Qed.

(** The first half of a bind may be replaced by its summary. *)
Lemma yields_step_dry {A B} (m : M A) (k : A -> M B) a l o w :
  yields CONFIG m a l o -> Config.dry_mode CONFIG = true ->
  (m ≫= k) w = k a (emit l w).
Proof.
  intros Hm Hd. specialize (Hm w). rewrite Hd in Hm. exact (bind_ok _ _ _ _ _ Hm).
Qed.

Lemma yields_step_live {A B} (m : M A) (k : A -> M B) a l o w :
  yields CONFIG m a l o -> Config.dry_mode CONFIG = false ->
  is_ok ((m ≫= k) w).1 = true ->
  (m ≫= k) w = k a (advance l o w).
Proof.
  intros Hm Hd Hok. specialize (Hm w). rewrite Hd in Hm.
  exact (bind_ok _ _ _ _ _ (Hm (bind_is_ok _ _ _ Hok))).
Qed.

Lemma yields_for {A} (xs : list A) (body : A -> M unit) L O :
  (forall x, yields CONFIG (body x) tt (L x) (O x)) ->
  yields CONFIG (for_ xs body) tt (flat_map L xs) (flat_map O xs).
Proof.
  intros Hbody. induction xs as [|x xs IH]; simpl.
  - apply yields_ret.
  - eapply yields_bind; [apply Hbody | exact IH].
Qed.

Lemma yields_collect {A B} (xs : list A) (body : A -> M B) f L O :
  (forall x, yields CONFIG (body x) (f x) (L x) (O x)) ->
  yields CONFIG (collect xs body) (map f xs) (flat_map L xs) (flat_map O xs).
Proof.
  intros Hbody. induction xs as [|x xs IH]; simpl.
  - apply yields_ret.
  - eapply yields_bind; [apply Hbody |].
    rewrite <- (app_nil_r (flat_map L xs)), <- (app_nil_r (flat_map O xs)).
    eapply yields_bind; [exact IH | apply yields_ret].
Qed.

Lemma yields_when (c : bool) (m : M unit) l o :
  yields CONFIG m tt l o ->
  yields CONFIG (when c m) tt (if c then l else []) (if c then o else []).
Proof. intros H. destruct c; simpl; [exact H | apply yields_ret]. Qed.

Lemma yields_info line : yields CONFIG (info line) tt [line] [].
Proof.
  intros w. destruct (Config.dry_mode CONFIG); [reflexivity |].
  intros _. destruct w. unfold advance, emit, set_trace, set_log, info, update. simpl.
  rewrite app_nil_r. reflexivity.
Qed.

(** A call made only outside dry mode. *)
Lemma yields_live_perform op :
  yields CONFIG (when (negb CONFIG.(Config.dry_mode)) (perform host op)) tt [] [op].
Proof.
  intros w. destruct (Config.dry_mode CONFIG); simpl.
  - rewrite emit_nil. reflexivity.
  - unfold perform. destruct (os_error host (trace w) op); simpl; [discriminate |].
    intros _. destruct w. unfold advance, emit, set_trace, set_log. simpl.
    rewrite app_nil_r. reflexivity.
Qed.

Lemma yields_logged_perform line op :
  yields CONFIG (info line;; when (negb CONFIG.(Config.dry_mode)) (perform host op))
         tt [line] [op].
Proof.
  change [line] with ([line] ++ []). change [op] with ([] ++ [op]).
  eapply yields_bind; [apply yields_info | apply yields_live_perform].
Qed.

Lemma yields_sys args ignore_exit_code :
  yields CONFIG (sys host CONFIG args ignore_exit_code) tt
         [command_line args] [Exec args false].
Proof.
  unfold sys.
  change [command_line args] with ([command_line args] ++ []).
  change [Exec args false] with ([] ++ [Exec args false]).
  eapply yields_bind; [apply yields_info |].
  intros w. destruct (Config.dry_mode CONFIG) eqn:Hd; simpl.
  - rewrite emit_nil. reflexivity.
  - assert (Hadv : set_trace (fun t => t ++ [Exec args false]) w
                   = advance [] [Exec args false] w).
    { destruct w. unfold advance, emit, set_trace, set_log. simpl.
      rewrite app_nil_r. reflexivity. }
    destruct ignore_exit_code.
    + unfold subprocess_check_call, subprocess_run, history, perform.
      rewrite !bind_run. simpl.
      destruct (os_error host (trace w) (Exec args false)); simpl; [discriminate |].
      destruct (Z.eqb _ 0); simpl; [| discriminate].
      intros _. unfold mret, M_ret. rewrite Hadv. reflexivity.
    + unfold subprocess_call, subprocess_run, history, perform.
      rewrite !bind_run. simpl.
      destruct (os_error host (trace w) (Exec args false)); simpl; [discriminate |].
      intros _. unfold mret, M_ret. rewrite Hadv. reflexivity.
Qed.

End Runs.

(** * Summaries of the primitives and of the steps *)

Section Summaries.

Variable host : Host.
Variable CONFIG : Config.t.

Lemma yields_eq {A} (m : M A) v l o l' o' :
  yields CONFIG m v l o -> l = l' -> o = o' -> yields CONFIG m v l' o'.
Proof. intros H -> ->. exact H. Qed.

Lemma yields_for_info lines : yields CONFIG (for_ lines info) tt lines [].
Proof.
  eapply yields_eq.
  - apply (yields_for CONFIG lines info (fun l => [l]) (fun _ => [])).
    intros x. apply yields_info.
  - induction lines as [|x xs IH]; simpl; [reflexivity | rewrite IH; reflexivity].
  - induction lines as [|x xs IH]; simpl; [reflexivity | exact IH].
Qed.

Lemma yields_cat_to_file file contents :
  yields CONFIG (cat_to_file host CONFIG file contents) tt
         (cat_to_file_lines file contents) [WriteText file contents].
Proof.
  unfold cat_to_file, cat_to_file_lines.
  eapply yields_eq.
  - eapply yields_bind; [apply yields_info |].
    eapply yields_bind; [apply yields_for_info |].
    apply yields_logged_perform.
  - reflexivity.
  - reflexivity.
Qed.

Lemma yields_mkdir path :
  yields CONFIG (mkdir host CONFIG path) tt
         ["mkdir --parents " +:+ str path] [Mkdir path].
Proof. apply yields_logged_perform. Qed.

Lemma yields_chmod path mode :
  yields CONFIG (chmod host CONFIG path mode) tt
         ["chmod " +:+ Py.oct mode +:+ " " +:+ str path +:+ " "] [Chmod path mode].
Proof. apply yields_logged_perform. Qed.

Lemma yields_sleep secs :
  yields CONFIG (sleep host CONFIG secs) tt
         ["sleep " +:+ Py.str_int secs] [Sleep secs].
Proof. apply yields_logged_perform. Qed.

Lemma yields_copy2 src dst :
  yields CONFIG (copy2 host CONFIG src dst) tt
         ["cp --archive " +:+ str src +:+ " " +:+ str dst] [Copy2 src dst].
Proof. apply yields_logged_perform. Qed.

Lemma yields_zpool_create pool altroot partition :
  yields CONFIG (zpool_create host CONFIG pool altroot partition) (key_file_of pool)
         (key_file_lines pool
          ++ [command_line (zpool_create_args pool (key_file_of pool) altroot partition)])
         (key_file_ops pool
          ++ [Exec (zpool_create_args pool (key_file_of pool) altroot partition) false]).
Proof.
  unfold zpool_create, key_file_lines, key_file_ops, key_file_of.
  destruct (truthy (ZfsPool.password pool)).
  - eapply yields_eq.
    + eapply yields_bind.
      * eapply yields_bind; [apply yields_cat_to_file |].
        eapply yields_bind; [apply yields_chmod | apply yields_ret].
      * cbv beta. eapply yields_bind; [apply yields_sys | apply yields_ret].
    + reflexivity.
    + reflexivity.
  - eapply yields_eq.
    + eapply yields_bind; [apply yields_ret |].
      cbv beta. eapply yields_bind; [apply yields_sys | apply yields_ret].
    + reflexivity.
    + reflexivity.
Qed.

Lemma yields_zfs_create pool filesystem properties :
  yields CONFIG (zfs_create host CONFIG pool filesystem properties) tt
         [command_line (zfs_create_args pool filesystem properties)]
         [Exec (zfs_create_args pool filesystem properties) false].
Proof. apply yields_sys. Qed.

Lemma yields_partition_root_pool_disks :
  let plan disk := sgdisk_zap disk :: partition_creations CONFIG disk in
  yields CONFIG (partition_root_pool_disks host CONFIG) tt
         (flat_map (fun disk => map command_line (plan disk))
                   CONFIG.(Config.root_pool).(ZfsPool.disks) ++ ["sleep 2"])
         (flat_map (fun disk => map (fun argv => Exec argv false) (plan disk))
                   CONFIG.(Config.root_pool).(ZfsPool.disks) ++ [Sleep 2]).
Proof.
  intros plan. unfold partition_root_pool_disks.
  eapply yields_bind; [| apply yields_sleep].
  apply yields_for. intros disk.
  unfold plan, partition_creations, sgdisk_zap, sgdisk_new_efi,
    sgdisk_new_swap, sgdisk_new_pool.
  eapply yields_eq.
  - eapply yields_bind; [apply yields_sys |].
    eapply yields_bind; [apply yields_sys |].
    eapply yields_bind; [apply yields_when, yields_sys | apply yields_sys].
  - destruct (truthy (Config.swap_size CONFIG)); reflexivity.
  - destruct (truthy (Config.swap_size CONFIG)); reflexivity.
Qed.

End Summaries.

(** * The Execution Gateway *)

Lemma for_info_map (f : string -> string) (lines : list string) (w : world) :
  for_ lines (fun line => info (f line)) w = (Ok tt, emit (map f lines) w).
Proof.
  revert w. induction lines as [|x xs IH]; intros w; simpl.
  - rewrite emit_nil. reflexivity.
  - rewrite bind_run. unfold info at 1, update. rewrite IH.
    change (set_log (fun l => l ++ [f x]) w) with (emit [f x] w).
    rewrite emit_emit. reflexivity.
Qed.

Lemma info_run line w : info line w = (Ok tt, emit [line] w).
Proof. reflexivity. Qed.

(** In live mode too, [sys] logs its command line, whatever happens next. *)
Lemma sys_log host CONFIG args ignore_exit_code w :
  log (sys host CONFIG args ignore_exit_code w).2 = log w ++ [command_line args].
Proof.
  unfold sys. rewrite bind_run. unfold info, update.
  destruct (Config.dry_mode CONFIG); simpl; [reflexivity |].
  destruct ignore_exit_code;
    unfold subprocess_check_call, subprocess_call, subprocess_run, history, perform;
    rewrite !bind_run; simpl;
    destruct (os_error host _ _); simpl; try reflexivity.
  destruct (Z.eqb _ 0); reflexivity.
Qed.

Lemma logged_perform_log host CONFIG line op w :
  log ((info line;; when (negb CONFIG.(Config.dry_mode)) (perform host op)) w).2
  = log w ++ [line].
Proof.
  rewrite bind_run. unfold info, update, perform.
  destruct (Config.dry_mode CONFIG); simpl; [reflexivity |].
  destruct (os_error host _ _); reflexivity.
Qed.

Lemma cat_to_file_log host CONFIG file contents w :
  log (cat_to_file host CONFIG file contents w).2 = log w ++ cat_to_file_lines file contents.
Proof.
  unfold cat_to_file, cat_to_file_lines.
  rewrite bind_run. unfold info at 1, update.
  rewrite bind_run, (for_info_map (fun l => l)), map_id.
  rewrite logged_perform_log. simpl. rewrite <- !app_assoc. reflexivity.
Qed.

Lemma sys_output_live host CONFIG args dry_mode_output shell w :
  Config.dry_mode CONFIG = false ->
  sys_output host CONFIG args dry_mode_output shell w =
  let w1 := set_trace (fun t => t ++ [Exec args shell]) (emit [command_line args] w) in
  match os_error host (trace w) (Exec args shell) with
  | Some msg => (Raise (OSError msg), w1)
  | None =>
      let r := run host (trace w) args shell in
      if Z.eqb r.1 0
      then (Ok (Py.drop_last r.2),
            emit (map (fun line => "#> " +:+ line) (Py.splitlines (Py.drop_last r.2))) w1)
      else (Raise (CalledProcessError r.1 args), w1)
  end.
Proof.
  intros Hd. unfold sys_output. rewrite Hd. simpl negb. cbv iota.
  unfold subprocess_check_output, subprocess_run, history, perform.
  unfold mbind, M_bind, mret, M_ret, raise. cbv beta. rewrite info_run. simpl.
  destruct (os_error host (trace w) (Exec args shell)); simpl; [reflexivity |].
  destruct (Z.eqb _ 0); simpl; [| reflexivity].
  rewrite for_info_map. reflexivity.
Qed.

Lemma sys_output_dry host CONFIG args dry_mode_output shell w :
  Config.dry_mode CONFIG = true ->
  sys_output host CONFIG args dry_mode_output shell w =
  (Ok dry_mode_output,
   emit (command_line args
         :: map (fun line => "#> " +:+ line) (Py.splitlines dry_mode_output)) w).
Proof.
  intros Hd. unfold sys_output. rewrite Hd. simpl negb. cbv iota.
  unfold mbind, M_bind, mret, M_ret. cbv beta. rewrite info_run, for_info_map, emit_emit.
  reflexivity.
Qed.

(** C1. In dry mode no primitive of the Execution Gateway touches the
    operating system: [sys] runs no program, [cat_to_file] writes no file,
    [mkdir] creates no directory, and [sys_output] returns the placeholder
    [dry_mode_output]; every one of them returns normally and leaves the
    world as it was but for the lines it logged.  Those lines are the ones
    live mode logs: the command line for [sys] and [mkdir], the here-document
    for [cat_to_file], and for [sys_output] the command line followed by the
    returned output, one [#> ] line each (nothing after the command line
    when the program fails). *)
Theorem dry_mode_suppresses_effects :
  forall (host : Host) (dry live : Config.t) (w : world),
    Config.dry_mode dry = true ->
    Config.dry_mode live = false ->
    (forall args ignore_exit_code,
        sys host dry args ignore_exit_code w = (Ok tt, emit [command_line args] w)
        /\ log (sys host live args ignore_exit_code w).2 = log w ++ [command_line args])
    /\ (forall file contents,
        cat_to_file host dry file contents w
        = (Ok tt, emit (cat_to_file_lines file contents) w)
        /\ log (cat_to_file host live file contents w).2
           = log w ++ cat_to_file_lines file contents)
    /\ (forall path,
        mkdir host dry path w = (Ok tt, emit ["mkdir --parents " +:+ str path] w)
        /\ log (mkdir host live path w).2 = log w ++ ["mkdir --parents " +:+ str path])
    /\ (forall args dry_mode_output shell,
        let captured output := map (fun line => "#> " +:+ line) (Py.splitlines output) in
        sys_output host dry args dry_mode_output shell w
        = (Ok dry_mode_output, emit (command_line args :: captured dry_mode_output) w)
        /\ log (sys_output host live args dry_mode_output shell w).2
           = log w ++ command_line args
                      :: match (sys_output host live args dry_mode_output shell w).1 with
                         | Ok output => captured output
                         | Raise _ => []
                         end).
Proof.
  intros host dry live w Hdry Hlive. repeat split.
  - pose proof (yields_sys host dry args ignore_exit_code w) as H.
    rewrite Hdry in H. exact H.
  - apply sys_log.
  - pose proof (yields_cat_to_file host dry file contents w) as H.
    rewrite Hdry in H. exact H.
  - apply cat_to_file_log.
  - pose proof (yields_mkdir host dry path w) as H.
    rewrite Hdry in H. exact H.
  - apply logged_perform_log.
  - apply sys_output_dry. exact Hdry.
  - rewrite (sys_output_live host live args dry_mode_output shell w Hlive). simpl.
    destruct (os_error host (trace w) (Exec args shell)); simpl; [reflexivity |].
    destruct (Z.eqb _ 0); simpl; [| reflexivity].
    rewrite <- app_assoc. reflexivity.
Qed.

Lemma dry_mode_suppresses_effects_witness :
  sys quiet_host shipped_CONFIG ["setenforce"; "0"] true boot_world
  = (Ok tt, emit ["setenforce 0"] boot_world).
Proof.
  exact (proj1 (proj1 (dry_mode_suppresses_effects quiet_host shipped_CONFIG live_CONFIG
                         boot_world eq_refl eq_refl) ["setenforce"; "0"] true)).
Defined.

(** What [sys] does with the exit status in live mode: with
    [ignore_exit_code] set it goes through [subprocess.check_call], which
    raises on a non-zero status; with the flag cleared it goes through
    [subprocess.call], which returns the status for [sys] to drop. *)
Lemma sys_live_exit_status host CONFIG args w :
  Config.dry_mode CONFIG = false ->
  os_error host (trace w) (Exec args false) = None ->
  let status := (run host (trace w) args false).1 in
  let w' := advance [command_line args] [Exec args false] w in
  sys host CONFIG args false w = (Ok tt, w')
  /\ sys host CONFIG args true w
     = (if Z.eqb status 0 then Ok tt else Raise (CalledProcessError status args), w').
Proof.
  intros Hd Hos. unfold sys. rewrite Hd. simpl negb. unfold when.
  unfold subprocess_call, subprocess_check_call, subprocess_run, history, perform.
  unfold mbind, M_bind, mret, M_ret, raise. cbv beta. rewrite !info_run. simpl.
  rewrite Hos. simpl. split; [reflexivity |].
  destruct (Z.eqb _ 0); reflexivity.
Qed.

(** C2. A run on the code: in live mode, with every program exiting with
    status 1, [sys] with its default [ignore_exit_code=True] raises
    [CalledProcessError], and with [ignore_exit_code=False] it returns
    normally; and [blkdiscard_and_zero_disks] with [zero_disks] set returns
    normally on a host whose [dd] exits with status 1. *)
Theorem sys_exit_status_policy_is_inverted :
  let blkdiscard := ["blkdiscard"; "--force"; "/dev/sda"] in
  let dd := ["dd"; "if=/dev/zero"; "of=/dev/sda"; "bs=4096"; "status=progress"] in
  sys (uniform_host 1 "") live_CONFIG blkdiscard true boot_world
  = (Raise (CalledProcessError 1 blkdiscard),
     advance ["blkdiscard --force /dev/sda"] [Exec blkdiscard false] boot_world)
  /\ sys (uniform_host 1 "") live_CONFIG dd false boot_world
     = (Ok tt,
        advance ["dd if=/dev/zero of=/dev/sda bs=4096 status=progress"] [Exec dd false]
                boot_world)
  /\ (blkdiscard_and_zero_disks dd_fails_host (with_zero_disks true live_CONFIG)
        boot_world).1 = Ok tt.
Proof. repeat split. Qed.

Lemma drop_last_newline (body : string) : Py.drop_last (body +:+ Py.NL) = body.
Proof.
  induction body as [|c r IH]; [reflexivity |].
  simpl. rewrite IH. destruct r; reflexivity.
Qed.

(** On an output that ends with a newline, the captured value is the
    output without it. *)
Lemma sys_output_live_newline_terminated host CONFIG args dry_mode_output shell w body :
  Config.dry_mode CONFIG = false ->
  os_error host (trace w) (Exec args shell) = None ->
  run host (trace w) args shell = (0, body +:+ Py.NL) ->
  (sys_output host CONFIG args dry_mode_output shell w).1 = Ok body.
Proof.
  intros Hd Hos Hrun. rewrite (sys_output_live _ _ _ _ _ _ Hd). simpl.
  rewrite Hos, Hrun. simpl. rewrite drop_last_newline. reflexivity.
Qed.

(** C9. A run on the code: in live mode, a program that prints [abc]
    (no newline at the end) and exits with status 0 has [sys_output] return
    [ab]: the slice [[: -len("\n")]] removes the last character whatever it
    is. *)
Theorem sys_output_drops_last_character :
  (sys_output (uniform_host 0 "abc") live_CONFIG ["printf"; "abc"] "" false boot_world).1
  = Ok "ab".
Proof. reflexivity. Qed.

(** * The configuration check *)

Lemma seen_here `{Countable K} (x : K) (seen : gset K) : x ∈ ({[x]} ∪ seen : gset K).
Proof. apply elem_of_union. left. apply elem_of_singleton. reflexivity. Qed.

Lemma seen_there `{Countable K} (x y : K) (seen : gset K) :
  x ∈ seen -> x ∈ ({[y]} ∪ seen : gset K).
Proof. intros Hx. apply elem_of_union. right. exact Hx. Qed.

Lemma check_disks_spec (disks : list Path) (seen : gset Path) (w : world) :
  (NoDup disks /\ (forall d, d ∈ disks -> d ∉ seen)
   /\ exists seen', check_disks disks seen w = (Ok seen', w)
                    /\ forall d, d ∈ seen' <-> d ∈ disks \/ d ∈ seen)
  \/ (~ (NoDup disks /\ forall d, d ∈ disks -> d ∉ seen)
      /\ exists d, d ∈ disks
                   /\ check_disks disks seen w
                      = (Raise (Exception ("Disk '" +:+ str d
                                           +:+ "' configured multiple times.")), w)).
Proof.
  revert seen. induction disks as [|disk disks IH]; intros seen; simpl.
  - left. split; [constructor |]. split; [intros d Hd; inversion Hd |].
    exists seen. split; [reflexivity |]. intros d. split; [auto |].
    intros [Hd | Hd]; [inversion Hd | exact Hd].
  - destruct (decide (disk ∈ seen)) as [Hin | Hnin].
    + right. split.
      * intros [_ H]. apply (H disk); [left | exact Hin].
      * exists disk. split; [left | reflexivity].
    + destruct (IH ({[disk]} ∪ seen)) as [(Hnd & Hfresh & seen' & Hrun & Hseen')
                                          | (Hbad & d & Hd & Hrun)].
      * left. split; [| split].
        -- constructor; [| exact Hnd]. intros Hdd. apply (Hfresh disk Hdd). apply seen_here.
        -- intros d Hd. apply elem_of_cons in Hd as [-> | Hd]; [exact Hnin |].
           intros Hds. apply (Hfresh d Hd). apply seen_there, Hds.
        -- exists seen'. split; [exact Hrun |]. intros d. rewrite Hseen', elem_of_union, elem_of_singleton, elem_of_cons. tauto.
      * right. split.
        -- intros [Hnd Hfresh]. apply Hbad. apply NoDup_cons in Hnd as [Hnotin Hnd].
           split; [exact Hnd |]. intros d' Hd' Hin.
           apply elem_of_union in Hin as [Hin | Hin].
           ++ apply elem_of_singleton in Hin. subst d'. exact (Hnotin Hd').
           ++ apply (Hfresh d'); [right; exact Hd' | exact Hin].
        -- exists d. split; [right; exact Hd | exact Hrun].
Qed.

Lemma check_pool_shape_spec (pool : ZfsPool.t) (w : world) :
  (pool_shape_ok pool /\ check_pool_shape pool w = (Ok tt, w))
  \/ (~ pool_shape_ok pool
      /\ exists msg, check_pool_shape pool w = (Raise (Exception msg), w)
                     /\ pool_complaint [pool] msg).
Proof.
  unfold check_pool_shape, pool_shape_ok, pool_complaint.
  destruct (ZfsPool.disks pool) as [|d ds] eqn:Hdisks.
  - right. split; [intros [H _]; exact (H eq_refl) |].
    eexists. split; [reflexivity |]. exists pool. split; [left | auto].
  - destruct (String.eqb_spec (ZfsPool.kind pool) "single") as [Hk | Hk]; simpl.
    + destruct ds as [|d' ds]; simpl.
      * left. split; [| reflexivity].
        split; [discriminate | split; [intros _; reflexivity | intros H; contradiction]].
      * right. split; [intros (_ & H & _); specialize (H Hk); discriminate H |].
        eexists. split; [reflexivity |]. exists pool. split; [left | auto].
    + destruct ds as [|d' ds]; simpl.
      * right. split; [intros (_ & _ & H); exact (H Hk eq_refl) |].
        eexists. split; [reflexivity |]. exists pool. split; [left | auto 6].
      * left. split; [| reflexivity].
        split; [discriminate | split; [intros H; contradiction | intros _; discriminate]].
Qed.

Lemma pool_complaint_mono pools pools' msg :
  (forall p, p ∈ pools -> p ∈ pools') -> pool_complaint pools msg -> pool_complaint pools' msg.
Proof. intros Hsub (p & Hp & H). exists p. split; [apply Hsub, Hp | exact H]. Qed.

Lemma check_pools_spec (pools : list ZfsPool.t) (sn : gset string) (sd : gset Path)
    (w : world) :
  (pools_ok pools sn sd /\ check_pools pools sn sd w = (Ok tt, w))
  \/ (~ pools_ok pools sn sd
      /\ exists msg, check_pools pools sn sd w = (Raise (Exception msg), w)
                     /\ pool_complaint pools msg).
Proof.
  revert sn sd. induction pools as [|pool pools IH]; intros sn sd.
  - left. split; [| reflexivity]. unfold pools_ok. simpl.
    repeat split; try constructor; intros x Hx; inversion Hx.
  - cbn [check_pools].
    destruct (decide (ZfsPool.name pool ∈ sn)) as [Hname | Hname].
    { right. split.
      - intros (_ & H & _). apply (H pool); [left | exact Hname].
      - eexists. split; [reflexivity |]. exists pool. split; [left | auto]. }
    destruct (check_pool_shape_spec pool w) as [[Hshape Hrun1] | (Hshape & msg & Hrun1 & Hmsg)].
    2:{ right. split.
        - intros (_ & _ & H & _). apply Forall_cons in H as [H _]. exact (Hshape H).
        - exists msg. split; [rewrite (bind_raise _ _ _ _ _ Hrun1); reflexivity |].
          eapply pool_complaint_mono; [| exact Hmsg].
          intros p Hp. apply list_elem_of_singleton in Hp. subst p. left. }
    rewrite (bind_ok _ _ _ _ _ Hrun1).
    destruct (check_disks_spec (ZfsPool.disks pool) sd w)
      as [(Hnd & Hfresh & sd' & Hrun2 & Hsd') | (Hbad & d & Hd & Hrun2)].
    2:{ right. split.
        - intros (_ & _ & _ & Hnd & Hfresh). apply Hbad. simpl in Hnd, Hfresh.
          apply NoDup_app in Hnd as (Hnd & _ & _). split; [exact Hnd |].
          intros d' Hd'. apply Hfresh. apply elem_of_app. left. exact Hd'.
        - eexists. split; [rewrite (bind_raise _ _ _ _ _ Hrun2); reflexivity |].
          exists pool. split; [left |]. do 4 right. exists d. split; [exact Hd | reflexivity]. }
    rewrite (bind_ok _ _ _ _ _ Hrun2).
    destruct (IH ({[ZfsPool.name pool]} ∪ sn) sd')
      as [[(Hn & Hfn & Hs & Hd & Hfd) Hrun3] | (Hbad & msg & Hrun3 & Hmsg)].
    + left. split; [| exact Hrun3]. unfold pools_ok. simpl. repeat split.
      * constructor; [| exact Hn]. intros Hin.
        apply list_elem_of_fmap in Hin as (p & Hp & Hpin).
        apply (Hfn p Hpin). rewrite <- Hp. apply seen_here.
      * intros p Hp. apply elem_of_cons in Hp as [-> | Hp]; [exact Hname |].
        intros Hin. apply (Hfn p Hp). apply seen_there, Hin.
      * constructor; [exact Hshape | exact Hs].
      * apply NoDup_app. repeat split; [exact Hnd | | exact Hd].
        intros d Hd1 Hd2. apply (Hfd d Hd2). apply Hsd'. left. exact Hd1.
      * intros d Hd'. apply elem_of_app in Hd' as [Hd' | Hd'].
        -- apply Hfresh, Hd'.
        -- intros Hin. apply (Hfd d Hd'). apply Hsd'. right. exact Hin.
    + right. split.
      * intros (Hn & Hfn & Hs & Hd & Hfd). apply Hbad. simpl in Hn, Hd, Hfd.
        apply NoDup_cons in Hn as [Hn1 Hn2].
        apply Forall_cons in Hs as [_ Hs].
        apply NoDup_app in Hd as (_ & Hd1 & Hd2).
        unfold pools_ok. repeat split; [exact Hn2 | | exact Hs | exact Hd2 |].
        -- intros p Hp Hin. apply elem_of_union in Hin as [Hin | Hin].
           ++ apply elem_of_singleton in Hin. apply Hn1.
              apply list_elem_of_fmap. exists p. split; [symmetry; exact Hin | exact Hp].
           ++ apply (Hfn p); [right; exact Hp | exact Hin].
        -- intros d Hd' Hin. apply Hsd' in Hin as [Hin | Hin].
           ++ exact (Hd1 d Hin Hd').
           ++ apply (Hfd d); [apply elem_of_app; right; exact Hd' | exact Hin].
      * exists msg. split; [exact Hrun3 |].
        eapply pool_complaint_mono; [| exact Hmsg]. intros p Hp. right. exact Hp.
Qed.

Lemma check_users_spec (users : list User.t) (seen : gset string) (w : world) :
  (NoDup (map User.name users) /\ (forall u, u ∈ users -> u.(User.name) ∉ seen)
   /\ check_users users seen w = (Ok tt, w))
  \/ (~ (NoDup (map User.name users) /\ forall u, u ∈ users -> u.(User.name) ∉ seen)
      /\ exists msg, check_users users seen w = (Raise (Exception msg), w)
                     /\ user_complaint users msg).
Proof.
  revert seen. induction users as [|user users IH]; intros seen.
  - left. repeat split; [constructor | intros u Hu; inversion Hu].
  - cbn [check_users].
    destruct (decide (User.name user ∈ seen)) as [Hin | Hnin].
    { right. split.
      - intros [_ H]. apply (H user); [left | exact Hin].
      - eexists. split; [reflexivity |]. exists user. split; [left | reflexivity]. }
    destruct (IH ({[User.name user]} ∪ seen)) as [(Hnd & Hfresh & Hrun)
                                                  | (Hbad & msg & Hrun & u & Hu & Hmsg)].
    + left. repeat split; [| | exact Hrun].
      * simpl. constructor; [| exact Hnd]. intros Hin.
        apply list_elem_of_fmap in Hin as (u & Hu & Huin).
        apply (Hfresh u Huin). rewrite <- Hu. apply seen_here.
      * intros u Hu. apply elem_of_cons in Hu as [-> | Hu]; [exact Hnin |].
        intros Hin. apply (Hfresh u Hu). apply seen_there, Hin.
    + right. split.
      * intros [Hnd Hfresh]. apply Hbad. simpl in Hnd.
        apply NoDup_cons in Hnd as [Hn1 Hn2]. split; [exact Hn2 |].
        intros u' Hu' Hin. apply elem_of_union in Hin as [Hin | Hin].
        -- apply elem_of_singleton in Hin. apply Hn1.
           apply list_elem_of_fmap. exists u'. split; [symmetry; exact Hin | exact Hu'].
        -- apply (Hfresh u'); [right; exact Hu' | exact Hin].
      * exists msg. split; [exact Hrun |]. exists u. split; [right; exact Hu | exact Hmsg].
Qed.

Lemma pools_ok_start (CONFIG : Config.t) :
  pools_ok (CONFIG_POOLS CONFIG) ∅ ∅ <->
  NoDup (map ZfsPool.name (CONFIG_POOLS CONFIG))
  /\ Forall pool_shape_ok (CONFIG_POOLS CONFIG)
  /\ NoDup (concat (map ZfsPool.disks (CONFIG_POOLS CONFIG))).
Proof.
  unfold pools_ok. split.
  - intros (H1 & _ & H2 & H3 & _). auto.
  - intros (H1 & H2 & H3). repeat split; try assumption.
    + intros p _. apply not_elem_of_empty.
    + intros d _. apply not_elem_of_empty.
Qed.

(** The check leaves the world alone; it returns on the configurations
    that are [config_ok] and raises, naming the culprit, on the others. *)
Lemma check_config_for_errors_spec (CONFIG : Config.t) (w : world) :
  (config_ok CONFIG /\ check_config_for_errors CONFIG w = (Ok tt, w))
  \/ (~ config_ok CONFIG
      /\ exists msg, check_config_for_errors CONFIG w = (Raise (Exception msg), w)
                     /\ (pool_complaint (CONFIG_POOLS CONFIG) msg
                         \/ user_complaint CONFIG.(Config.users) msg)).
Proof.
  unfold check_config_for_errors, config_ok.
  destruct (check_pools_spec (CONFIG_POOLS CONFIG) ∅ ∅ w)
    as [[Hok Hrun] | (Hbad & msg & Hrun & Hmsg)].
  - rewrite (bind_ok _ _ _ _ _ Hrun).
    apply pools_ok_start in Hok as (H1 & H2 & H3).
    destruct (check_users_spec (Config.users CONFIG) ∅ w)
      as [(Hnd & _ & Hrun') | (Hbad & msg & Hrun' & Hmsg)]; rewrite Hrun'.
    + left. auto.
    + right. split.
      * intros (_ & _ & _ & Hnd). apply Hbad. split; [exact Hnd |].
        intros u _. apply not_elem_of_empty.
      * exists msg. split; [reflexivity | right; exact Hmsg].
  - rewrite (bind_raise _ _ _ _ _ Hrun). right. split.
    + intros (H1 & H2 & H3 & _). apply Hbad. apply pools_ok_start. auto.
    + exists msg. split; [reflexivity | left; exact Hmsg].
Qed.

(** C3, as amended.  [check_config_for_errors] never changes the world
    (nothing is logged, no call is made), and it returns normally exactly on
    the configurations in which no two pools have the same name, every pool
    has at least one disk, a [single] pool has exactly one disk and a pool of
    any other kind does not have exactly one, no disk occurs twice in the
    disk lists of all pools taken together (in two pools or twice in one),
    and no two users have the same name.  On every other configuration it
    raises an [Exception] whose message names the pool, disk or user at
    fault. *)
Theorem check_config_for_errors_decides_config_ok :
  forall (CONFIG : Config.t) (w : world),
    (check_config_for_errors CONFIG w).2 = w
    /\ ((check_config_for_errors CONFIG w).1 = Ok tt <-> config_ok CONFIG)
    /\ (~ config_ok CONFIG ->
        exists msg, (check_config_for_errors CONFIG w).1 = Raise (Exception msg)
                    /\ (pool_complaint (CONFIG_POOLS CONFIG) msg
                        \/ user_complaint CONFIG.(Config.users) msg)).
Proof.
  intros CONFIG w.
  destruct (check_config_for_errors_spec CONFIG w)
    as [[Hok Hrun] | (Hbad & msg & Hrun & Hmsg)]; rewrite Hrun; simpl.
  - split; [reflexivity |]. split; [split; auto |]. intros Hno. contradiction.
  - split; [reflexivity |]. split.
    + split; [discriminate | intros Hok; contradiction].
    + intros _. exists msg. split; [reflexivity | exact Hmsg].
Qed.

Lemma shares_disk_across_repeats (pools : list ZfsPool.t) :
  shares_disk_across pools = true -> ~ NoDup (concat (map ZfsPool.disks pools)).
Proof.
  induction pools as [|pool others IH]; simpl; [discriminate |].
  intros Hshare Hnd. apply NoDup_app in Hnd as (_ & Hapart & Hnd).
  apply orb_prop in Hshare as [Hshare | Hshare]; [| exact (IH Hshare Hnd)].
  apply existsb_exists in Hshare as (other & Hother & Hdisk).
  apply existsb_exists in Hdisk as (disk & Hdisk & Hin).
  apply bool_decide_eq_true in Hin.
  apply (Hapart disk); [apply list_elem_of_In; exact Hdisk |].
  apply list_elem_of_In, in_concat. exists (ZfsPool.disks other).
  split; [apply in_map; exact Hother | apply list_elem_of_In; exact Hin].
Qed.

(** Every configuration the claim lists is indeed rejected: the check
    rejects these and more. *)
Lemma claimed_rejections_are_rejected (CONFIG : Config.t) :
  rejected_as_claimed CONFIG = true -> ~ config_ok CONFIG.
Proof.
  unfold rejected_as_claimed, config_ok. cbv zeta.
  intros H (Hnames & Hshapes & Hdisks & Husers).
  apply orb_prop in H as [H | H]; [apply orb_prop in H as [H | H];
    [apply orb_prop in H as [H | H]; [apply orb_prop in H as [H | H] |] |] |].
  - apply bool_decide_eq_true in H. exact (H Hnames).
  - exact (shares_disk_across_repeats _ H Hdisks).
  - apply existsb_exists in H as (pool & Hpool & H).
    apply andb_prop in H as [Hkind Hlen]. apply String.eqb_eq in Hkind.
    apply list_elem_of_In in Hpool.
    destruct (proj1 (Forall_forall _ _) Hshapes pool Hpool) as (Hne & Hsingle & _).
    specialize (Hsingle Hkind). rewrite Hsingle in Hlen. discriminate Hlen.
  - apply existsb_exists in H as (pool & Hpool & H).
    apply andb_prop in H as [Hkind Hlen]. apply negb_true_iff, String.eqb_neq in Hkind.
    apply list_elem_of_In in Hpool.
    destruct (proj1 (Forall_forall _ _) Hshapes pool Hpool) as (_ & _ & Hother).
    apply (Hother Hkind). apply Nat.eqb_eq. exact Hlen.
  - apply bool_decide_eq_true in H. exact (H Husers).
Qed.

(** C3, as stated, fails: a mirror pool without disks is rejected, though it
    is none of the configurations the claim lists (no name or disk is
    repeated, no [single] pool is ill-sized, no other pool has exactly one
    disk). *)
Lemma check_rejects_more_than_claimed :
  check_config_for_errors CONFIG_mirror_without_disks boot_world
  = (Raise (Exception "Pool rpool configured without disks."), boot_world)
  /\ rejected_as_claimed CONFIG_mirror_without_disks = false.
Proof. split; vm_compute; reflexivity. Qed.

(** * Runs on an obliging host

    On a host where no call fails and every program exits with status 0,
    the steps return in live mode as they do in dry mode. *)

Lemma completes_ret {A} (v : A) : completes (mret v).
Proof. intros w. reflexivity. Qed.

Lemma completes_bind {A B} (m : M A) (k : A -> M B) :
  completes m -> (forall a, completes (k a)) -> completes (m ≫= k).
Proof.
  intros Hm Hk w. rewrite bind_run. specialize (Hm w).
  destruct (m w) as [[a|e] w1]; [apply Hk | discriminate Hm].
Qed.

Lemma completes_for {A} (xs : list A) (body : A -> M unit) :
  (forall x, completes (body x)) -> completes (for_ xs body).
Proof.
  intros Hbody. induction xs as [|x xs IH]; simpl.
  - apply completes_ret.
  - apply completes_bind; [apply Hbody | intros _; exact IH].
Qed.

Lemma completes_collect {A B} (xs : list A) (body : A -> M B) :
  (forall x, completes (body x)) -> completes (collect xs body).
Proof.
  intros Hbody. induction xs as [|x xs IH]; simpl.
  - apply completes_ret.
  - apply completes_bind; [apply Hbody | intros y].
    apply completes_bind; [exact IH | intros ys; apply completes_ret].
Qed.

Lemma completes_when (c : bool) (m : M unit) : completes m -> completes (when c m).
Proof. intros H. destruct c; [exact H | apply completes_ret]. Qed.

Lemma completes_info line : completes (info line).
Proof. intros w. reflexivity. Qed.

Section Obliging.

Variable host : Host.
Variable CONFIG : Config.t.
Hypothesis host_obliges : obliging host.

Lemma completes_perform op : completes (perform host op).
Proof.
  intros w. unfold perform. rewrite (proj1 host_obliges). reflexivity.
Qed.

Lemma completes_subprocess_run args shell : completes (subprocess_run host args shell).
Proof.
  unfold subprocess_run. apply completes_bind; [intros w; reflexivity | intros h].
  apply completes_bind; [apply completes_perform | intros _; apply completes_ret].
Qed.

Lemma subprocess_run_status args shell w :
  exists out w', subprocess_run host args shell w = (Ok (0, out), w').
Proof.
  unfold subprocess_run, history, perform. rewrite !bind_run. cbv beta iota.
  rewrite (proj1 host_obliges). cbv beta iota.
  pose proof (proj2 host_obliges (trace w) args shell) as Hstatus.
  destruct (run host (trace w) args shell) as [status out]. simpl in Hstatus. subst status.
  eexists _, _. reflexivity.
Qed.

Lemma completes_sys args ignore_exit_code : completes (sys host CONFIG args ignore_exit_code).
Proof.
  unfold sys. apply completes_bind; [apply completes_info | intros _].
  apply completes_when. destruct ignore_exit_code.
  - intros w. unfold subprocess_check_call. rewrite bind_run.
    destruct (subprocess_run_status args false w) as (out & w' & ->). reflexivity.
  - unfold subprocess_call.
    apply completes_bind; [| intros _; apply completes_ret].
    apply completes_bind; [apply completes_subprocess_run | intros r; apply completes_ret].
Qed.

Lemma completes_sys_output args dry_mode_output shell :
  completes (sys_output host CONFIG args dry_mode_output shell).
Proof.
  unfold sys_output. apply completes_bind; [apply completes_info | intros _].
  apply completes_bind.
  - destruct (negb (Config.dry_mode CONFIG)); [| apply completes_ret].
    apply completes_bind; [| intros out; apply completes_ret].
    intros w. unfold subprocess_check_output. rewrite bind_run.
    destruct (subprocess_run_status args shell w) as (out & w' & ->). reflexivity.
  - intros output. apply completes_bind; [| intros _; apply completes_ret].
    apply completes_for. intros line. apply completes_info.
Qed.

Lemma completes_logged_perform line op :
  completes (info line;; when (negb CONFIG.(Config.dry_mode)) (perform host op)).
Proof.
  apply completes_bind; [apply completes_info | intros _].
  apply completes_when, completes_perform.
Qed.

Lemma completes_cat_to_file file contents : completes (cat_to_file host CONFIG file contents).
Proof.
  unfold cat_to_file. apply completes_bind; [apply completes_info | intros _].
  apply completes_bind; [apply completes_for; intros line; apply completes_info | intros _].
  apply completes_logged_perform.
Qed.

Lemma completes_zpool_create pool altroot partition :
  completes (zpool_create host CONFIG pool altroot partition).
Proof.
  unfold zpool_create. apply completes_bind.
  - destruct (truthy (ZfsPool.password pool)); [| apply completes_ret].
    apply completes_bind; [apply completes_cat_to_file | intros _].
    apply completes_bind; [apply completes_logged_perform | intros _; apply completes_ret].
  - intros key_file.
    apply completes_bind; [apply completes_sys | intros _; apply completes_ret].
Qed.

Lemma completes_partition_root_pool_disks : completes (partition_root_pool_disks host CONFIG).
Proof.
  unfold partition_root_pool_disks.
  apply completes_bind; [| intros _; apply completes_logged_perform].
  apply completes_for. intros disk.
  apply completes_bind; [apply completes_sys | intros _].
  apply completes_bind; [apply completes_sys | intros _].
  apply completes_bind; [apply completes_when, completes_sys | intros _].
  apply completes_sys.
Qed.

Lemma completes_create_zfs_pools_and_file_systems :
  completes (create_zfs_pools_and_file_systems host CONFIG).
Proof.
  unfold create_zfs_pools_and_file_systems. cbv zeta.
  apply completes_bind; [apply completes_sys | intros _].
  apply completes_bind; [apply completes_zpool_create | intros root_key_file].
  apply completes_bind;
    [apply completes_collect; intros pool; apply completes_zpool_create | intros keys].
  apply completes_bind; [apply completes_sys | intros _].
  apply completes_bind; [intros w; reflexivity | intros suffix].
  apply completes_bind; [apply completes_sys | intros _].
  apply completes_bind; [apply completes_sys | intros _].
  apply completes_bind; [apply completes_sys | intros _].
  apply completes_bind; [apply completes_sys | intros _].
  apply completes_bind; [apply completes_sys | intros _].
  apply completes_bind; [| intros _; apply completes_ret].
  apply completes_for. intros user. apply completes_sys.
Qed.

(** The boot provisioner returns when, in live mode, the downloaded image
    is found in the working directory. *)
Lemma completes_setup_efi_partitions_and_install_zfsbootmenu :
  (CONFIG.(Config.dry_mode) = false -> forall h dir, listing host h dir "zfsbootmenu-*" <> []) ->
  completes (setup_efi_partitions_and_install_zfsbootmenu host CONFIG).
Proof.
  intros Hfound. unfold setup_efi_partitions_and_install_zfsbootmenu.
  apply completes_bind; [apply completes_sys | intros _].
  apply completes_bind.
  - destruct (Config.dry_mode CONFIG); simpl negb; cbv iota; [apply completes_ret |].
    apply completes_bind; [intros w; reflexivity | intros here].
    intros w. unfold glob, history, perform. rewrite !bind_run. cbv beta iota.
    rewrite (proj1 host_obliges). cbv beta iota.
    unfold mret at 1, M_ret at 1. cbv beta iota.
    specialize (Hfound eq_refl (trace w) here).
    destruct (listing host (trace w) here "zfsbootmenu-*"); [contradiction | reflexivity].
  - intros image. cbv zeta. apply completes_collect. intros disk.
    apply completes_bind; [apply completes_sys | intros _].
    apply completes_bind; [apply completes_sys_output | intros uuid].
    apply completes_bind; [apply completes_logged_perform | intros _].
    apply completes_bind; [apply completes_sys | intros _].
    apply completes_bind; [apply completes_logged_perform | intros _].
    apply completes_bind; [apply completes_sys | intros _; apply completes_ret].
Qed.

End Obliging.

(** * Partitions, pools and file systems *)

Lemma choices_run host population k w :
  exists cs, choices host population k w = (Ok cs, set_draws (draws w + k) w)
             /\ length cs = k
             /\ (population <> "" ->
                 Forall (fun c => c ∈ list_ascii_of_string population) cs).
Proof.
  eexists. split; [reflexivity |]. split.
  - rewrite length_map, length_seq. reflexivity.
  - intros Hpop. apply Forall_forall. intros c Hc.
    apply list_elem_of_fmap in Hc as (i & -> & _).
    apply list_elem_of_In, nth_In, Nat.mod_upper_bound.
    destruct population; [contradiction | simpl; discriminate].
Qed.

Lemma string_of_list_ascii_length cs :
  String.length (string_of_list_ascii cs) = length cs.
Proof. induction cs as [|c cs IH]; simpl; [reflexivity | rewrite IH; reflexivity]. Qed.

(** The suffix drawn is six characters long, each a lowercase letter or a
    digit. *)
Lemma drawn_suffix_spec host w :
  String.length (drawn_suffix host w) = 6%nat
  /\ Forall (fun c => c ∈ list_ascii_of_string (ascii_lowercase +:+ digits))
            (list_ascii_of_string (drawn_suffix host w)).
Proof.
  unfold drawn_suffix.
  destruct (choices_run host (ascii_lowercase +:+ digits) 6 w) as (cs & Hrun & Hlen & Hin).
  rewrite Hrun. simpl. rewrite string_of_list_ascii_length, list_ascii_of_string_of_list_ascii.
  split; [exact Hlen | apply Hin; discriminate].
Qed.

(** Replace the first half of the bind at the head of a live run by its
    summary [Hy], given that the run returns ([Hok]). *)
Ltac live_step Hy Hd Hok :=
  let E := fresh "E" in
  epose proof (yields_step_live _ _ _ _ _ _ _ (Hy _ _ _) Hd Hok) as E
  || epose proof (yields_step_live _ _ _ _ _ _ _ (Hy _ _) Hd Hok) as E
  || epose proof (yields_step_live _ _ _ _ _ _ _ (Hy _) Hd Hok) as E
  || epose proof (yields_step_live _ _ _ _ _ _ _ Hy Hd Hok) as E;
  rewrite E in Hok |- *; clear E.

Lemma flat_map_singleton {A B} (f : A -> B) (xs : list A) :
  flat_map (fun x => [f x]) xs = map f xs.
Proof. induction xs as [|x xs IH]; simpl; [reflexivity | rewrite IH; reflexivity]. Qed.

Section Pools.

Variable host : Host.
Variable CONFIG : Config.t.

(** The file-system commands after the suffix is drawn. *)
Lemma yields_file_systems_after_draw (suffix : list ascii) (keys : list (option Path)) :
  let root_pool := CONFIG.(Config.root_pool) in
  let root_fs_name := "ROOT/fedora_" +:+ string_of_list_ascii suffix in
  let plan := create_file_systems_plan CONFIG (string_of_list_ascii suffix) in
  yields CONFIG
    (zfs_create host CONFIG root_pool root_fs_name root_fs_properties;;
     sys host CONFIG ["zfs"; "mount"; root_pool.(ZfsPool.name) +:+ "/" +:+ root_fs_name] true;;
     sys host CONFIG ["zpool"; "set";
                      "bootfs=" +:+ root_pool.(ZfsPool.name) +:+ "/" +:+ root_fs_name;
                      root_pool.(ZfsPool.name)] true;;
     zfs_create host CONFIG root_pool "home" [("mountpoint", "/home")];;
     zfs_create host CONFIG root_pool "home/root" [("mountpoint", "/root")];;
     for_ CONFIG.(Config.users) (fun user =>
       zfs_create host CONFIG root_pool ("home/" +:+ user.(User.name)) []);;
     mret (omap id keys))
    (omap id keys)
    (map command_line (tail plan))
    (map (fun argv => Exec argv false) (tail plan)).
Proof.
  intros root_pool root_fs_name plan.
  eapply yields_eq.
  - eapply yields_bind; [apply yields_zfs_create |].
    eapply yields_bind; [apply yields_sys |].
    eapply yields_bind; [apply yields_sys |].
    eapply yields_bind; [apply yields_zfs_create |].
    eapply yields_bind; [apply yields_zfs_create |].
    eapply yields_bind; [| apply yields_ret].
    apply yields_for. intros user. apply yields_zfs_create.
  - unfold plan, create_file_systems_plan, root_fs_name, zfs_create_args. simpl.
    rewrite app_nil_r. rewrite (flat_map_singleton
      (fun user => command_line ["zfs"; "create";
                                 ZfsPool.name root_pool +:+ "/home/" +:+ User.name user])).
    rewrite map_map. reflexivity.
  - unfold plan, create_file_systems_plan, root_fs_name, zfs_create_args. simpl.
    rewrite app_nil_r. rewrite (flat_map_singleton
      (fun user => Exec ["zfs"; "create";
                         ZfsPool.name root_pool +:+ "/home/" +:+ User.name user] false)).
    rewrite map_map. reflexivity.
Qed.

Lemma yields_create_pools :
  yields CONFIG
    (collect CONFIG.(Config.data_pools) (fun pool => zpool_create host CONFIG pool None ""))
    (map key_file_of CONFIG.(Config.data_pools))
    (flat_map (fun pool => zpool_create_lines pool None "") CONFIG.(Config.data_pools))
    (flat_map (fun pool => zpool_create_ops pool None "") CONFIG.(Config.data_pools)).
Proof. apply yields_collect. intros pool. apply yields_zpool_create. Qed.

Lemma choices_emit host' population k l w :
  choices host' population k (emit l w)
  = (Ok (match (choices host' population k w).1 with Ok cs => cs | Raise _ => [] end),
     set_draws (draws w + k) (emit l w)).
Proof. reflexivity. Qed.

Lemma emit_set_draws l n w : emit l (set_draws n w) = set_draws n (emit l w).
Proof. reflexivity. Qed.

Lemma advance_set_draws l o n w : advance l o (set_draws n w) = set_draws n (advance l o w).
Proof. reflexivity. Qed.

Lemma choices_after host' population k l o w :
  choices host' population k (advance l o w)
  = (Ok (match (choices host' population k w).1 with Ok cs => cs | Raise _ => [] end),
     set_draws (draws w + k) (advance l o w)).
Proof. reflexivity. Qed.

(** The whole of [create_zfs_pools_and_file_systems]: the pools, then the
    file systems of the root pool under the suffix drawn. *)
Lemma create_zfs_pools_and_file_systems_run (w : world) :
  let plan := create_file_systems_plan CONFIG (drawn_suffix host w) in
  let lines := create_pools_lines CONFIG ++ map command_line plan in
  let ops := create_pools_ops CONFIG ++ map (fun argv => Exec argv false) plan in
  if CONFIG.(Config.dry_mode)
  then create_zfs_pools_and_file_systems host CONFIG w
       = (Ok (pool_key_files_of CONFIG), set_draws (draws w + 6) (emit lines w))
  else is_ok (create_zfs_pools_and_file_systems host CONFIG w).1 = true ->
       create_zfs_pools_and_file_systems host CONFIG w
       = (Ok (pool_key_files_of CONFIG), set_draws (draws w + 6) (advance lines ops w)).
Proof.
  intros plan lines ops. unfold create_zfs_pools_and_file_systems.
  destruct (Config.dry_mode CONFIG) eqn:Hd.
  - erewrite yields_step_dry; [| apply yields_sys | exact Hd].
    erewrite yields_step_dry; [| apply yields_zpool_create | exact Hd].
    erewrite yields_step_dry; [| apply yields_create_pools | exact Hd].
    erewrite yields_step_dry; [| apply yields_zfs_create | exact Hd].
    rewrite !emit_emit, bind_run, choices_emit. cbv beta iota zeta.
    pose proof (yields_file_systems_after_draw
                  (match (choices host (ascii_lowercase +:+ digits) 6 w).1 with
                   | Ok cs => cs | Raise _ => [] end)
                  (key_file_of (Config.root_pool CONFIG)
                   :: map key_file_of (Config.data_pools CONFIG))) as Hrest.
    cbv zeta in Hrest. unfold yields in Hrest. rewrite Hd in Hrest. rewrite Hrest.
    rewrite emit_set_draws, emit_emit. unfold pool_key_files_of.
    f_equal. f_equal. unfold lines, plan, create_pools_lines, zpool_create_lines.
    cbn [app]. rewrite <- !app_assoc. reflexivity.
  - intros Hok.
    live_step (yields_sys host CONFIG) Hd Hok.
    live_step (yields_zpool_create host CONFIG) Hd Hok.
    live_step yields_create_pools Hd Hok.
    live_step (yields_zfs_create host CONFIG) Hd Hok.
    rewrite !advance_advance, bind_run, choices_after in Hok |- *. cbv beta iota zeta in Hok |- *.
    pose proof (yields_file_systems_after_draw
                  (match (choices host (ascii_lowercase +:+ digits) 6 w).1 with
                   | Ok cs => cs | Raise _ => [] end)
                  (key_file_of (Config.root_pool CONFIG)
                   :: map key_file_of (Config.data_pools CONFIG))) as Hrest.
    cbv zeta in Hrest. unfold yields in Hrest. rewrite Hd in Hrest.
    rewrite (Hrest _ Hok).
    rewrite advance_set_draws, advance_advance. unfold pool_key_files_of.
    f_equal. f_equal.
    unfold lines, ops, plan, create_pools_lines, zpool_create_lines,
      create_pools_ops, zpool_create_ops.
    cbn [app]. rewrite <- !app_assoc. reflexivity.
Qed.

End Pools.

(** C4. For every root pool, [partition_root_pool_disks] goes through the
    disks in order and issues for each, after wiping its partition table,
    exactly three partition-creating [sgdisk] commands when [swap_size] is
    non-empty and exactly two otherwise: first the EFI partition, second the
    swap partition when swap is configured and the pool-member partition
    otherwise, third the pool-member partition (only with swap); the
    pool-member partition is always created last.  This is what dry mode
    logs and what live mode executes whenever it returns.
    [create_zfs_pools_and_file_systems] then creates the root pool right
    after [zgenhostid] (and the key file), on the disks suffixed [-part3]
    when swap is configured and [-part2] otherwise.  Both steps return on a
    host where no call fails. *)
Theorem partition_plan_of_root_pool :
  forall (host : Host) (CONFIG : Config.t),
    let disks := CONFIG.(Config.root_pool).(ZfsPool.disks) in
    let swap := truthy CONFIG.(Config.swap_size) in
    let plan disk := sgdisk_zap disk :: partition_creations CONFIG disk in
    yields CONFIG (partition_root_pool_disks host CONFIG) tt
      (flat_map (fun disk => map command_line (plan disk)) disks ++ ["sleep 2"])
      (flat_map (fun disk => map (fun argv => Exec argv false) (plan disk)) disks
       ++ [Sleep 2])
    /\ (forall disk,
          length (List.filter creates_partition (plan disk)) = (if swap then 3 else 2)%nat
          /\ partition_creations CONFIG disk !! 0%nat = Some (sgdisk_new_efi disk)
          /\ partition_creations CONFIG disk !! 1%nat
             = Some (if swap then sgdisk_new_swap CONFIG disk
                     else sgdisk_new_pool CONFIG disk)
          /\ partition_creations CONFIG disk !! 2%nat
             = (if swap then Some (sgdisk_new_pool CONFIG disk) else None)
          /\ last (plan disk) = Some (sgdisk_new_pool CONFIG disk))
    /\ (let root_pool := CONFIG.(Config.root_pool) in
        let suffix := if swap then "-part3" else "-part2" in
        let args := zpool_create_args root_pool (key_file_of root_pool)
                      (Some NEW_SYSTEM_ROOT) suffix in
        (exists front, args = front ++ map (fun disk => str disk +:+ suffix) disks)
        /\ forall w, exists keys later_lines later_ops,
             if CONFIG.(Config.dry_mode)
             then create_zfs_pools_and_file_systems host CONFIG w
                  = (Ok keys,
                     set_draws (draws w + 6)
                       (emit ("zgenhostid" :: key_file_lines root_pool
                              ++ command_line args :: later_lines) w))
             else is_ok (create_zfs_pools_and_file_systems host CONFIG w).1 = true ->
                  create_zfs_pools_and_file_systems host CONFIG w
                  = (Ok keys,
                     set_draws (draws w + 6)
                       (advance ("zgenhostid" :: key_file_lines root_pool
                                 ++ command_line args :: later_lines)
                                (Exec ["zgenhostid"] false :: key_file_ops root_pool
                                 ++ Exec args false :: later_ops) w)))
    /\ (obliging host ->
        completes (partition_root_pool_disks host CONFIG)
        /\ completes (create_zfs_pools_and_file_systems host CONFIG)).
Proof.
  intros host CONFIG disks swap plan. split; [| split; [| split]];
    [| | | intros Hob; split;
           [apply completes_partition_root_pool_disks
           | apply completes_create_zfs_pools_and_file_systems]; exact Hob].
  - apply yields_partition_root_pool_disks.
  - intros disk. unfold plan, partition_creations, swap.
    destruct (truthy (Config.swap_size CONFIG)); repeat split.
  - cbv zeta. split.
    + unfold zpool_create_args. eexists. rewrite !app_assoc. reflexivity.
    + intros w.
      pose proof (create_zfs_pools_and_file_systems_run host CONFIG w) as Hrun.
      cbv zeta in Hrun.
      exists (pool_key_files_of CONFIG).
      exists (flat_map (fun pool => zpool_create_lines pool None "") CONFIG.(Config.data_pools)
              ++ map command_line (create_file_systems_plan CONFIG (drawn_suffix host w))).
      exists (flat_map (fun pool => zpool_create_ops pool None "") CONFIG.(Config.data_pools)
              ++ map (fun argv => Exec argv false)
                     (create_file_systems_plan CONFIG (drawn_suffix host w))).
      unfold create_pools_lines, create_pools_ops, zpool_create_lines, zpool_create_ops,
        root_partition_suffix in Hrun.
      cbn [app] in Hrun. rewrite <- !app_assoc in Hrun. exact Hrun.
Qed.

(** C5, as amended.  For a pool with a non-empty password, [zpool_create]
    writes the key file [/etc/zfs/<pool>.key] holding the passphrase and a
    newline, sets its mode to 0, and only then runs [zpool create], whose
    argument vector carries [-O encryption=aes-256-gcm], [-O
    keyformat=passphrase] and [-O keylocation=file://<key file>] after the
    configured properties; it returns the key file.  For a pool with an empty
    password it creates no key file, returns none, and adds no option of its
    own: the argument vector is [zpool create -f], the configured pool and
    file-system properties, mountpoint, altroot, name, kind and disks, so one
    of the three options is there only where the configuration spells it.
    Dry mode logs exactly these steps; live mode makes exactly these calls
    whenever it returns, and it returns on a host where no call fails. *)
Theorem key_file_and_encryption_options :
  forall (host : Host) (CONFIG : Config.t) (pool : ZfsPool.t) (altroot : option Path)
         (partition : string),
    let key_file := Path_of ("/etc/zfs/" +:+ pool.(ZfsPool.name) +:+ ".key") in
    let contents := pool.(ZfsPool.password) +:+ Py.NL in
    let args encryption :=
      ["zpool"; "create"; "-f"]
      ++ property_args "-o" pool.(ZfsPool.pool_properties)
      ++ property_args "-O" pool.(ZfsPool.file_system_properties)
      ++ encryption
      ++ match pool.(ZfsPool.mountpoint) with
         | Some mountpoint => ["-m"; Mountpoint_str mountpoint]
         | None => []
         end
      ++ match altroot with Some altroot => ["-R"; str altroot] | None => [] end
      ++ [pool.(ZfsPool.name)]
      ++ (if String.eqb pool.(ZfsPool.kind) "single" then [] else [pool.(ZfsPool.kind)])
      ++ map (fun disk => str disk +:+ partition) pool.(ZfsPool.disks) in
    let encrypted :=
      args ["-O"; "encryption=aes-256-gcm"; "-O"; "keyformat=passphrase";
            "-O"; "keylocation=file://" +:+ str key_file] in
    (pool.(ZfsPool.password) <> "" ->
     yields CONFIG (zpool_create host CONFIG pool altroot partition) (Some key_file)
       (cat_to_file_lines key_file contents
        ++ ["chmod 0 " +:+ str key_file +:+ " "; command_line encrypted])
       [WriteText key_file contents; Chmod key_file 0; Exec encrypted false])
    /\ (pool.(ZfsPool.password) = "" ->
        yields CONFIG (zpool_create host CONFIG pool altroot partition) None
          [command_line (args [])] [Exec (args []) false])
    /\ (obliging host -> completes (zpool_create host CONFIG pool altroot partition)).
Proof.
  intros host CONFIG pool altroot partition key_file contents args encrypted.
  pose proof (yields_zpool_create host CONFIG pool altroot partition) as H.
  unfold key_file_lines, key_file_ops, key_file_of, zpool_create_args in H.
  split; [| split]; [| | intros Hob; apply completes_zpool_create; exact Hob]; intros Hpw.
  - assert (Ht : truthy (ZfsPool.password pool) = true).
    { unfold truthy. destruct (String.eqb_spec (ZfsPool.password pool) "");
        [contradiction | reflexivity]. }
    rewrite Ht in H. eapply yields_eq; [exact H | |].
    + unfold encrypted, args. rewrite <- app_assoc.
      destruct (String.eqb (ZfsPool.kind pool) "single"); reflexivity.
    + unfold encrypted, args.
      destruct (String.eqb (ZfsPool.kind pool) "single"); reflexivity.
  - rewrite Hpw in H. simpl in H. eapply yields_eq; [exact H | |].
    + unfold args. destruct (String.eqb (ZfsPool.kind pool) "single"); reflexivity.
    + unfold args. destruct (String.eqb (ZfsPool.kind pool) "single"); reflexivity.
Qed.

(** C5, as stated, fails: a pool with an empty password whose configured
    file-system properties ask for encryption is created with
    [encryption=aes-256-gcm] and [keyformat=passphrase] in the argument
    vector. *)
Lemma options_of_a_passwordless_pool :
  ZfsPool.password prompt_pool = ""
  /\ zpool_create quiet_host live_CONFIG prompt_pool None "" boot_world
     = (Ok None,
        advance
          ["zpool create -f -O encryption=aes-256-gcm -O keyformat=passphrase -O keylocation=prompt tank /dev/sdb"]
          [Exec ["zpool"; "create"; "-f"; "-O"; "encryption=aes-256-gcm";
                 "-O"; "keyformat=passphrase"; "-O"; "keylocation=prompt";
                 "tank"; "/dev/sdb"] false]
          boot_world).
Proof. split; reflexivity. Qed.

(** C7. [create_zfs_pools_and_file_systems] creates the pools and then the
    file systems of the root pool in exactly this order: [ROOT] with
    [mountpoint=none]; [ROOT/fedora_<suffix>], the suffix being six random
    characters among the lowercase letters and the digits, with
    [mountpoint=/], [canmount=noauto] and the two properties
    [org.zfsbootmenu:rootprefix] and [org.zfsbootmenu:commandline]; [zfs
    mount] of that file system, then [zpool set bootfs=] naming it; [home]
    with [mountpoint=/home]; [home/root] with [mountpoint=/root]; and
    [home/<user>] without options for every user, in the order configured.
    Dry mode logs exactly these commands and returns; live mode runs exactly
    them whenever it returns, and it returns on a host where no call
    fails. *)
Theorem file_systems_created_in_order :
  forall (host : Host) (CONFIG : Config.t) (w : world),
    let rpool := CONFIG.(Config.root_pool).(ZfsPool.name) in
    let suffix := drawn_suffix host w in
    let root_fs := rpool +:+ "/ROOT/fedora_" +:+ suffix in
    let plan :=
      [ ["zfs"; "create"; "-o"; "mountpoint=none"; rpool +:+ "/ROOT"];
        ["zfs"; "create"; "-o"; "mountpoint=/"; "-o"; "canmount=noauto";
         "-o"; "org.zfsbootmenu:rootprefix=root=zfs:";
         "-o"; "org.zfsbootmenu:commandline=ro quiet"; root_fs];
        ["zfs"; "mount"; root_fs];
        ["zpool"; "set"; "bootfs=" +:+ root_fs; rpool];
        ["zfs"; "create"; "-o"; "mountpoint=/home"; rpool +:+ "/home"];
        ["zfs"; "create"; "-o"; "mountpoint=/root"; rpool +:+ "/home/root"] ]
      ++ map (fun user => ["zfs"; "create"; rpool +:+ "/home/" +:+ user.(User.name)])
             CONFIG.(Config.users) in
    String.length suffix = 6%nat
    /\ Forall (fun c => c ∈ list_ascii_of_string "abcdefghijklmnopqrstuvwxyz0123456789")
              (list_ascii_of_string suffix)
    /\ (obliging host -> completes (create_zfs_pools_and_file_systems host CONFIG))
    /\ if CONFIG.(Config.dry_mode)
       then create_zfs_pools_and_file_systems host CONFIG w
            = (Ok (pool_key_files_of CONFIG),
               set_draws (draws w + 6)
                 (emit (create_pools_lines CONFIG ++ map command_line plan) w))
       else is_ok (create_zfs_pools_and_file_systems host CONFIG w).1 = true ->
            create_zfs_pools_and_file_systems host CONFIG w
            = (Ok (pool_key_files_of CONFIG),
               set_draws (draws w + 6)
                 (advance (create_pools_lines CONFIG ++ map command_line plan)
                          (create_pools_ops CONFIG
                           ++ map (fun argv => Exec argv false) plan) w)).
Proof.
  intros host CONFIG w rpool suffix root_fs plan.
  destruct (drawn_suffix_spec host w) as [Hlen Hchars].
  split; [exact Hlen |]. split; [exact Hchars |].
  split; [apply completes_create_zfs_pools_and_file_systems |].
  exact (create_zfs_pools_and_file_systems_run host CONFIG w).
Qed.

(** * The boot provisioner and [fstab] *)

Lemma yields_dry {A} CONFIG (m : M A) v l o :
  yields CONFIG m v l o -> Config.dry_mode CONFIG = true -> dry_yields m v l.
Proof. intros H Hd w. specialize (H w). rewrite Hd in H. exact H. Qed.

Lemma dry_ret {A} (v : A) : dry_yields (mret v) v [].
Proof. intros w. rewrite emit_nil. reflexivity. Qed.

Lemma dry_bind {A B} (m : M A) (k : A -> M B) a b l1 l2 :
  dry_yields m a l1 -> dry_yields (k a) b l2 -> dry_yields (m ≫= k) b (l1 ++ l2).
Proof.
  intros Hm Hk w. rewrite (bind_ok _ _ _ _ _ (Hm w)), Hk, emit_emit. reflexivity.
Qed.

Lemma dry_for {A} (xs : list A) (body : A -> M unit) L :
  (forall x, dry_yields (body x) tt (L x)) ->
  dry_yields (for_ xs body) tt (flat_map L xs).
Proof.
  intros Hbody. induction xs as [|x xs IH]; simpl.
  - apply dry_ret.
  - eapply dry_bind; [apply Hbody | exact IH].
Qed.

Lemma dry_collect {A B} (xs : list A) (body : A -> M B) f L :
  (forall x, dry_yields (body x) (f x) (L x)) ->
  dry_yields (collect xs body) (map f xs) (flat_map L xs).
Proof.
  intros Hbody. induction xs as [|x xs IH]; simpl.
  - apply dry_ret.
  - eapply dry_bind; [apply Hbody |].
    rewrite <- (app_nil_r (flat_map L xs)).
    eapply dry_bind; [exact IH | apply dry_ret].
Qed.

Lemma dry_eq {A} (m : M A) v l l' : dry_yields m v l -> l = l' -> dry_yields m v l'.
Proof. intros H ->. exact H. Qed.

(** A [collect] that returns ran its body on every element, in order. *)
Lemma collect_inv {A B} (xs : list A) (body : A -> M B) (R : A -> B -> Prop) :
  (forall x w y w', body x w = (Ok y, w') -> R x y) ->
  forall w ys w', collect xs body w = (Ok ys, w') -> Forall2 R xs ys.
Proof.
  intros Hbody. induction xs as [|x xs IH]; intros w ys w' Hrun; simpl in Hrun.
  - injection Hrun as <- _. constructor.
  - apply bind_inv in Hrun as (y & w1 & Hy & Hrun).
    apply bind_inv in Hrun as (ys' & w2 & Hys & Hrun).
    injection Hrun as <- _. constructor; [eapply Hbody, Hy | eapply IH, Hys].
Qed.

Section Boot.

Variable host : Host.
Variable CONFIG : Config.t.

Lemma sys_output_value args dry_mode_output shell w output w' :
  sys_output host CONFIG args dry_mode_output shell w = (Ok output, w') ->
  if CONFIG.(Config.dry_mode)
  then output = dry_mode_output
  else output = Py.drop_last (run host (trace w) args shell).2.
Proof.
  destruct (Config.dry_mode CONFIG) eqn:Hd.
  - rewrite (sys_output_dry _ _ _ _ _ _ Hd). intros H. injection H as <- _. reflexivity.
  - rewrite (sys_output_live _ _ _ _ _ _ Hd). simpl.
    destruct (os_error host (trace w) (Exec args shell)); [discriminate |].
    destruct (Z.eqb _ 0); [| discriminate].
    intros H. injection H as <- _. reflexivity.
Qed.

(** Every UUID returned was read back for the disk at the same position. *)
Lemma setup_efi_partitions_and_install_zfsbootmenu_returns w uuids w' :
  setup_efi_partitions_and_install_zfsbootmenu host CONFIG w = (Ok uuids, w') ->
  Forall2 (read_back host CONFIG) CONFIG.(Config.root_pool).(ZfsPool.disks) uuids.
Proof.
  unfold setup_efi_partitions_and_install_zfsbootmenu. intros Hrun.
  apply bind_inv in Hrun as (_ & w1 & _ & Hrun).
  apply bind_inv in Hrun as (image & w2 & _ & Hrun).
  cbv zeta in Hrun. revert Hrun. apply collect_inv.
  intros disk v y v' Hbody.
  apply bind_inv in Hbody as (_ & v1 & _ & Hbody).
  apply bind_inv in Hbody as (uuid & v2 & Huuid & Hbody).
  apply bind_inv in Hbody as (_ & v3 & _ & Hbody).
  apply bind_inv in Hbody as (_ & v4 & _ & Hbody).
  apply bind_inv in Hbody as (_ & v5 & _ & Hbody).
  apply bind_inv in Hbody as (_ & v6 & _ & Hbody).
  injection Hbody as <- _.
  apply sys_output_value in Huuid. unfold read_back, blkid_args.
  destruct (Config.dry_mode CONFIG); [exact Huuid | eexists; exact Huuid].
Qed.

(** In dry mode the boot provisioner returns, with the placeholder for
    every disk. *)
Lemma setup_efi_partitions_and_install_zfsbootmenu_dry :
  Config.dry_mode CONFIG = true ->
  dry_yields (setup_efi_partitions_and_install_zfsbootmenu host CONFIG)
    (map (fun _ => "A48C-0D61") CONFIG.(Config.root_pool).(ZfsPool.disks))
    (command_line ["curl"; "--remote-name"; "--remote-header-name"; "--location";
                   "https://get.zfsbootmenu.org/efi"]
     :: flat_map efi_dry_lines CONFIG.(Config.root_pool).(ZfsPool.disks)).
Proof.
  intros Hd. unfold setup_efi_partitions_and_install_zfsbootmenu. rewrite Hd. simpl negb.
  cbv iota.
  eapply dry_eq.
  - eapply dry_bind; [eapply yields_dry; [apply yields_sys | exact Hd] |].
    eapply dry_bind; [apply dry_ret |].
    cbv zeta beta.
    apply (dry_collect _ _ (fun _ => "A48C-0D61") efi_dry_lines).
    intros disk. unfold efi_dry_lines.
    eapply dry_eq.
    + eapply dry_bind; [eapply yields_dry; [apply yields_sys | exact Hd] |].
      eapply dry_bind; [intros w; apply sys_output_dry; exact Hd |].
      cbv beta.
      eapply dry_bind; [eapply yields_dry; [apply yields_mkdir | exact Hd] |].
      eapply dry_bind; [eapply yields_dry; [apply yields_sys | exact Hd] |].
      eapply dry_bind; [eapply yields_dry; [apply yields_copy2 | exact Hd] |].
      eapply dry_bind; [eapply yields_dry; [apply yields_sys | exact Hd] |].
      apply dry_ret.
    + reflexivity.
  - reflexivity.
Qed.

End Boot.

Lemma fstab_efi_lines (disks : list Path) (uuids : list string) :
  length uuids = length disks ->
  map (fun de : Path * string => fstab_efi_line de.2) (zip disks uuids)
  = map fstab_efi_line uuids.
Proof.
  revert uuids. induction disks as [|d ds IH]; intros [|u us] Hlen; simpl in *;
    try discriminate; [reflexivity |].
  rewrite IH; [reflexivity | congruence].
Qed.

(** C6. For a root pool with K disks,
    [setup_efi_partitions_and_install_zfsbootmenu], whenever it returns,
    returns K UUIDs, the i-th being the one read back with [blkid] from the
    EFI partition of the i-th disk (in dry mode, where it always returns, the
    placeholder [A48C-0D61]; in live mode it returns on a host where no call
    fails and the downloaded image is found).  [write_fstab] on a list of K
    UUIDs writes a file that starts with K EFI entries, one per UUID in
    order, each [/dev/disk/by-uuid/<uuid> /boot/efis/<uuid> vfat ...],
    followed by the swap entries when swap is configured. *)
Theorem efi_uuids_reach_fstab :
  forall (host : Host) (CONFIG : Config.t),
    let disks := CONFIG.(Config.root_pool).(ZfsPool.disks) in
    (forall w uuids w',
        setup_efi_partitions_and_install_zfsbootmenu host CONFIG w = (Ok uuids, w') ->
        length uuids = length disks /\ Forall2 (read_back host CONFIG) disks uuids)
    /\ (Config.dry_mode CONFIG = true ->
        forall w, (setup_efi_partitions_and_install_zfsbootmenu host CONFIG w).1
                  = Ok (map (fun _ => "A48C-0D61") disks))
    /\ (obliging host ->
        (forall h dir, listing host h dir "zfsbootmenu-*" <> []) ->
        completes (setup_efi_partitions_and_install_zfsbootmenu host CONFIG))
    /\ (forall uuids,
        length uuids = length disks ->
        let efi_entries :=
          map (fun uuid => "/dev/disk/by-uuid/" +:+ uuid +:+ " /boot/efis/" +:+ uuid
                           +:+ " vfat umask=0077,shortname=winnt,nofail 0 2" +:+ Py.NL)
              uuids in
        let swap_entries :=
          if truthy CONFIG.(Config.swap_size)
          then map fstab_swap_line (seq 0 (length disks)) else [] in
        let contents := String.concat "" efi_entries +:+ String.concat "" swap_entries in
        length efi_entries = length disks
        /\ yields CONFIG (write_fstab host CONFIG uuids) tt
             (cat_to_file_lines (Path_of "/rpool/etc/fstab") contents)
             [WriteText (Path_of "/rpool/etc/fstab") contents]).
Proof.
  intros host CONFIG disks. split; [| split; [| split]].
  - intros w uuids w' Hrun.
    pose proof (setup_efi_partitions_and_install_zfsbootmenu_returns _ _ _ _ _ Hrun) as H.
    split; [symmetry; exact (Forall2_length _ _ _ H) | exact H].
  - intros Hd w.
    rewrite (setup_efi_partitions_and_install_zfsbootmenu_dry host CONFIG Hd w).
    reflexivity.
  - intros Hob Hfound.
    apply completes_setup_efi_partitions_and_install_zfsbootmenu; [exact Hob |].
    intros _. exact Hfound.
  - intros uuids Hlen efi_entries swap_entries contents. split.
    + unfold efi_entries. rewrite length_map. exact Hlen.
    + unfold write_fstab.
      replace contents with (fstab_contents CONFIG uuids); [apply yields_cat_to_file |].
      unfold fstab_contents, contents, swap_entries, efi_entries.
      fold disks. rewrite (fstab_efi_lines disks uuids Hlen).
      destruct (truthy (Config.swap_size CONFIG)); reflexivity.
Qed.

(** * The isolated root *)

Lemma fresh_fd_above (tbl : list (nat * Path)) (e : nat * Path) :
  e ∈ tbl -> (e.1 < fresh_fd tbl)%nat.
Proof.
  unfold fresh_fd. induction tbl as [|x tbl IH]; intros He.
  - inversion He.
  - apply elem_of_cons in He as [-> | He]; simpl.
    + lia.
    + specialize (IH He). lia.
Qed.

Lemma fd_lookup_fresh tbl : fd_lookup (fresh_fd tbl) tbl = None.
Proof.
  unfold fd_lookup.
  assert (H : forall l : list (nat * Path),
             (forall e, e ∈ l -> (e.1 < fresh_fd tbl)%nat) ->
             find (fun e => Nat.eqb e.1 (fresh_fd tbl)) l = None).
  { induction l as [|x l IH]; intros Hl; simpl; [reflexivity |].
    destruct (Nat.eqb_spec x.1 (fresh_fd tbl)) as [Heq | _].
    - specialize (Hl x ltac:(left)). lia.
    - apply IH. intros e He. apply Hl. right. exact He. }
  rewrite (H tbl (fresh_fd_above tbl)). reflexivity.
Qed.

Lemma fd_remove_fresh tbl : fd_remove (fresh_fd tbl) tbl = tbl.
Proof.
  unfold fd_remove.
  assert (H : forall l : list (nat * Path),
             (forall e, e ∈ l -> (e.1 < fresh_fd tbl)%nat) ->
             List.filter (fun e => negb (Nat.eqb e.1 (fresh_fd tbl))) l = l).
  { induction l as [|x l IH]; intros Hl; simpl; [reflexivity |].
    destruct (Nat.eqb_spec x.1 (fresh_fd tbl)) as [Heq | _]; simpl.
    - specialize (Hl x ltac:(left)). lia.
    - rewrite IH; [reflexivity |]. intros e He. apply Hl. right. exact He. }
  exact (H tbl (fresh_fd_above tbl)).
Qed.

Lemma fd_lookup_removed fd tbl : fd_lookup fd (fd_remove fd tbl) = None.
Proof.
  unfold fd_lookup, fd_remove. induction tbl as [|x tbl IH]; simpl; [reflexivity |].
  destruct (Nat.eqb x.1 fd) eqn:Heq; simpl; [exact IH |].
  rewrite Heq. exact IH.
Qed.

Lemma fd_remove_head tbl dir : fd_remove (fresh_fd tbl) ((fresh_fd tbl, dir) :: tbl) = tbl.
Proof.
  unfold fd_remove. simpl. rewrite Nat.eqb_refl. simpl. apply fd_remove_fresh.
Qed.

Section Chroot.

Variable host : Host.
Variable CONFIG : Config.t.

(** The [finally] block, run with the descriptor still open. *)
Lemma chroot_finally_run newroot fd dir w1 :
  fd_lookup fd (fds w1) = Some dir ->
  (info ("exit  # chroot " +:+ str newroot);;
   when (negb CONFIG.(Config.dry_mode)) (os_fchdir fd;; os_chroot_dot);;
   os_close fd) w1
  = (Ok tt, chroot_left CONFIG newroot fd dir w1).
Proof.
  intros Hfd. unfold chroot_left. rewrite bind_run, info_run.
  destruct (Config.dry_mode CONFIG); simpl negb; unfold when.
  - rewrite bind_run. unfold mret at 1, M_ret at 1. unfold os_close.
    change (fds (emit ["exit  # chroot " +:+ str newroot] w1)) with (fds w1).
    rewrite Hfd. reflexivity.
  - rewrite !bind_run. unfold os_fchdir.
    change (fds (emit ["exit  # chroot " +:+ str newroot] w1)) with (fds w1).
    rewrite Hfd. unfold os_chroot_dot, update, os_close. cbv beta iota.
    change (fds (set_root _ _)) with (fds w1).
    rewrite Hfd. reflexivity.
Qed.

(** The scope when the body gets to run. *)
Lemma chroot_run {A} newroot (body : M A) w r w1 :
  (CONFIG.(Config.dry_mode) = true \/ os_error host (trace w) (Chdir newroot) = None) ->
  body (chroot_entered CONFIG newroot w) = (r, w1) ->
  fd_lookup (fresh_fd (fds w)) (fds w1) = Some (root w) ->
  chroot host CONFIG newroot body w
  = (r, chroot_left CONFIG newroot (fresh_fd (fds w)) (root w) w1).
Proof.
  intros Hentry Hbody Hfd. unfold chroot_entered in Hbody.
  unfold chroot. rewrite bind_run, info_run. rewrite bind_run. unfold os_open_root at 1.
  cbv beta iota zeta. unfold try_finally.
  change (fds (emit ["chroot " +:+ str newroot] w)) with (fds w).
  change (root (emit ["chroot " +:+ str newroot] w)) with (root w).
  destruct (Config.dry_mode CONFIG) eqn:Hd; simpl negb; unfold when.
  - rewrite (bind_run (mret tt)). unfold mret at 1, M_ret at 1. rewrite Hbody.
    pose proof (chroot_finally_run newroot _ _ _ Hfd) as Hfin.
    rewrite Hd in Hfin. simpl negb in Hfin. unfold when in Hfin. rewrite Hfin.
    unfold chroot_left. rewrite Hd. reflexivity.
  - destruct Hentry as [Hentry | Hentry]; [discriminate |].
    rewrite !bind_run. unfold os_chdir. rewrite bind_run. unfold perform.
    change (trace (set_fds _ (emit ["chroot " +:+ str newroot] w))) with (trace w).
    rewrite Hentry. unfold update, os_chroot_dot, update. cbv beta iota.
    match goal with
    | |- context [body ?x] =>
        match type of Hbody with body ?y = _ => change x with y end
    end.
    rewrite Hbody.
    pose proof (chroot_finally_run newroot _ _ _ Hfd) as Hfin.
    rewrite Hd in Hfin. simpl negb in Hfin. unfold when, os_chroot_dot, update in Hfin.
    rewrite Hfin.
    unfold chroot_left. rewrite Hd. reflexivity.
Qed.

(** The scope when [os.chdir(newroot)] fails: the body does not run, the
    root is put back and the descriptor closed. *)
Lemma chroot_entry_fails {A} newroot (body : M A) w msg :
  CONFIG.(Config.dry_mode) = false ->
  os_error host (trace w) (Chdir newroot) = Some msg ->
  chroot host CONFIG newroot body w
  = (Raise (OSError msg),
     set_root (root w) (set_cwd (root w)
       (set_trace (fun t => t ++ [Chdir newroot])
          (emit ["chroot " +:+ str newroot; "exit  # chroot " +:+ str newroot] w)))).
Proof.
  intros Hd Hentry.
  unfold chroot. rewrite bind_run, info_run. rewrite bind_run. unfold os_open_root at 1.
  cbv beta iota zeta. unfold try_finally.
  change (fds (emit ["chroot " +:+ str newroot] w)) with (fds w).
  change (root (emit ["chroot " +:+ str newroot] w)) with (root w).
  rewrite Hd. simpl negb. unfold when.
  rewrite !bind_run. unfold os_chdir. rewrite bind_run. unfold perform.
  change (trace (set_fds _ (emit ["chroot " +:+ str newroot] w))) with (trace w).
  rewrite Hentry. cbv beta iota.
  match goal with
  | |- context [(info ?l ≫= ?k) ?x] =>
      pose proof (chroot_finally_run newroot (fresh_fd (fds w)) (root w) x) as Hfin
  end.
  rewrite Hd in Hfin. simpl negb in Hfin. unfold when in Hfin. rewrite Hfin.
  - unfold chroot_left. rewrite Hd. destruct w.
    cbv [emit set_fds set_root set_cwd set_trace set_log fds root cwd log trace draws].
    rewrite fd_remove_head, <- app_assoc. reflexivity.
  - simpl. unfold fd_lookup. simpl. rewrite Nat.eqb_refl. reflexivity.
Qed.

End Chroot.

(** C8. [with chroot(newroot)] opens a descriptor on the current root
    before anything else and logs the entry; its body starts with that
    descriptor open (in live mode inside [newroot], in dry mode with root
    and working directory untouched).  However the body ends, by returning
    or by raising, and provided it left the descriptor open, the scope ends
    the same way, having logged the exit and closed the descriptor; in live
    mode the root of the process is then the original root again, in dry
    mode the scope has not changed it.  When, in live mode, [newroot] cannot
    be entered, the body does not run and the scope raises with the original
    root in place and the descriptor closed. *)
Theorem chroot_restores_the_root :
  forall (host : Host) (CONFIG : Config.t) (A : Type) (newroot : Path) (body : M A)
         (w : world),
    let fd := fresh_fd (fds w) in
    let entered := chroot_entered CONFIG newroot w in
    let entry_line := "chroot " +:+ str newroot in
    let exit_line := "exit  # chroot " +:+ str newroot in
    fd_lookup fd (fds w) = None
    /\ fd_lookup fd (fds entered) = Some (root w)
    /\ log entered = log w ++ [entry_line]
    /\ root entered = (if CONFIG.(Config.dry_mode) then root w else resolve w newroot)
    /\ ((CONFIG.(Config.dry_mode) = true
         \/ os_error host (trace w) (Chdir newroot) = None) ->
        forall r w1,
          body entered = (r, w1) ->
          fd_lookup fd (fds w1) = Some (root w) ->
          exists w', chroot host CONFIG newroot body w = (r, w')
                     /\ fd_lookup fd (fds w') = None
                     /\ log w' = log w1 ++ [exit_line]
                     /\ root w' = (if CONFIG.(Config.dry_mode) then root w1 else root w))
    /\ (CONFIG.(Config.dry_mode) = false ->
        forall msg,
          os_error host (trace w) (Chdir newroot) = Some msg ->
          exists w', chroot host CONFIG newroot body w = (Raise (OSError msg), w')
                     /\ root w' = root w
                     /\ fds w' = fds w
                     /\ log w' = log w ++ [entry_line; exit_line]).
Proof.
  intros host CONFIG A newroot body w fd entered entry_line exit_line.
  split; [apply fd_lookup_fresh |].
  split.
  { unfold entered, chroot_entered, fd_lookup.
    destruct (Config.dry_mode CONFIG); simpl; rewrite Nat.eqb_refl; reflexivity. }
  split; [unfold entered, chroot_entered; destruct (Config.dry_mode CONFIG); reflexivity |].
  split; [unfold entered, chroot_entered; destruct (Config.dry_mode CONFIG); reflexivity |].
  split.
  - intros Hentry r w1 Hbody Hfd.
    exists (chroot_left CONFIG newroot fd (root w) w1).
    split; [exact (chroot_run host CONFIG newroot body w r w1 Hentry Hbody Hfd) |].
    unfold chroot_left.
    split; [apply fd_lookup_removed |].
    split; destruct (Config.dry_mode CONFIG); reflexivity.
  - intros Hd msg Hentry. eexists.
    split; [exact (chroot_entry_fails host CONFIG newroot body w msg Hd Hentry) |].
    split; [reflexivity |]. split; reflexivity.
Qed.

(** A live run in which the body fails: the command inside the scope exits
    with status 1, [sys] raises, and the scope still logs its exit, puts the
    root back and closes the descriptor. *)
Example chroot_after_a_failing_body :
  let run := chroot (uniform_host 1 "") live_CONFIG NEW_SYSTEM_ROOT
               (sys (uniform_host 1 "") live_CONFIG ["fixfiles"; "-F"; "onboot"] true)
               boot_world in
  run.1 = Raise (CalledProcessError 1 ["fixfiles"; "-F"; "onboot"])
  /\ log run.2 = ["chroot /rpool"; "fixfiles -F onboot"; "exit  # chroot /rpool"]
  /\ root run.2 = Path_of "/"
  /\ fds run.2 = [].
Proof. repeat split. Qed.

(** * The run up to the installation of the packages *)

Section Main.

Variable host : Host.
Variable CONFIG : Config.t.

Lemma install_zfs_to_live_environment_dry version_id :
  Config.dry_mode CONFIG = true ->
  exists lines, dry_yields (install_zfs_to_live_environment host CONFIG version_id) tt lines.
Proof.
  intros Hd. unfold install_zfs_to_live_environment. eexists.
  eapply dry_bind; [eapply yields_dry; [apply yields_sys | exact Hd] |].
  eapply dry_bind; [eapply yields_dry; [apply yields_sys | exact Hd] |].
  eapply dry_bind; [eapply yields_dry; [apply yields_when, yields_sys | exact Hd] |].
  eapply dry_bind; [eapply yields_dry; [apply yields_sys | exact Hd] |].
  eapply yields_dry; [apply yields_sys | exact Hd].
Qed.

Lemma blkdiscard_and_zero_disks_dry :
  Config.dry_mode CONFIG = true ->
  exists lines, dry_yields (blkdiscard_and_zero_disks host CONFIG) tt lines.
Proof.
  intros Hd. unfold blkdiscard_and_zero_disks. eexists.
  eapply yields_dry; [| exact Hd].
  apply yields_for. intros pool. apply yields_for. intros disk.
  eapply yields_bind; [apply yields_sys | apply yields_when, yields_sys].
Qed.

Lemma rbind_mounts_dry :
  Config.dry_mode CONFIG = true ->
  exists lines,
    dry_yields
      (for_ ["dev"; "proc"; "sys"] (fun rbind_dir =>
         mkdir host CONFIG (NEW_SYSTEM_ROOT // rbind_dir);;
         sys host CONFIG ["mount"; "--rbind"; "/" +:+ rbind_dir;
                          str (NEW_SYSTEM_ROOT // rbind_dir)] true))
      tt lines.
Proof.
  intros Hd. eexists. eapply yields_dry; [| exact Hd].
  apply yields_for. intros rbind_dir.
  eapply yields_bind; [apply yields_mkdir | apply yields_sys].
Qed.

Lemma install_packages_without_underscore version_id w :
  Py.contains "_" CONFIG.(Config.locale) = false ->
  install_packages host CONFIG version_id w = (Raise (ValueError "substring not found"), w).
Proof.
  intros Hlocale. unfold install_packages.
  assert (Hindex : Py.index "_" (Config.locale CONFIG) = None).
  { clear -Hlocale. induction (Config.locale CONFIG) as [|c r IH]; [reflexivity |].
    cbn [Py.contains Py.index] in *. destruct (Ascii.eqb "_" c); [discriminate |].
    rewrite (IH Hlocale). reflexivity. }
  rewrite Hindex. reflexivity.
Qed.

End Main.

(** In dry mode, a configuration that passes the check and whose locale has
    no underscore runs up to [install_packages] and stops there. *)
Lemma main_stops_at_install_packages (host : Host) (CONFIG : Config.t) (w : world) :
  Config.dry_mode CONFIG = true ->
  config_ok CONFIG ->
  Py.contains "_" CONFIG.(Config.locale) = false ->
  exists before after,
    main host CONFIG w
    = (Raise (ValueError "substring not found"),
       set_draws (draws w + 6)
         (emit (before
                ++ (flat_map (fun disk => map command_line
                                            (sgdisk_zap disk :: partition_creations CONFIG disk))
                             CONFIG.(Config.root_pool).(ZfsPool.disks)
                    ++ ["sleep 2"]
                    ++ create_pools_lines CONFIG)
                ++ after) w)).
Proof.
  intros Hd Hok Hlocale.
  destruct (check_config_for_errors_spec CONFIG w) as [[_ Hcheck] | [Hbad _]];
    [| contradiction].
  destruct (install_zfs_to_live_environment_dry host CONFIG 36 Hd) as [l_zfs Hzfs].
  destruct (blkdiscard_and_zero_disks_dry host CONFIG Hd) as [l_blk Hblk].
  destruct (rbind_mounts_dry host CONFIG Hd) as [l_rbind Hrbind].
  pose proof (yields_dry _ _ _ _ _ (yields_partition_root_pool_disks host CONFIG) Hd) as Hpart.
  pose proof (setup_efi_partitions_and_install_zfsbootmenu_dry host CONFIG Hd) as Hefi.
  exists ("setenforce 0"
          :: command_line ["source /etc/os-release; echo "
                           +:+ Py.DQUOTE +:+ "$VERSION_ID" +:+ Py.DQUOTE]
          :: "#> 36" :: l_zfs ++ l_blk).
  exists (map command_line (create_file_systems_plan CONFIG (drawn_suffix host w))
          ++ (command_line ["curl"; "--remote-name"; "--remote-header-name"; "--location";
                            "https://get.zfsbootmenu.org/efi"]
              :: flat_map efi_dry_lines CONFIG.(Config.root_pool).(ZfsPool.disks))
          ++ l_rbind).
  unfold main.
  rewrite (bind_ok _ _ _ _ _ Hcheck).
  erewrite yields_step_dry; [| apply yields_sys | exact Hd].
  rewrite (bind_ok _ _ _ _ _ (sys_output_dry host CONFIG _ _ _ _ Hd)).
  cbv beta. change (PyInt.int "36") with (Some 36). cbv iota.
  rewrite (bind_ok (mret 36) _ _ 36 _ eq_refl).
  rewrite (bind_ok _ _ _ _ _ (Hzfs _)).
  rewrite (bind_ok _ _ _ _ _ (Hblk _)).
  rewrite (bind_ok _ _ _ _ _ (Hpart _)).
  pose proof (create_zfs_pools_and_file_systems_run host CONFIG) as Hcreate.
  cbv zeta in Hcreate. rewrite Hd in Hcreate.
  rewrite (bind_ok _ _ _ _ _ (Hcreate _)).
  rewrite (bind_ok _ _ _ _ _ (Hefi _)).
  rewrite (bind_ok _ _ _ _ _ (Hrbind _)).
  rewrite (bind_raise _ _ _ _ _ (install_packages_without_underscore host CONFIG _ _ Hlocale)).
  rewrite !emit_set_draws, !emit_emit. f_equal. f_equal. f_equal.
  rewrite <- !app_assoc. cbn [app]. rewrite <- !app_assoc. reflexivity.
Qed.

Lemma shipped_CONFIG_ok : config_ok shipped_CONFIG.
Proof.
  unfold config_ok, pool_shape_ok. simpl.
  split; [| split; [| split]].
  - apply (bool_decide_unpack _). vm_compute. exact I.
  - repeat constructor; simpl; try discriminate; intros H; try discriminate H;
      exfalso; apply H; reflexivity.
  - apply (bool_decide_unpack _). vm_compute. exact I.
  - apply (bool_decide_unpack _). vm_compute. exact I.
Qed.

(** C10. When the locale holds no underscore, [install_packages] raises
    [ValueError] before it issues anything, in every mode and from every
    world.  The configuration check does not look at the locale: its outcome
    is the same whatever the locale is.  So in dry mode, where every earlier
    step returns, a configuration that passes the check runs up to
    [install_packages] and aborts there, and the log then holds the [sgdisk]
    commands for every disk of the root pool and the commands that create
    the pools. *)
Theorem locale_without_underscore_aborts_late :
  forall (host : Host) (CONFIG : Config.t),
    Py.contains "_" CONFIG.(Config.locale) = false ->
    (forall version_id w,
        install_packages host CONFIG version_id w
        = (Raise (ValueError "substring not found"), w))
    /\ (forall locale w,
        check_config_for_errors (with_locale locale CONFIG) w
        = check_config_for_errors CONFIG w)
    /\ (Config.dry_mode CONFIG = true ->
        config_ok CONFIG ->
        forall w, exists before after w',
          main host CONFIG w = (Raise (ValueError "substring not found"), w')
          /\ log w'
             = log w
               ++ before
               ++ (flat_map (fun disk =>
                               map command_line
                                   (sgdisk_zap disk :: partition_creations CONFIG disk))
                            CONFIG.(Config.root_pool).(ZfsPool.disks)
                   ++ ["sleep 2"]
                   ++ create_pools_lines CONFIG)
               ++ after).
Proof.
  intros host CONFIG Hlocale. split; [| split].
  - intros version_id w. apply install_packages_without_underscore. exact Hlocale.
  - intros locale w. reflexivity.
  - intros Hd Hok w.
    destruct (main_stops_at_install_packages host CONFIG w Hd Hok Hlocale)
      as (before & after & Hrun).
    exists before, after. eexists. split; [exact Hrun | reflexivity].
Qed.

Lemma locale_without_underscore_aborts_late_witness :
  (main quiet_host (with_locale "C.UTF-8" shipped_CONFIG) boot_world).1
  = Raise (ValueError "substring not found").
Proof.
  destruct (locale_without_underscore_aborts_late quiet_host
              (with_locale "C.UTF-8" shipped_CONFIG) eq_refl) as (_ & _ & H).
  destruct (H eq_refl shipped_CONFIG_ok boot_world) as (before & after & w' & Hrun & _).
  rewrite Hrun. reflexivity.
Defined.

(** * Worked examples *)

Lemma quiet_host_obliging : obliging quiet_host.
Proof. split; intros; reflexivity. Qed.

(** One disk, swap of [1G], one user [alice]: three partitions on the disk,
    a [home/alice] file system, one EFI UUID, a [cryptswap1] entry in
    [crypttab] and the matching swap entry in [fstab]. *)
Example one_disk_with_swap :
  (partition_root_pool_disks quiet_host alice_CONFIG boot_world).2
  = emit ["sgdisk --zap-all /dev/sda";
          "sgdisk --new=0:1M:+512M --typecode=0:EF00 "
          +:+ Py.DQUOTE +:+ "--change-name=0:EFI System Partition" +:+ Py.DQUOTE
          +:+ " /dev/sda";
          "sgdisk --new=0:0:+1G --typecode=0:8200 --change-name=0:Swap /dev/sda";
          "sgdisk --new=0:0:0 --typecode=0:BF00 "
          +:+ Py.DQUOTE +:+ "--change-name=0:ZFS Pool rpool" +:+ Py.DQUOTE +:+ " /dev/sda";
          "sleep 2"] boot_world
  /\ last (log (create_zfs_pools_and_file_systems quiet_host alice_CONFIG boot_world).2)
     = Some "zfs create rpool/home/alice"
  /\ (setup_efi_partitions_and_install_zfsbootmenu quiet_host alice_CONFIG boot_world).1
     = Ok ["A48C-0D61"]
  /\ crypttab_contents alice_CONFIG
     = "cryptswap1 /dev/sda-part2 /dev/urandom "
       +:+ "swap,cipher=aes-xts-plain64:sha256,size=256,discard" +:+ Py.NL
  /\ fstab_contents alice_CONFIG ["A48C-0D61"]
     = "/dev/disk/by-uuid/A48C-0D61 /boot/efis/A48C-0D61 "
       +:+ "vfat umask=0077,shortname=winnt,nofail 0 2" +:+ Py.NL
       +:+ "/dev/mapper/cryptswap1 none swap "
       +:+ "x-systemd.requires=cryptsetup.target,defaults 0 0" +:+ Py.NL.
Proof. repeat split. Qed.

(** A mirror of two disks without swap: two partitions per disk, the
    [mirror] token in the pool creation on the [-part2] partitions, two EFI
    UUIDs and two EFI entries in [fstab]. *)
Example two_disk_mirror_without_swap :
  map (fun disk => length (partition_creations mirror_CONFIG disk))
      mirror_CONFIG.(Config.root_pool).(ZfsPool.disks) = [2; 2]%nat
  /\ zpool_create_args mirror_CONFIG.(Config.root_pool) None (Some NEW_SYSTEM_ROOT)
       (root_partition_suffix mirror_CONFIG)
     = ["zpool"; "create"; "-f"; "-m"; "none"; "-R"; "/rpool"; "rpool"; "mirror";
        "/dev/sda-part2"; "/dev/sdb-part2"]
  /\ (setup_efi_partitions_and_install_zfsbootmenu quiet_host mirror_CONFIG boot_world).1
     = Ok ["A48C-0D61"; "A48C-0D61"]
  /\ fstab_contents mirror_CONFIG ["A48C-0D61"; "A48C-0D61"]
     = fstab_efi_line "A48C-0D61" +:+ fstab_efi_line "A48C-0D61".
Proof. repeat split. Qed.

(** The shipped configuration passes the check and, in dry mode, runs to
    the end; the only call it makes is the read of the ZFS event script,
    which [write_zfs_mount_generator_cache] does not guard by the mode. *)
Example shipped_dry_run :
  let host := {| run := run quiet_host;
                 os_error := os_error quiet_host;
                 listing := listing quiet_host;
                 file_text := fun _ _ => "PROPS=" +:+ Py.DQUOTE +:+ "name,mountpoint"
                                         +:+ Py.DQUOTE +:+ Py.NL;
                 uname_release := uname_release quiet_host;
                 today := today quiet_host;
                 randbelow := randbelow quiet_host |} in
  let run := main host shipped_CONFIG boot_world in
  run.1 = Ok tt
  /\ trace run.2 = [ReadText (Path_of "/etc/zfs/zed.d/history_event-zfs-list-cacher.sh")]
  /\ root run.2 = Path_of "/"
  /\ fds run.2 = []
  /\ last (log run.2) = Some "zpool export -a".
Proof. vm_compute. repeat split. Qed.

(** * What every run leaves in place *)

Global Instance grows_by_preorder P : PreOrder (grows_by P).
Proof.
  split.
  - intros w. split; [exists []; rewrite app_nil_r; reflexivity |].
    exists []. rewrite app_nil_r. split; [reflexivity | constructor].
  - intros w1 w2 w3 [[l1 Hl1] (o1 & Ho1 & HP1)] [[l2 Hl2] (o2 & Ho2 & HP2)]. split.
    + exists (l1 ++ l2). rewrite Hl2, Hl1, app_assoc. reflexivity.
    + exists (o1 ++ o2). rewrite Ho2, Ho1, app_assoc. split; [reflexivity |].
      apply Forall_app. split; assumption.
Qed.

Global Instance quiet_preorder P : PreOrder (quiet P).
Proof.
  split.
  - intros w. split; [reflexivity | auto].
  - intros w1 w2 w3 (G1 & R1 & C1 & F1) (G2 & R2 & C2 & F2).
    split; [etransitivity; eassumption |].
    rewrite R2, C2, F2. auto.
Qed.

Global Instance rooted_preorder P : PreOrder (rooted P).
Proof.
  split.
  - intros w. split; [reflexivity | auto].
  - intros w1 w2 w3 (G1 & R1 & F1) (G2 & R2 & F2).
    split; [etransitivity; eassumption |].
    rewrite R2, F2. auto.
Qed.

Lemma quiet_rooted P w w' : quiet P w w' -> rooted P w w'.
Proof. intros (G & R & _ & F). split; auto. Qed.

Section Steady.

Context (R : world -> world -> Prop) `{!PreOrder R}.

Lemma steady_ret {A} (v : A) : steady R (mret v).
Proof. intros w. simpl. reflexivity. Qed.

Lemma steady_raise {A} (e : exn) : steady R (raise e : M A).
Proof. intros w. simpl. reflexivity. Qed.

Lemma steady_bind {A B} (m : M A) (k : A -> M B) :
  steady R m -> (forall a, steady R (k a)) -> steady R (m ≫= k).
Proof.
  intros Hm Hk w. rewrite bind_run. specialize (Hm w).
  destruct (m w) as [[a|e] w1]; simpl in *; [| exact Hm].
  etransitivity; [exact Hm | apply Hk].
Qed.

Lemma steady_for {A} (xs : list A) (body : A -> M unit) :
  (forall x, steady R (body x)) -> steady R (for_ xs body).
Proof.
  intros Hbody. induction xs as [|x xs IH]; simpl.
  - apply steady_ret.
  - apply steady_bind; [apply Hbody | intros _; exact IH].
Qed.

Lemma steady_collect {A B} (xs : list A) (body : A -> M B) :
  (forall x, steady R (body x)) -> steady R (collect xs body).
Proof.
  intros Hbody. induction xs as [|x xs IH]; simpl.
  - apply steady_ret.
  - apply steady_bind; [apply Hbody | intros y].
    apply steady_bind; [exact IH | intros ys; apply steady_ret].
Qed.

Lemma steady_when (c : bool) (m : M unit) : (c = true -> steady R m) -> steady R (when c m).
Proof. intros H. destruct c; [apply H; reflexivity | apply steady_ret]. Qed.

End Steady.

Lemma steady_weaken (R R' : world -> world -> Prop) {A} (m : M A) :
  (forall w w', R w w' -> R' w w') -> steady R m -> steady R' m.
Proof. intros Hsub Hm w. apply Hsub, Hm. Qed.

Section Quiet.

Variable host : Host.
Variable CONFIG : Config.t.
Variable P : os_op -> Prop.

Lemma quiet_emit lines w : quiet P w (emit lines w).
Proof.
  split; [split |]; [exists lines; reflexivity | | auto].
  exists []. rewrite app_nil_r. split; [reflexivity | constructor].
Qed.

Lemma quiet_info line : steady (quiet P) (info line).
Proof. intros w. apply (quiet_emit [line]). Qed.

Lemma quiet_history : steady (quiet P) history.
Proof. intros w. simpl. reflexivity. Qed.

Lemma quiet_perform op : P op -> steady (quiet P) (perform host op).
Proof.
  intros HP w.
  assert (H : quiet P w (set_trace (fun t => t ++ [op]) w)).
  { split; [split |]; [exists []; rewrite app_nil_r; reflexivity | | auto].
    exists [op]. split; [reflexivity | constructor; [exact HP | constructor]]. }
  unfold perform. destruct (os_error host (trace w) op); exact H.
Qed.

Lemma quiet_choices population k : steady (quiet P) (choices host population k).
Proof.
  intros w. simpl. split; [split |]; [exists [] | exists [] |];
    simpl; rewrite ?app_nil_r; auto.
Qed.

(** A logged call that dry mode skips. *)
Lemma quiet_gated line op :
  (CONFIG.(Config.dry_mode) = false -> P op) ->
  steady (quiet P) (info line;; when (negb CONFIG.(Config.dry_mode)) (perform host op)).
Proof.
  intros HP. apply steady_bind; [apply _ | apply quiet_info | intros _].
  apply steady_when; [apply _ |]. intros Hlive. apply quiet_perform, HP.
  destruct (Config.dry_mode CONFIG); [discriminate Hlive | reflexivity].
Qed.

Lemma quiet_subprocess_run args shell :
  P (Exec args shell) -> steady (quiet P) (subprocess_run host args shell).
Proof.
  intros HP. unfold subprocess_run.
  apply steady_bind; [apply _ | apply quiet_history | intros h].
  apply steady_bind; [apply _ | apply quiet_perform, HP | intros _; apply steady_ret; apply _].
Qed.

Lemma quiet_sys args ignore_exit_code :
  (CONFIG.(Config.dry_mode) = false -> P (Exec args false)) ->
  steady (quiet P) (sys host CONFIG args ignore_exit_code).
Proof.
  intros HP. unfold sys. apply steady_bind; [apply _ | apply quiet_info | intros _].
  apply steady_when; [apply _ |]. intros Hlive.
  assert (Hd : Config.dry_mode CONFIG = false)
    by (destruct (Config.dry_mode CONFIG); [discriminate Hlive | reflexivity]).
  destruct ignore_exit_code; unfold subprocess_check_call, subprocess_call.
  - apply steady_bind; [apply _ | apply quiet_subprocess_run, HP, Hd | intros r].
    destruct (Z.eqb r.1 0); [apply steady_ret | apply steady_raise]; apply _.
  - apply steady_bind; [apply _ | | intros _; apply steady_ret; apply _].
    apply steady_bind; [apply _ | apply quiet_subprocess_run, HP, Hd | intros r].
    apply steady_ret; apply _.
Qed.

Lemma quiet_sys_output args dry_mode_output shell :
  (CONFIG.(Config.dry_mode) = false -> P (Exec args shell)) ->
  steady (quiet P) (sys_output host CONFIG args dry_mode_output shell).
Proof.
  intros HP. unfold sys_output.
  apply steady_bind; [apply _ | apply quiet_info | intros _].
  apply steady_bind; [apply _ | | intros output].
  - destruct (Config.dry_mode CONFIG); simpl negb; cbv iota; [apply steady_ret; apply _ |].
    apply steady_bind; [apply _ | | intros out; apply steady_ret; apply _].
    unfold subprocess_check_output.
    apply steady_bind; [apply _ | apply quiet_subprocess_run, HP; reflexivity | intros r].
    destruct (Z.eqb r.1 0); [apply steady_ret | apply steady_raise]; apply _.
  - apply steady_bind; [apply _ | | intros _; apply steady_ret; apply _].
    apply steady_for; [apply _ |]. intros line. apply quiet_info.
Qed.

Lemma quiet_cat_to_file file contents :
  (CONFIG.(Config.dry_mode) = false -> P (WriteText file contents)) ->
  steady (quiet P) (cat_to_file host CONFIG file contents).
Proof.
  intros HP. unfold cat_to_file.
  apply steady_bind; [apply _ | apply quiet_info | intros _].
  apply steady_bind; [apply _ | apply steady_for; [apply _ | intros l; apply quiet_info] |].
  intros _. apply quiet_gated, HP.
Qed.

End Quiet.

(** The steps of the installer, one by one: outside dry mode any call may
    be made, in dry mode only the calls that satisfy [P]. *)
Ltac in_live_mode live_any :=
  apply live_any;
  first [ assumption
        | apply negb_true_iff; assumption
        | match goal with
          | H : negb ?b = true |- ?b = false => apply negb_true_iff; exact H
          end ].

Ltac quiet_steps live_any :=
  repeat lazymatch goal with
  | |- steady _ (mret _) => apply steady_ret; apply _
  | |- steady _ (raise _) => apply steady_raise; apply _
  | |- steady _ (info _) => apply quiet_info
  | |- steady _ history => apply quiet_history
  | |- steady _ (choices _ _ _) => apply quiet_choices
  | |- steady _ (perform _ _) => apply quiet_perform; in_live_mode live_any
  | |- steady _ (for_ _ _) => apply steady_for; [apply _ | intros ?]
  | |- steady _ (collect _ _) => apply steady_collect; [apply _ | intros ?]
  | |- steady _ (when _ _) => apply steady_when; [apply _ | intros ?]
  | |- steady _ (sys _ _ _ _) => apply quiet_sys; intros ?; in_live_mode live_any
  | |- steady _ (sys_output _ _ _ _ _) =>
      apply quiet_sys_output; intros ?; in_live_mode live_any
  | |- steady _ (cat_to_file _ _ _ _) =>
      apply quiet_cat_to_file; intros ?; in_live_mode live_any
  | |- steady _ (_ ≫= _) => apply steady_bind; [apply _ | | intros ?]
  | |- steady _ (if ?c then _ else _) => destruct c eqn:?
  | |- steady _ (match ?x with _ => _ end) => destruct x eqn:?
  end.

Section QuietSteps.

Variable host : Host.
Variable CONFIG : Config.t.
Variable P : os_op -> Prop.
Hypothesis live_any : CONFIG.(Config.dry_mode) = false -> forall op, P op.

Lemma quiet_sleep secs : steady (quiet P) (sleep host CONFIG secs).
Proof. unfold sleep. quiet_steps live_any. Qed.

Lemma quiet_rm path : steady (quiet P) (rm host CONFIG path).
Proof. unfold rm. quiet_steps live_any. Qed.

Lemma quiet_mkdir path : steady (quiet P) (mkdir host CONFIG path).
Proof. unfold mkdir. quiet_steps live_any. Qed.

Lemma quiet_chmod path mode : steady (quiet P) (chmod host CONFIG path mode).
Proof. unfold chmod. quiet_steps live_any. Qed.

Lemma quiet_copy2 src dst : steady (quiet P) (copy2 host CONFIG src dst).
Proof. unfold copy2. quiet_steps live_any. Qed.

Lemma quiet_copytree src dst : steady (quiet P) (copytree host CONFIG src dst).
Proof. unfold copytree. quiet_steps live_any. Qed.

Lemma quiet_chown path user group recursive :
  steady (quiet P) (chown host CONFIG path user group recursive).
Proof. unfold chown, glob. quiet_steps live_any. Qed.

Lemma quiet_passwd user_name password lock_if_empty :
  steady (quiet P) (passwd host CONFIG user_name password lock_if_empty).
Proof. unfold passwd. quiet_steps live_any. Qed.

Lemma quiet_zpool_create pool altroot partition :
  steady (quiet P) (zpool_create host CONFIG pool altroot partition).
Proof.
  unfold zpool_create. quiet_steps live_any. apply quiet_chmod.
Qed.

Lemma quiet_zfs_create pool filesystem properties :
  steady (quiet P) (zfs_create host CONFIG pool filesystem properties).
Proof. unfold zfs_create. quiet_steps live_any. Qed.

Lemma quiet_dnf_install args installroot releasever :
  steady (quiet P) (dnf_install host CONFIG args installroot releasever).
Proof. unfold dnf_install. quiet_steps live_any. Qed.

End QuietSteps.

Ltac quiet_installer live_any :=
  repeat lazymatch goal with
  | |- steady _ (sleep _ _ _) => apply quiet_sleep; exact live_any
  | |- steady _ (rm _ _ _) => apply quiet_rm; exact live_any
  | |- steady _ (mkdir _ _ _) => apply quiet_mkdir; exact live_any
  | |- steady _ (chmod _ _ _ _) => apply quiet_chmod; exact live_any
  | |- steady _ (copy2 _ _ _ _) => apply quiet_copy2; exact live_any
  | |- steady _ (copytree _ _ _ _) => apply quiet_copytree; exact live_any
  | |- steady _ (chown _ _ _ _ _ _) => apply quiet_chown; exact live_any
  | |- steady _ (passwd _ _ _ _ _) => apply quiet_passwd; exact live_any
  | |- steady _ (zpool_create _ _ _ _ _) => apply quiet_zpool_create; exact live_any
  | |- steady _ (zfs_create _ _ _ _ _) => apply quiet_zfs_create; exact live_any
  | |- steady _ (dnf_install _ _ _ _ _) => apply quiet_dnf_install; exact live_any
  | |- steady _ (mret _) => apply steady_ret; apply _
  | |- steady _ (raise _) => apply steady_raise; apply _
  | |- steady _ (info _) => apply quiet_info
  | |- steady _ history => apply quiet_history
  | |- steady _ (choices _ _ _) => apply quiet_choices
  | |- steady _ (perform _ _) => apply quiet_perform; in_live_mode live_any
  | |- steady _ (for_ _ _) => apply steady_for; [apply _ | intros ?]
  | |- steady _ (collect _ _) => apply steady_collect; [apply _ | intros ?]
  | |- steady _ (when _ _) => apply steady_when; [apply _ | intros ?]
  | |- steady _ (sys _ _ _ _) => apply quiet_sys; intros ?; in_live_mode live_any
  | |- steady _ (sys_output _ _ _ _ _) =>
      apply quiet_sys_output; intros ?; in_live_mode live_any
  | |- steady _ (cat_to_file _ _ _ _) =>
      apply quiet_cat_to_file; intros ?; in_live_mode live_any
  | |- steady _ (_ ≫= _) => apply steady_bind; [apply _ | | intros ?]
  | |- steady _ (if ?c then _ else _) => destruct c eqn:?
  | |- steady _ (match ?x with _ => _ end) => destruct x eqn:?
  end.

Section QuietInstaller.

Variable host : Host.
Variable CONFIG : Config.t.
Variable P : os_op -> Prop.
Hypothesis live_any : CONFIG.(Config.dry_mode) = false -> forall op, P op.

Lemma quiet_check_config_for_errors : steady (quiet P) (check_config_for_errors CONFIG).
Proof.
  intros w.
  destruct (check_config_for_errors_spec CONFIG w) as [[_ ->] | (_ & msg & -> & _)];
    simpl; reflexivity.
Qed.

Lemma quiet_install_zfs_to_live_environment version_id :
  steady (quiet P) (install_zfs_to_live_environment host CONFIG version_id).
Proof. unfold install_zfs_to_live_environment. quiet_installer live_any. Qed.

Lemma quiet_blkdiscard_and_zero_disks :
  steady (quiet P) (blkdiscard_and_zero_disks host CONFIG).
Proof. unfold blkdiscard_and_zero_disks. quiet_installer live_any. Qed.

Lemma quiet_partition_root_pool_disks :
  steady (quiet P) (partition_root_pool_disks host CONFIG).
Proof. unfold partition_root_pool_disks. quiet_installer live_any. Qed.

Lemma quiet_create_zfs_pools_and_file_systems :
  steady (quiet P) (create_zfs_pools_and_file_systems host CONFIG).
Proof. unfold create_zfs_pools_and_file_systems. cbv zeta. quiet_installer live_any. Qed.

Lemma quiet_setup_efi_partitions_and_install_zfsbootmenu :
  steady (quiet P) (setup_efi_partitions_and_install_zfsbootmenu host CONFIG).
Proof.
  unfold setup_efi_partitions_and_install_zfsbootmenu.
  apply steady_bind; [apply _ | quiet_installer live_any | intros _].
  apply steady_bind; [apply _ | | intros image; cbv zeta; quiet_installer live_any].
  destruct (negb (Config.dry_mode CONFIG)) eqn:Hlive; [| apply steady_ret; apply _].
  apply steady_bind; [apply _ | intros w; simpl; reflexivity | intros here].
  apply steady_bind; [apply _ | unfold glob; quiet_installer live_any | intros found].
  destruct found; [apply steady_raise | apply steady_ret]; apply _.
Qed.

Lemma quiet_install_packages version_id :
  steady (quiet P) (install_packages host CONFIG version_id).
Proof. unfold install_packages. quiet_installer live_any. Qed.

Lemma quiet_write_crypttab : steady (quiet P) (write_crypttab host CONFIG).
Proof. unfold write_crypttab. quiet_installer live_any. Qed.

Lemma quiet_write_fstab uuids : steady (quiet P) (write_fstab host CONFIG uuids).
Proof. unfold write_fstab. quiet_installer live_any. Qed.

Lemma quiet_write_dracut_zfs_conf key_files :
  steady (quiet P) (write_dracut_zfs_conf host CONFIG key_files).
Proof. unfold write_dracut_zfs_conf. quiet_installer live_any. Qed.

(** The read of the script is not skipped in dry mode. *)
Lemma quiet_write_zfs_mount_generator_cache :
  P (ReadText cacher_script) ->
  steady (quiet P) (write_zfs_mount_generator_cache host CONFIG).
Proof.
  intros Hread. unfold write_zfs_mount_generator_cache.
  apply steady_bind; [apply _ | | intros text].
  - unfold read_text.
    apply steady_bind; [apply _ | apply quiet_history | intros h].
    apply steady_bind; [apply _ | apply quiet_perform, Hread | intros _].
    apply steady_ret; apply _.
  - cbv zeta. quiet_installer live_any.
Qed.

Lemma quiet_run_systemd_firstboot_and_enable_services :
  steady (quiet P) (run_systemd_firstboot_and_enable_services host CONFIG).
Proof. unfold run_systemd_firstboot_and_enable_services. quiet_installer live_any. Qed.

Lemma quiet_compile_kernel_dkms_modules_and_generate_initramfs :
  steady (quiet P) (compile_kernel_dkms_modules_and_generate_initramfs host CONFIG).
Proof.
  unfold compile_kernel_dkms_modules_and_generate_initramfs. quiet_installer live_any.
Qed.

Lemma quiet_setup_users : steady (quiet P) (setup_users host CONFIG).
Proof. unfold setup_users. quiet_installer live_any. Qed.

End QuietInstaller.

Ltac quiet_main live_any read_ok :=
  repeat lazymatch goal with
  | |- steady _ (check_config_for_errors _) => apply quiet_check_config_for_errors
  | |- steady _ (install_zfs_to_live_environment _ _ _) =>
      apply quiet_install_zfs_to_live_environment; exact live_any
  | |- steady _ (blkdiscard_and_zero_disks _ _) =>
      apply quiet_blkdiscard_and_zero_disks; exact live_any
  | |- steady _ (partition_root_pool_disks _ _) =>
      apply quiet_partition_root_pool_disks; exact live_any
  | |- steady _ (create_zfs_pools_and_file_systems _ _) =>
      apply quiet_create_zfs_pools_and_file_systems; exact live_any
  | |- steady _ (setup_efi_partitions_and_install_zfsbootmenu _ _) =>
      apply quiet_setup_efi_partitions_and_install_zfsbootmenu; exact live_any
  | |- steady _ (install_packages _ _ _) => apply quiet_install_packages; exact live_any
  | |- steady _ (write_crypttab _ _) => apply quiet_write_crypttab; exact live_any
  | |- steady _ (write_fstab _ _ _) => apply quiet_write_fstab; exact live_any
  | |- steady _ (write_dracut_zfs_conf _ _ _) =>
      apply quiet_write_dracut_zfs_conf; exact live_any
  | |- steady _ (write_zfs_mount_generator_cache _ _) =>
      apply quiet_write_zfs_mount_generator_cache; [exact live_any | exact read_ok]
  | |- steady _ (run_systemd_firstboot_and_enable_services _ _) =>
      apply quiet_run_systemd_firstboot_and_enable_services; exact live_any
  | |- steady _ (compile_kernel_dkms_modules_and_generate_initramfs _ _) =>
      apply quiet_compile_kernel_dkms_modules_and_generate_initramfs; exact live_any
  | |- steady _ (setup_users _ _) => apply quiet_setup_users; exact live_any
  | |- _ => progress quiet_installer live_any
  end.

Section Rooted.

Variable host : Host.
Variable CONFIG : Config.t.
Variable P : os_op -> Prop.

(** A scope whose body leaves the process as it found it puts the root
    back and closes its descriptor, whatever the body and the entry do. *)
Lemma rooted_chroot {A} (newroot : Path) (body : M A) :
  (CONFIG.(Config.dry_mode) = false -> P (Chdir newroot)) ->
  steady (quiet P) body ->
  steady (rooted P) (chroot host CONFIG newroot body).
Proof.
  intros Hchdir Hbody w.
  destruct (Config.dry_mode CONFIG) eqn:Hd;
    [| destruct (os_error host (trace w) (Chdir newroot)) as [msg|] eqn:Hos].
  2:{ rewrite (chroot_entry_fails host CONFIG newroot body w msg Hd Hos). simpl.
      split; [split |]; [eexists; reflexivity | | auto].
      exists [Chdir newroot]. split; [reflexivity |].
      constructor; [apply Hchdir; reflexivity | constructor]. }
  all: pose proof (Hbody (chroot_entered CONFIG newroot w)) as (Hgrow & Hroot & _ & Hfds);
    destruct (body (chroot_entered CONFIG newroot w)) as [r w1] eqn:Hrun;
    simpl in Hgrow, Hroot, Hfds;
    destruct Hgrow as [[lines Hlog] (ops & Htrace & Hops)].
  - assert (Hfd : fd_lookup (fresh_fd (fds w)) (fds w1) = Some (root w)).
    { rewrite Hfds. unfold chroot_entered, fd_lookup. rewrite Hd. simpl.
      rewrite Nat.eqb_refl. reflexivity. }
    rewrite (chroot_run host CONFIG newroot body w r w1 (or_introl Hd) Hrun Hfd).
    unfold rooted, grows_by, chroot_left. rewrite Hd. simpl.
    rewrite Hlog, Htrace, Hroot, Hfds.
    unfold chroot_entered. rewrite Hd. simpl.
    split; [split |]; [eexists; rewrite <- !app_assoc; reflexivity | | ].
    + exists ops. split; [reflexivity | exact Hops].
    + split; [reflexivity | apply fd_remove_head].
  - assert (Hfd : fd_lookup (fresh_fd (fds w)) (fds w1) = Some (root w)).
    { rewrite Hfds. unfold chroot_entered, fd_lookup. rewrite Hd. simpl.
      rewrite Nat.eqb_refl. reflexivity. }
    rewrite (chroot_run host CONFIG newroot body w r w1 (or_intror Hos) Hrun Hfd).
    unfold rooted, grows_by, chroot_left. rewrite Hd. simpl.
    rewrite Hlog, Htrace, Hfds.
    unfold chroot_entered. rewrite Hd. simpl.
    split; [split |]; [eexists; rewrite <- !app_assoc; reflexivity | | ].
    + exists (Chdir newroot :: ops). split; [rewrite <- app_assoc; reflexivity |].
      constructor; [apply Hchdir; reflexivity | exact Hops].
    + split; [reflexivity | apply fd_remove_head].
Qed.

Hypothesis live_any : CONFIG.(Config.dry_mode) = false -> forall op, P op.
Hypothesis read_ok : P (ReadText cacher_script).

Lemma rooted_main : steady (rooted P) (main host CONFIG).
Proof.
  unfold main.
  repeat lazymatch goal with
  | |- steady (rooted _) (chroot _ _ _ _) =>
      apply rooted_chroot; [intros Hlive; apply live_any, Hlive |]
  | |- steady (rooted _) (_ ≫= _) => apply steady_bind; [apply _ | | intros ?]
  | |- steady (rooted _) _ =>
      apply (steady_weaken (quiet P)); [apply quiet_rooted |]
  | |- steady (quiet _) _ => progress quiet_main live_any read_ok
  end.
Qed.

End Rooted.

Lemma steady_for_in (R : world -> world -> Prop) `{!PreOrder R} {A} (xs : list A)
    (body : A -> M unit) :
  (forall x, x ∈ xs -> steady R (body x)) -> steady R (for_ xs body).
Proof.
  induction xs as [|x xs IH]; intros Hbody; simpl.
  - apply steady_ret; apply _.
  - apply steady_bind; [apply _ | apply Hbody; left | intros _].
    apply IH. intros y Hy. apply Hbody. right. exact Hy.
Qed.

(** X1. Whatever happens, in every mode and on every host, [main] only
    appends to the log and to the calls made, and it ends with the process
    root it started with and with the descriptors it started with: the
    handle of the [chroot] scope never leaks. *)
Theorem main_leaves_the_process_as_it_was :
  forall (host : Host) (CONFIG : Config.t) (w : world),
    let w' := (main host CONFIG w).2 in
    (exists lines, log w' = log w ++ lines)
    /\ (exists ops, trace w' = trace w ++ ops)
    /\ root w' = root w
    /\ fds w' = fds w.
Proof.
  intros host CONFIG w w'.
  destruct (rooted_main host CONFIG (fun _ => True) (fun _ _ => I) I w)
    as ([Hlog (ops & Htrace & _)] & Hroot & Hfds).
  split; [exact Hlog |]. split; [exists ops; exact Htrace |]. split; assumption.
Qed.

(** X2. In dry mode the only call [main] ever makes, on any configuration
    and host and on every path, is the read of the ZFS event script by
    [write_zfs_mount_generator_cache]: no program is run and nothing is
    written, created, copied or removed. *)
Theorem dry_run_only_reads_the_script :
  forall (host : Host) (CONFIG : Config.t) (w : world),
    Config.dry_mode CONFIG = true ->
    exists ops,
      trace (main host CONFIG w).2 = trace w ++ ops
      /\ Forall (fun op => op = ReadText cacher_script) ops.
Proof.
  intros host CONFIG w Hd.
  assert (Hlive : Config.dry_mode CONFIG = false ->
                  forall op, op = ReadText cacher_script).
  { rewrite Hd. discriminate. }
  destruct (rooted_main host CONFIG _ Hlive eq_refl w) as ([_ Hops] & _).
  exact Hops.
Qed.

Lemma dry_run_only_reads_the_script_witness :
  exists ops,
    trace (main quiet_host shipped_CONFIG boot_world).2 = trace boot_world ++ ops
    /\ Forall (fun op => op = ReadText cacher_script) ops.
Proof. exact (dry_run_only_reads_the_script quiet_host shipped_CONFIG boot_world eq_refl). Defined.

(** X3. In every mode and on every path, the only programs
    [blkdiscard_and_zero_disks] runs are [blkdiscard --force <disk>] and,
    only when [zero_disks] is set, [dd if=/dev/zero of=<disk> bs=4096
    status=progress], each on a disk of a configured pool; it makes no other
    call. *)
Theorem blkdiscard_and_zero_disks_touches_configured_disks :
  forall (host : Host) (CONFIG : Config.t) (w : world),
    let allowed op :=
      exists pool disk,
        pool ∈ CONFIG_POOLS CONFIG /\ disk ∈ pool.(ZfsPool.disks)
        /\ (op = Exec ["blkdiscard"; "--force"; str disk] false
            \/ (CONFIG.(Config.zero_disks) = true
                /\ op = Exec ["dd"; "if=/dev/zero"; "of=" +:+ str disk; "bs=4096";
                              "status=progress"] false)) in
    exists ops,
      trace (blkdiscard_and_zero_disks host CONFIG w).2 = trace w ++ ops
      /\ Forall allowed ops.
Proof.
  intros host CONFIG w allowed.
  assert (H : steady (quiet allowed) (blkdiscard_and_zero_disks host CONFIG)).
  { unfold blkdiscard_and_zero_disks.
    apply steady_for_in; [apply _ |]. intros pool Hpool.
    apply steady_for_in; [apply _ |]. intros disk Hdisk.
    apply steady_bind; [apply _ | | intros _].
    - apply quiet_sys. intros _. exists pool, disk. auto.
    - apply steady_when; [apply _ |]. intros Hzero.
      apply quiet_sys. intros _. exists pool, disk. auto. }
  destruct (H w) as ([_ Hops] & _). exact Hops.
Qed.

(** X4. In every mode and on every path, [partition_root_pool_disks] runs
    nothing but [sgdisk] on disks of the root pool, and sleeps: the disks of
    the data pools are never partitioned. *)
Theorem partition_root_pool_disks_touches_root_disks_only :
  forall (host : Host) (CONFIG : Config.t) (w : world),
    let allowed op :=
      op = Sleep 2
      \/ exists options disk,
           disk ∈ CONFIG.(Config.root_pool).(ZfsPool.disks)
           /\ op = Exec ("sgdisk" :: options ++ [str disk]) false in
    exists ops,
      trace (partition_root_pool_disks host CONFIG w).2 = trace w ++ ops
      /\ Forall allowed ops.
Proof.
  intros host CONFIG w allowed.
  assert (H : steady (quiet allowed) (partition_root_pool_disks host CONFIG)).
  { unfold partition_root_pool_disks.
    apply steady_bind; [apply _ | | intros _].
    - apply steady_for_in; [apply _ |]. intros disk Hdisk.
      apply steady_bind; [apply _ | | intros _].
      { apply quiet_sys. intros _. right. exists ["--zap-all"], disk. auto. }
      apply steady_bind; [apply _ | | intros _].
      { apply quiet_sys. intros _. right.
        exists ["--new=0:1M:+512M"; "--typecode=0:EF00";
                "--change-name=0:EFI System Partition"], disk. auto. }
      apply steady_bind; [apply _ | | intros _].
      { apply steady_when; [apply _ |]. intros _. apply quiet_sys. intros _. right.
        exists ["--new=0:0:+" +:+ Config.swap_size CONFIG; "--typecode=0:8200";
                "--change-name=0:Swap"], disk. auto. }
      apply quiet_sys. intros _. right.
      exists ["--new=0:0:0"; "--typecode=0:BF00";
              "--change-name=0:ZFS Pool " +:+ ZfsPool.name (Config.root_pool CONFIG)], disk.
      auto.
    - unfold sleep. apply quiet_gated. intros _. left. reflexivity. }
  destruct (H w) as ([_ Hops] & _). exact Hops.
Qed.

(** * The command line of the log *)

Lemma split_without_separator sep s :
  Py.contains sep s = false -> Py.split sep s = [s].
Proof.
  induction s as [|c r IH]; [reflexivity |]. cbn [Py.contains Py.split].
  destruct (Ascii.eqb_spec sep c) as [-> | Hne]; [discriminate |].
  intros Hr. destruct (Ascii.eqb_spec c sep) as [-> | _]; [contradiction |].
  rewrite (IH Hr). reflexivity.
Qed.

Lemma split_at_separator sep a rest :
  Py.contains sep a = false ->
  Py.split sep (a +:+ String sep rest) = a :: Py.split sep rest.
Proof.
  induction a as [|c r IH].
  - intros _. change ("" +:+ String sep rest) with (String sep rest).
    cbn [Py.split]. rewrite Ascii.eqb_refl. reflexivity.
  - change (String c r +:+ String sep rest) with (String c (r +:+ String sep rest)).
    cbn [Py.contains Py.split].
    destruct (Ascii.eqb_spec sep c) as [-> | Hne]; [discriminate |].
    intros Hr. destruct (Ascii.eqb_spec c sep) as [-> | _]; [contradiction |].
    rewrite (IH Hr). reflexivity.
Qed.

(** X5. The line [sys] and [sys_output] log for a command can be read
    back: when the argument vector is not empty and no argument holds a
    space, splitting the logged line at the spaces gives the argument vector
    again. *)
Theorem command_line_reads_back :
  forall (args : list string),
    args <> [] ->
    Forall (fun arg => Py.contains " " arg = false) args ->
    Py.split " " (command_line args) = args.
Proof.
  intros args Hne Hargs. unfold command_line, Py.join.
  induction Hargs as [|arg args Harg Hargs IH]; [contradiction |].
  cbn [map String.concat]. rewrite Harg. cbn [negb].
  destruct Hargs as [|arg' args' Harg' Hargs'].
  - apply split_without_separator, Harg.
  - cbn [map]. cbn [map] in IH.
    change (String.concat " " (?x :: ?y :: ?l)) with (x +:+ " " +:+ String.concat " " (y :: l)).
    change (" " +:+ ?r) with (String " " r).
    rewrite (split_at_separator _ _ _ Harg), IH; [reflexivity | discriminate].
Qed.

Lemma command_line_reads_back_witness :
  Py.split " " (command_line ["zpool"; "export"; "-a"]) = ["zpool"; "export"; "-a"].
Proof.
  apply command_line_reads_back; [discriminate | repeat constructor].
Defined.

(** * The other primitives *)

(** In dry mode a logged action is only logged, whatever the action. *)
Lemma dry_gated CONFIG line (action : M unit) :
  Config.dry_mode CONFIG = true ->
  dry_yields (info line;; when (negb CONFIG.(Config.dry_mode)) action) tt [line].
Proof. intros Hd w. rewrite Hd. reflexivity. Qed.

(** X6. In dry mode the remaining primitives too only log: [chmod], [rm],
    [sleep], [copy2], [copytree], [chown] (recursive or not) and [passwd]
    (in each of its three branches) return normally and leave the world as
    it was but for one logged line. *)
Theorem dry_mode_suppresses_the_other_primitives :
  forall (host : Host) (CONFIG : Config.t) (w : world),
    Config.dry_mode CONFIG = true ->
    (forall path mode,
        chmod host CONFIG path mode w
        = (Ok tt, emit ["chmod " +:+ Py.oct mode +:+ " " +:+ str path +:+ " "] w))
    /\ (forall path, rm host CONFIG path w = (Ok tt, emit ["rm --force " +:+ str path] w))
    /\ (forall secs, sleep host CONFIG secs w = (Ok tt, emit ["sleep " +:+ Py.str_int secs] w))
    /\ (forall src dst,
        copy2 host CONFIG src dst w
        = (Ok tt, emit ["cp --archive " +:+ str src +:+ " " +:+ str dst] w))
    /\ (forall src dst,
        copytree host CONFIG src dst w
        = (Ok tt, emit ["cp --archive --recursive " +:+ str src +:+ " " +:+ str dst] w))
    /\ (forall path user group recursive,
        chown host CONFIG path user group recursive w
        = (Ok tt, emit ["chown " +:+ (if recursive then "--recursive" else "") +:+ " "
                        +:+ user +:+ ":" +:+ group +:+ " " +:+ str path] w))
    /\ (forall user_name password lock_if_empty,
        passwd host CONFIG user_name password lock_if_empty w
        = (Ok tt, emit [if truthy password then "passwd " +:+ user_name +:+ " --stdin"
                        else if lock_if_empty then "passwd --lock root"
                        else command_line ["passwd"; user_name; "--delete"]] w)).
Proof.
  intros host CONFIG w Hd.
  repeat split; intros; try (apply (dry_gated CONFIG); exact Hd).
  unfold passwd. destruct (truthy password).
  - apply (dry_gated CONFIG). exact Hd.
  - destruct lock_if_empty;
      match goal with
      | |- sys ?h ?c ?args ?i ?w = _ =>
          pose proof (yields_sys h c args i w) as H; rewrite Hd in H; exact H
      end.
Qed.

Lemma dry_mode_suppresses_the_other_primitives_witness :
  passwd quiet_host shipped_CONFIG "myuser" "change this pass" false boot_world
  = (Ok tt, emit ["passwd myuser --stdin"] boot_world).
Proof.
  exact (proj2 (proj2 (proj2 (proj2 (proj2 (proj2
           (dry_mode_suppresses_the_other_primitives quiet_host shipped_CONFIG boot_world
              eq_refl))))))
           "myuser" "change this pass" false).
Defined.

(** X7. [passwd] keeps a password out of the log: for a non-empty password
    it logs [passwd <user> --stdin] and nothing else, in every mode and
    whatever happens, and in live mode hands the password to the program on
    its standard input, raising [CalledProcessError] when the program exits
    with a non-zero status.  With an empty password and [lock_if_empty] it
    locks [root], whatever [user_name] is. *)
Theorem passwd_keeps_the_password_out_of_the_log :
  forall (host : Host) (CONFIG : Config.t) (user_name password : string) (w : world),
    let args := ["passwd"; user_name; "--stdin"] in
    let returncode := fst (run host (trace w) args false) in
    (password <> "" ->
     forall lock_if_empty,
       let outcome := passwd host CONFIG user_name password lock_if_empty w in
       log outcome.2 = log w ++ ["passwd " +:+ user_name +:+ " --stdin"]
       /\ (Config.dry_mode CONFIG = false ->
           trace outcome.2 = trace w ++ [ExecStdin args password]
           /\ (os_error host (trace w) (ExecStdin args password) = None ->
               outcome.1 = if Z.eqb returncode 0 then Ok tt
                           else Raise (CalledProcessError returncode args))))
    /\ yields CONFIG (passwd host CONFIG user_name "" true) tt
         ["passwd --lock root"] [Exec ["passwd"; "--lock"; "root"] false].
Proof.
  intros host CONFIG user_name password w args returncode.
  subst args returncode. split.
  - intros Hpw lock_if_empty.
    assert (Ht : truthy password = true).
    { unfold truthy. destruct (String.eqb_spec password ""); [contradiction | reflexivity]. }
    unfold passwd. rewrite Ht. cbv zeta.
    destruct (Config.dry_mode CONFIG) eqn:Hd.
    + split; [reflexivity | discriminate].
    + unfold info, update, when, history, perform; cbn.
      unfold mbind, M_bind, mret, M_ret, raise; cbn.
      destruct (os_error host (trace w) (ExecStdin ["passwd"; user_name; "--stdin"] password))
        eqn:Herr; cbn.
      * split; [reflexivity |]. intros _. split; [reflexivity | congruence].
      * destruct (Z.eqb _ 0); cbn;
          (split; [reflexivity |]; intros _; split; [reflexivity | reflexivity]).
  - exact (yields_sys host CONFIG ["passwd"; "--lock"; "root"] true).
Qed.

(** * Secrets in the log *)

Lemma splitlines_one_line (s : string) :
  one_line s = true -> Py.splitlines (s +:+ Py.NL) = [s].
Proof.
  induction s as [|c r IH]; intros H; [reflexivity |].
  cbn [one_line] in H. apply andb_prop in H as [Hc Hr].
  apply negb_true_iff in Hc.
  change (String c r +:+ Py.NL) with (String c (r +:+ Py.NL)).
  cbn [Py.splitlines]. rewrite Hc, (IH Hr). reflexivity.
Qed.

(** What was logged stays logged: a continuation that only logs and
    calls adds to the log. *)
Lemma log_after_bind {A B} (m : M A) (k : A -> M B) (lines : list string) (w : world) :
  (exists after, log (m w).2 = log w ++ lines ++ after) ->
  (forall a, steady (quiet (fun _ => True)) (k a)) ->
  exists after, log ((m ≫= k) w).2 = log w ++ lines ++ after.
Proof.
  intros [after Hm] Hk. rewrite bind_run.
  destruct (m w) as [[a|e] w1]; simpl in *; [| exists after; exact Hm].
  destruct (Hk a w1) as [[[more Hmore] _] _].
  exists (after ++ more). rewrite Hmore, Hm, <- !app_assoc. reflexivity.
Qed.

(** X8. [zpool_create] writes the passphrase of a pool into the log: for a
    pool with a password of one line, the log of every run, dry or live
    and whether or not it fails, continues with the here-document of the
    key file, the password in clear between its two markers. *)
Theorem zpool_create_logs_the_passphrase :
  forall (host : Host) (CONFIG : Config.t) (pool : ZfsPool.t) (altroot : option Path)
         (partition : string) (w : world),
    ZfsPool.password pool <> "" ->
    one_line (ZfsPool.password pool) = true ->
    exists after,
      log (zpool_create host CONFIG pool altroot partition w).2
      = log w
        ++ ["cat > " +:+ str (Path_of ("/etc/zfs/" +:+ ZfsPool.name pool +:+ ".key"))
            +:+ " << EOF";
            ZfsPool.password pool;
            "EOF"]
        ++ after.
Proof.
  intros host CONFIG pool altroot partition w Hpw Hline.
  assert (Ht : truthy (ZfsPool.password pool) = true).
  { unfold truthy. destruct (String.eqb_spec (ZfsPool.password pool) "");
      [contradiction | reflexivity]. }
  assert (Hany : Config.dry_mode CONFIG = false -> forall op : os_op, (fun _ => True) op)
    by (intros _ _; exact I).
  unfold zpool_create. rewrite Ht. cbv zeta.
  apply log_after_bind.
  - apply log_after_bind.
    + exists []. rewrite cat_to_file_log. unfold cat_to_file_lines.
      rewrite (splitlines_one_line _ Hline), app_nil_r. reflexivity.
    + intros _. apply steady_bind; [apply _ | apply quiet_chmod, Hany | intros _].
      apply steady_ret; apply _.
  - intros key_file. apply steady_bind; [apply _ | | intros _; apply steady_ret; apply _].
    apply quiet_sys. intros _. exact I.
Qed.

Lemma zpool_create_logs_the_passphrase_witness :
  exists after,
    log (zpool_create quiet_host live_CONFIG shipped_root_pool (Some (Path_of "/rpool"))
           "-part3" boot_world).2
    = log boot_world
      ++ ["cat > /etc/zfs/rpool.key << EOF"; "change this pass"; "EOF"]
      ++ after.
Proof.
  apply (zpool_create_logs_the_passphrase quiet_host live_CONFIG shipped_root_pool
           (Some (Path_of "/rpool")) "-part3" boot_world).
  - discriminate.
  - reflexivity.
Defined.

(** * Captured output and the exit status *)

(** X9. [sys_output] always checks the exit status: in live mode, when the
    program could be started and exits with a non-zero status, it raises
    [CalledProcessError] with that status and the arguments, having logged
    the command line and none of the output. *)
Theorem sys_output_checks_the_exit_status :
  forall (host : Host) (CONFIG : Config.t) (args : list string) (dry_mode_output : string)
         (shell : bool) (w : world),
    Config.dry_mode CONFIG = false ->
    os_error host (trace w) (Exec args shell) = None ->
    (run host (trace w) args shell).1 <> 0 ->
    sys_output host CONFIG args dry_mode_output shell w
    = (Raise (CalledProcessError (run host (trace w) args shell).1 args),
       advance [command_line args] [Exec args shell] w).
Proof.
  intros host CONFIG args dry_mode_output shell w Hd Herr Hstatus.
  rewrite (sys_output_live _ _ _ _ _ _ Hd). cbv zeta. rewrite Herr.
  destruct (Z.eqb_spec (run host (trace w) args shell).1 0) as [H0 | _];
    [contradiction | reflexivity].
Qed.

Lemma sys_output_checks_the_exit_status_witness :
  sys_output (uniform_host 1 "no such package") live_CONFIG ["rpm"; "--query"; "kernel"]
    "kernel-5.17.5-200.fc35.x86_64" false boot_world
  = (Raise (CalledProcessError 1 ["rpm"; "--query"; "kernel"]),
     advance ["rpm --query kernel"] [Exec ["rpm"; "--query"; "kernel"] false] boot_world).
Proof.
  apply (sys_output_checks_the_exit_status (uniform_host 1 "no such package") live_CONFIG
           ["rpm"; "--query"; "kernel"] "kernel-5.17.5-200.fc35.x86_64" false boot_world).
  - reflexivity.
  - reflexivity.
  - discriminate.
Defined.

(** * Swap devices *)

Lemma imap_zip_seq {A B} (f : nat -> A -> B) (l : list A) (n : nat) :
  imap (fun i => f (n + i)%nat) l = zip_with f (seq n (length l)) l.
Proof.
  revert n. induction l as [|x l IH]; intros n; [reflexivity |].
  cbn [imap length seq zip_with]. rewrite Nat.add_0_r. f_equal.
  rewrite <- IH. apply imap_ext. intros i y _. simpl. f_equal. lia.
Qed.

Lemma zip_efi_lines (disks : list Path) (uuids : list string) :
  map (fun de : Path * string => fstab_efi_line de.2) (zip disks uuids)
  = map fstab_efi_line (take (length disks) uuids).
Proof.
  revert uuids. induction disks as [|d ds IH]; intros [|u us]; simpl; try reflexivity.
  rewrite IH. reflexivity.
Qed.

(** X10. [crypttab] and [fstab] name the same swap devices.  With K disks
    in the root pool the names are [cryptswap1] ... [cryptswapK];
    [crypttab] maps the i-th name to partition 2 of the i-th disk, and
    [fstab], after one EFI entry for each of the first K UUIDs it is given,
    lists the same names under [/dev/mapper] when swap is configured and
    no swap entry when it is not, in which case [write_crypttab] writes
    and logs nothing at all. *)
Theorem crypttab_and_fstab_name_the_same_swap_devices :
  forall (host : Host) (CONFIG : Config.t) (efi_disk_uuids : list string),
    let disks := CONFIG.(Config.root_pool).(ZfsPool.disks) in
    let names := map cryptswap_name (seq 0 (length disks)) in
    let efi_entries :=
      String.concat "" (map fstab_efi_line (take (length disks) efi_disk_uuids)) in
    crypttab_contents CONFIG
    = String.concat ""
        (zip_with (fun name disk =>
                     name +:+ " " +:+ str disk +:+ "-part2 /dev/urandom "
                     +:+ "swap,cipher=aes-xts-plain64:sha256,size=256,discard" +:+ Py.NL)
                  names disks)
    /\ (truthy CONFIG.(Config.swap_size) = true ->
        fstab_contents CONFIG efi_disk_uuids
        = efi_entries
          +:+ String.concat ""
                (map (fun name =>
                        "/dev/mapper/" +:+ name +:+ " none swap "
                        +:+ "x-systemd.requires=cryptsetup.target,defaults 0 0" +:+ Py.NL)
                     names))
    /\ (truthy CONFIG.(Config.swap_size) = false ->
        fstab_contents CONFIG efi_disk_uuids = efi_entries +:+ ""
        /\ forall w, write_crypttab host CONFIG w = (Ok tt, w)).
Proof.
  intros host CONFIG efi_disk_uuids disks names efi_entries. split; [| split].
  - unfold crypttab_contents, names. fold disks. f_equal.
    rewrite zip_with_fmap_l, <- (imap_zip_seq _ disks 0). reflexivity.
  - intros Hswap. unfold fstab_contents. cbv zeta. rewrite Hswap, zip_efi_lines.
    fold disks. unfold efi_entries, names. rewrite map_map. reflexivity.
  - intros Hswap. unfold fstab_contents, write_crypttab. cbv zeta.
    rewrite Hswap, zip_efi_lines. split; reflexivity.
Qed.

(** * The key files handed on *)

Lemma key_files_of_pools (pools : list ZfsPool.t) :
  omap id (map key_file_of pools)
  = map (fun pool => Path_of ("/etc/zfs/" +:+ ZfsPool.name pool +:+ ".key"))
        (List.filter (fun pool => truthy (ZfsPool.password pool)) pools).
Proof.
  induction pools as [|pool pools IH]; [reflexivity |].
  cbn [map omap List.filter]. unfold key_file_of at 1.
  destruct (truthy (ZfsPool.password pool)); cbn [map]; rewrite <- IH; reflexivity.
Qed.

(** X11. Whenever [create_zfs_pools_and_file_systems] returns, in dry or
    live mode, what it returns are the key files of the pools that have a
    password, [/etc/zfs/<pool>.key], the root pool first and the data pools
    in their order; a pool without password contributes nothing. *)
Theorem key_files_returned_are_those_of_the_pools_with_a_password :
  forall (host : Host) (CONFIG : Config.t) (w w' : world) (pool_key_files : list Path),
    create_zfs_pools_and_file_systems host CONFIG w = (Ok pool_key_files, w') ->
    pool_key_files
    = map (fun pool => Path_of ("/etc/zfs/" +:+ ZfsPool.name pool +:+ ".key"))
          (List.filter (fun pool => truthy (ZfsPool.password pool)) (CONFIG_POOLS CONFIG)).
Proof.
  intros host CONFIG w w' pool_key_files Hrun.
  rewrite <- key_files_of_pools.
  change (omap id (map key_file_of (CONFIG_POOLS CONFIG))) with (pool_key_files_of CONFIG).
  pose proof (create_zfs_pools_and_file_systems_run host CONFIG w) as H. cbv zeta in H.
  destruct (Config.dry_mode CONFIG).
  - rewrite H in Hrun. injection Hrun as <- _. reflexivity.
  - rewrite H in Hrun; [| rewrite Hrun; reflexivity]. injection Hrun as <- _. reflexivity.
Qed.

Lemma key_files_returned_are_those_of_the_pools_with_a_password_witness :
  [Path_of "/etc/zfs/rpool.key"; Path_of "/etc/zfs/rdata.key"]
  = map (fun pool => Path_of ("/etc/zfs/" +:+ ZfsPool.name pool +:+ ".key"))
        (List.filter (fun pool => truthy (ZfsPool.password pool))
           (CONFIG_POOLS shipped_CONFIG)).
Proof.
  apply (key_files_returned_are_those_of_the_pools_with_a_password quiet_host
           shipped_CONFIG boot_world
           (create_zfs_pools_and_file_systems quiet_host shipped_CONFIG boot_world).2).
  vm_compute. reflexivity.
Defined.

(** * Steps that only log *)

Lemma only_logs_ret {A} (v : A) : only_logs (mret v).
Proof. exists v, []. apply dry_ret. Qed.

Lemma only_logs_bind {A B} (m : M A) (k : A -> M B) :
  only_logs m -> (forall a, only_logs (k a)) -> only_logs (m ≫= k).
Proof.
  intros (a & l1 & Hm) Hk. destruct (Hk a) as (b & l2 & Hka).
  exists b, (l1 ++ l2). eapply dry_bind; eassumption.
Qed.

Lemma only_logs_for {A} (xs : list A) (body : A -> M unit) :
  (forall x, only_logs (body x)) -> only_logs (for_ xs body).
Proof.
  intros Hbody. induction xs as [|x xs IH]; simpl.
  - apply only_logs_ret.
  - apply only_logs_bind; [apply Hbody | intros _; exact IH].
Qed.

Lemma only_logs_when (c : bool) (m : M unit) : only_logs m -> only_logs (when c m).
Proof. intros H. destruct c; [exact H | apply only_logs_ret]. Qed.

Lemma only_logs_info line : only_logs (info line).
Proof. exists tt, [line]. intros w. reflexivity. Qed.

Lemma only_logs_completes {A} (m : M A) : only_logs m -> completes m.
Proof. intros (v & lines & H) w. rewrite H. reflexivity. Qed.

Section OnlyLogs.

Variable host : Host.
Variable CONFIG : Config.t.
Hypothesis dry : Config.dry_mode CONFIG = true.

Lemma only_logs_gated line (action : M unit) :
  only_logs (info line;; when (negb CONFIG.(Config.dry_mode)) action).
Proof. exists tt, [line]. apply dry_gated, dry. Qed.

Lemma only_logs_sys args ignore_exit_code : only_logs (sys host CONFIG args ignore_exit_code).
Proof. eexists _, _. eapply yields_dry; [apply yields_sys | exact dry]. Qed.

Lemma only_logs_sys_output args dry_mode_output shell :
  only_logs (sys_output host CONFIG args dry_mode_output shell).
Proof. eexists _, _. intros w. apply sys_output_dry, dry. Qed.

Lemma only_logs_cat_to_file file contents : only_logs (cat_to_file host CONFIG file contents).
Proof. eexists _, _. eapply yields_dry; [apply yields_cat_to_file | exact dry]. Qed.

Lemma only_logs_sleep secs : only_logs (sleep host CONFIG secs).
Proof. apply only_logs_gated. Qed.

Lemma only_logs_rm path : only_logs (rm host CONFIG path).
Proof. apply only_logs_gated. Qed.

Lemma only_logs_mkdir path : only_logs (mkdir host CONFIG path).
Proof. apply only_logs_gated. Qed.

Lemma only_logs_chmod path mode : only_logs (chmod host CONFIG path mode).
Proof. apply only_logs_gated. Qed.

Lemma only_logs_copy2 src dst : only_logs (copy2 host CONFIG src dst).
Proof. apply only_logs_gated. Qed.

Lemma only_logs_copytree src dst : only_logs (copytree host CONFIG src dst).
Proof. apply only_logs_gated. Qed.

Lemma only_logs_chown path user group recursive :
  only_logs (chown host CONFIG path user group recursive).
Proof. apply only_logs_gated. Qed.

Lemma only_logs_passwd user_name password lock_if_empty :
  only_logs (passwd host CONFIG user_name password lock_if_empty).
Proof.
  unfold passwd. destruct (truthy password); [apply only_logs_gated |].
  destruct lock_if_empty; apply only_logs_sys.
Qed.

(** In dry mode a scope around a body that only logs only logs: the entry,
    the lines of the body, the exit; the descriptor it opens is closed
    again. *)
Lemma chroot_dry {A} (newroot : Path) (body : M A) (v : A) (lines : list string) :
  dry_yields body v lines ->
  dry_yields (chroot host CONFIG newroot body) v
    (("chroot " +:+ str newroot) :: lines ++ ["exit  # chroot " +:+ str newroot]).
Proof.
  intros Hbody w.
  rewrite (chroot_run host CONFIG newroot body w (Ok v)
             (emit lines (chroot_entered CONFIG newroot w)) (or_introl dry) (Hbody _)).
  - unfold chroot_left, chroot_entered. rewrite dry. destruct w.
    cbv [emit set_fds set_root set_cwd set_trace set_log fds root cwd log trace draws].
    rewrite fd_remove_head, <- !app_assoc. reflexivity.
  - unfold chroot_entered. rewrite dry. unfold fd_lookup. simpl.
    rewrite Nat.eqb_refl. reflexivity.
Qed.

Lemma only_logs_chroot {A} (newroot : Path) (body : M A) :
  only_logs body -> only_logs (chroot host CONFIG newroot body).
Proof. intros (v & lines & H). eexists _, _. apply chroot_dry, H. Qed.

End OnlyLogs.

Ltac only_logs_steps dry :=
  repeat lazymatch goal with
  | |- only_logs (mret _) => apply only_logs_ret
  | |- only_logs (info _) => apply only_logs_info
  | |- only_logs (sleep _ _ _) => apply only_logs_sleep; exact dry
  | |- only_logs (rm _ _ _) => apply only_logs_rm; exact dry
  | |- only_logs (mkdir _ _ _) => apply only_logs_mkdir; exact dry
  | |- only_logs (chmod _ _ _ _) => apply only_logs_chmod; exact dry
  | |- only_logs (copy2 _ _ _ _) => apply only_logs_copy2; exact dry
  | |- only_logs (copytree _ _ _ _) => apply only_logs_copytree; exact dry
  | |- only_logs (chown _ _ _ _ _ _) => apply only_logs_chown; exact dry
  | |- only_logs (passwd _ _ _ _ _) => apply only_logs_passwd; exact dry
  | |- only_logs (sys _ _ _ _) => apply only_logs_sys; exact dry
  | |- only_logs (sys_output _ _ _ _ _) => apply only_logs_sys_output; exact dry
  | |- only_logs (cat_to_file _ _ _ _) => apply only_logs_cat_to_file; exact dry
  | |- only_logs (chroot _ _ _ _) => apply only_logs_chroot; [exact dry |]
  | |- only_logs (for_ _ _) => apply only_logs_for; intros ?
  | |- only_logs (when _ _) => apply only_logs_when
  | |- only_logs (_ ≫= _) => apply only_logs_bind; [| intros ?]
  end.

Section DryRun.

Variable host : Host.
Variable CONFIG : Config.t.
Hypothesis dry : Config.dry_mode CONFIG = true.

Lemma index_of_contained c s : Py.contains c s = true -> exists i, Py.index c s = Some i.
Proof.
  induction s as [|d r IH]; [discriminate |]. cbn [Py.contains Py.index].
  destruct (Ascii.eqb c d); [intros _; exists 0%nat; reflexivity |].
  intros H. destruct (IH H) as [i ->]. exists (S i). reflexivity.
Qed.

Lemma only_logs_install_packages version_id :
  Py.contains "_" CONFIG.(Config.locale) = true ->
  only_logs (install_packages host CONFIG version_id).
Proof.
  intros Hlocale. unfold install_packages.
  destruct (index_of_contained _ _ Hlocale) as [i ->]. cbv zeta. unfold dnf_install.
  only_logs_steps dry.
Qed.

Lemma only_logs_write_crypttab : only_logs (write_crypttab host CONFIG).
Proof. unfold write_crypttab. only_logs_steps dry. Qed.

Lemma only_logs_write_fstab uuids : only_logs (write_fstab host CONFIG uuids).
Proof. unfold write_fstab. only_logs_steps dry. Qed.

Lemma only_logs_write_dracut_zfs_conf key_files :
  only_logs (write_dracut_zfs_conf host CONFIG key_files).
Proof. unfold write_dracut_zfs_conf. only_logs_steps dry. Qed.

Lemma only_logs_run_systemd_firstboot_and_enable_services :
  only_logs (run_systemd_firstboot_and_enable_services host CONFIG).
Proof. unfold run_systemd_firstboot_and_enable_services. only_logs_steps dry. Qed.

Lemma only_logs_compile_kernel_dkms_modules_and_generate_initramfs :
  only_logs (compile_kernel_dkms_modules_and_generate_initramfs host CONFIG).
Proof.
  unfold compile_kernel_dkms_modules_and_generate_initramfs. only_logs_steps dry.
Qed.

Lemma only_logs_setup_users : only_logs (setup_users host CONFIG).
Proof. unfold setup_users. only_logs_steps dry. Qed.

Lemma read_text_run (file : Path) (w : world) :
  read_text host file w
  = match os_error host (trace w) (ReadText file) with
    | Some msg => (Raise (OSError msg), set_trace (fun t => t ++ [ReadText file]) w)
    | None => (Ok (file_text host (trace w) file),
               set_trace (fun t => t ++ [ReadText file]) w)
    end.
Proof.
  unfold read_text, history, perform, mbind, M_bind, mret, M_ret.
  destruct (os_error host (trace w) (ReadText file)); reflexivity.
Qed.

(** How [write_zfs_mount_generator_cache] ends in dry mode: by what the
    read of the event script gives. *)
Lemma write_zfs_mount_generator_cache_dry (w : world) :
  (write_zfs_mount_generator_cache host CONFIG w).1
  = match os_error host (trace w) (ReadText cacher_script) with
    | Some msg => Raise (OSError msg)
    | None =>
        match zfs_properties_of (file_text host (trace w) cacher_script) with
        | Some (String _ _) => Ok tt
        | _ => Raise (Exception "Could not determine properties for /etc/zfs/zfs-list.cache")
        end
    end.
Proof.
  unfold write_zfs_mount_generator_cache. rewrite bind_run, read_text_run.
  fold cacher_script.
  destruct (os_error host (trace w) (ReadText cacher_script)); [reflexivity |].
  cbv beta iota zeta.
  change (foldl _ None _) with (zfs_properties_of (file_text host (trace w) cacher_script)).
  destruct (zfs_properties_of (file_text host (trace w) cacher_script)) as [[|c r]|];
    [reflexivity | | reflexivity].
  match goal with
  | |- (?m ?w1).1 = Ok tt =>
      assert (H : only_logs m); [| destruct H as ([] & lines & H); rewrite H; reflexivity]
  end.
  only_logs_steps dry.
Qed.

End DryRun.

(** X12. In dry mode a [chroot] scope around a body that only logs only
    logs: it returns what the body returns, having logged the entry, the
    lines of the body and the exit, and leaves root, working directory and
    descriptors as they were. *)
Theorem chroot_in_dry_mode_only_logs :
  forall (host : Host) (CONFIG : Config.t) (A : Type) (newroot : Path) (body : M A)
         (v : A) (lines : list string) (w : world),
    Config.dry_mode CONFIG = true ->
    (forall w', body w' = (Ok v, emit lines w')) ->
    chroot host CONFIG newroot body w
    = (Ok v, emit (("chroot " +:+ str newroot) :: lines
                   ++ ["exit  # chroot " +:+ str newroot]) w).
Proof.
  intros host CONFIG A newroot body v lines w Hd Hbody.
  exact (chroot_dry host CONFIG Hd newroot body v lines Hbody w).
Qed.

Lemma chroot_in_dry_mode_only_logs_witness :
  chroot quiet_host shipped_CONFIG NEW_SYSTEM_ROOT
    (sys quiet_host shipped_CONFIG ["fixfiles"; "-F"; "onboot"] true) boot_world
  = (Ok tt, emit ["chroot /rpool"; "fixfiles -F onboot"; "exit  # chroot /rpool"] boot_world).
Proof.
  apply (chroot_in_dry_mode_only_logs quiet_host shipped_CONFIG unit NEW_SYSTEM_ROOT
           (sys quiet_host shipped_CONFIG ["fixfiles"; "-F"; "onboot"] true)
           tt ["fixfiles -F onboot"] boot_world).
  - reflexivity.
  - intros w'. reflexivity.
Defined.

(** * How a dry run ends *)

(** X13. The outcome of a dry run.  In dry mode, a configuration that
    passes the check and whose locale holds an underscore runs through
    every step up to [write_zfs_mount_generator_cache]; how [main] ends is
    then decided by the one thing a dry run reads from the machine it runs
    on, the ZFS event script: [OSError] when the script cannot be read, an
    [Exception] when no line of it gives a non-empty [PROPS], and a normal
    return otherwise. *)
Theorem dry_run_ends_by_the_event_script :
  forall (host : Host) (CONFIG : Config.t) (w : world),
    Config.dry_mode CONFIG = true ->
    config_ok CONFIG ->
    Py.contains "_" CONFIG.(Config.locale) = true ->
    (main host CONFIG w).1
    = match os_error host (trace w) (ReadText cacher_script) with
      | Some msg => Raise (OSError msg)
      | None =>
          match zfs_properties_of (file_text host (trace w) cacher_script) with
          | Some (String _ _) => Ok tt
          | _ => Raise (Exception
                          "Could not determine properties for /etc/zfs/zfs-list.cache")
          end
      end.
Proof.
  intros host CONFIG w Hd Hok Hlocale.
  destruct (check_config_for_errors_spec CONFIG w) as [[_ Hcheck] | [Hbad _]];
    [| contradiction].
  destruct (install_zfs_to_live_environment_dry host CONFIG 36 Hd) as [l_zfs Hzfs].
  destruct (blkdiscard_and_zero_disks_dry host CONFIG Hd) as [l_blk Hblk].
  destruct (rbind_mounts_dry host CONFIG Hd) as [l_rbind Hrbind].
  pose proof (yields_dry _ _ _ _ _ (yields_partition_root_pool_disks host CONFIG) Hd) as Hpart.
  pose proof (setup_efi_partitions_and_install_zfsbootmenu_dry host CONFIG Hd) as Hefi.
  destruct (only_logs_install_packages host CONFIG Hd 36 Hlocale) as ([] & l_pkg & Hpkg).
  destruct (only_logs_write_crypttab host CONFIG Hd) as ([] & l_crypt & Hcrypt).
  destruct (only_logs_write_fstab host CONFIG Hd
              (map (fun _ => "A48C-0D61") CONFIG.(Config.root_pool).(ZfsPool.disks)))
    as ([] & l_fstab & Hfstab).
  destruct (only_logs_write_dracut_zfs_conf host CONFIG Hd (pool_key_files_of CONFIG))
    as ([] & l_dracut & Hdracut).
  unfold main.
  rewrite (bind_ok _ _ _ _ _ Hcheck).
  erewrite yields_step_dry; [| apply yields_sys | exact Hd].
  rewrite (bind_ok _ _ _ _ _ (sys_output_dry host CONFIG _ _ _ _ Hd)).
  cbv beta. change (PyInt.int "36") with (Some 36). cbv iota.
  rewrite (bind_ok (mret 36) _ _ 36 _ eq_refl).
  rewrite (bind_ok _ _ _ _ _ (Hzfs _)).
  rewrite (bind_ok _ _ _ _ _ (Hblk _)).
  rewrite (bind_ok _ _ _ _ _ (Hpart _)).
  pose proof (create_zfs_pools_and_file_systems_run host CONFIG) as Hcreate.
  cbv zeta in Hcreate. rewrite Hd in Hcreate.
  rewrite (bind_ok _ _ _ _ _ (Hcreate _)).
  rewrite (bind_ok _ _ _ _ _ (Hefi _)).
  rewrite (bind_ok _ _ _ _ _ (Hrbind _)).
  rewrite (bind_ok _ _ _ _ _ (Hpkg _)).
  rewrite (bind_ok _ _ _ _ _ (Hcrypt _)).
  rewrite (bind_ok _ _ _ _ _ (Hfstab _)).
  rewrite (bind_ok _ _ _ _ _ (Hdracut _)).
  rewrite bind_run.
  match goal with
  | |- context [write_zfs_mount_generator_cache host CONFIG ?w5] =>
      pose proof (write_zfs_mount_generator_cache_dry host CONFIG Hd w5) as Hcache;
      change (trace w5) with (trace w) in Hcache;
      destruct (write_zfs_mount_generator_cache host CONFIG w5) as [[[]|e] w6]
  end; simpl in Hcache; [| exact Hcache].
  rewrite <- Hcache.
  match goal with
  | |- (?m ?w6).1 = Ok tt =>
      assert (H : only_logs m); [| destruct H as ([] & lines & H); rewrite H; reflexivity]
  end.
  only_logs_steps Hd.
  - apply only_logs_run_systemd_firstboot_and_enable_services, Hd.
  - apply only_logs_compile_kernel_dkms_modules_and_generate_initramfs, Hd.
  - apply only_logs_setup_users, Hd.
Qed.

Lemma dry_run_ends_by_the_event_script_witness :
  (main quiet_host shipped_CONFIG boot_world).1
  = Raise (Exception "Could not determine properties for /etc/zfs/zfs-list.cache").
Proof.
  exact (dry_run_ends_by_the_event_script quiet_host shipped_CONFIG boot_world
           eq_refl shipped_CONFIG_ok eq_refl).
Defined.

(** * The event script *)

Lemma no_PROPS_line (lines : list string) (found : option string) :
  Forall (fun line => Py.startswith PROPS_prefix line = false) lines ->
  foldl (fun found line =>
           if Py.startswith PROPS_prefix line
           then Some (Py.drop_last (Py.drop (String.length PROPS_prefix) line))
           else found)
        found lines
  = found.
Proof.
  intros H. revert found. induction H as [|line lines Hline _ IH]; intros found; simpl.
  - reflexivity.
  - rewrite Hline. apply IH.
Qed.

(** X14. [write_zfs_mount_generator_cache] reads the ZFS event script of
    the machine it runs on before anything else, in dry mode too.  When the
    read fails it raises [OSError]; when the text gives no properties, or
    empty ones, it raises an [Exception]; in both cases it has logged
    nothing, created no directory and written no file.  A text without a
    line that starts with [PROPS_prefix] gives no properties. *)
Theorem write_zfs_mount_generator_cache_needs_the_event_script :
  forall (host : Host) (CONFIG : Config.t) (w : world),
    let read := ReadText cacher_script in
    let zfs_properties := zfs_properties_of (file_text host (trace w) cacher_script) in
    let stopped := set_trace (fun t => t ++ [read]) w in
    (forall msg,
        os_error host (trace w) read = Some msg ->
        write_zfs_mount_generator_cache host CONFIG w = (Raise (OSError msg), stopped))
    /\ (os_error host (trace w) read = None ->
        zfs_properties = None \/ zfs_properties = Some "" ->
        write_zfs_mount_generator_cache host CONFIG w
        = (Raise (Exception "Could not determine properties for /etc/zfs/zfs-list.cache"),
           stopped))
    /\ (forall text,
        Forall (fun line => Py.startswith PROPS_prefix line = false)
               (Py.splitlines (Py.replace ("\" +:+ Py.NL) "" text)) ->
        zfs_properties_of text = None).
Proof.
  intros host CONFIG w read zfs_properties stopped. subst read zfs_properties stopped.
  split; [| split].
  - intros msg Herr. unfold write_zfs_mount_generator_cache.
    rewrite bind_run, read_text_run. fold cacher_script. rewrite Herr. reflexivity.
  - intros Herr Hprops. unfold write_zfs_mount_generator_cache.
    rewrite bind_run, read_text_run. fold cacher_script. rewrite Herr.
    cbv beta iota zeta.
    change (foldl _ None _) with (zfs_properties_of (file_text host (trace w) cacher_script)).
    destruct Hprops as [-> | ->]; reflexivity.
  - intros text Hlines. unfold zfs_properties_of. apply no_PROPS_line, Hlines.
Qed.

(** * A configuration that does not pass *)

(** X15. On a configuration that does not pass the check, [main] raises
    the [Exception] of the check at once, in live mode as in dry mode: no
    line has been logged and no call made, so no disk has been touched. *)
Theorem main_rejects_a_bad_configuration_before_anything :
  forall (host : Host) (CONFIG : Config.t) (w : world),
    ~ config_ok CONFIG ->
    exists msg,
      main host CONFIG w = (Raise (Exception msg), w)
      /\ (pool_complaint (CONFIG_POOLS CONFIG) msg
          \/ user_complaint CONFIG.(Config.users) msg).
Proof.
  intros host CONFIG w Hbad.
  destruct (check_config_for_errors_spec CONFIG w)
    as [[Hok _] | (_ & msg & Hrun & Hmsg)]; [contradiction |].
  exists msg. split; [| exact Hmsg].
  unfold main. apply bind_raise. exact Hrun.
Qed.

Lemma main_rejects_a_bad_configuration_before_anything_witness :
  exists msg,
    main quiet_host (with_dry_mode false CONFIG_mirror_without_disks) boot_world
    = (Raise (Exception msg), boot_world)
    /\ (pool_complaint (CONFIG_POOLS (with_dry_mode false CONFIG_mirror_without_disks)) msg
        \/ user_complaint (Config.users (with_dry_mode false CONFIG_mirror_without_disks)) msg).
Proof.
  apply (main_rejects_a_bad_configuration_before_anything quiet_host
           (with_dry_mode false CONFIG_mirror_without_disks) boot_world).
  intros (_ & Hshape & _). inversion Hshape as [|pool pools [Hdisks _] _].
  apply Hdisks. reflexivity.
Defined.

(** * The packages of the new system *)

Lemma index_at_separator (c : ascii) (a rest : string) :
  Py.contains c a = false ->
  Py.index c (a +:+ String c rest) = Some (String.length a)
  /\ Py.take (String.length a) (a +:+ String c rest) = a.
Proof.
  induction a as [|d r IH].
  - intros _. change ("" +:+ String c rest) with (String c rest).
    cbn [Py.index String.length Py.take]. rewrite Ascii.eqb_refl. split; reflexivity.
  - change (String d r +:+ String c rest) with (String d (r +:+ String c rest)).
    cbn [Py.contains Py.index String.length Py.take].
    destruct (Ascii.eqb c d); [discriminate |].
    intros Hr. destruct (IH Hr) as [-> ->]. split; reflexivity.
Qed.

(** X16. [install_packages] names the language pack after the part of the
    locale before its first underscore: for a locale [<lang>_<rest>] it
    asks [dnf], with the new system as install root and the release of the
    live system (no [--releasever] for a release 0), for the release
    package of Fedora [min(version_id, 37)], the base packages,
    [glibc-langpack-<lang>], ZFS, and the configured packages, in one
    command; it then patches the repository file exactly when the release
    is above 37. *)
Theorem install_packages_takes_the_language_from_the_locale :
  forall (host : Host) (CONFIG : Config.t) (version_id : Z) (lang rest : string),
    CONFIG.(Config.locale) = lang +:+ "_" +:+ rest ->
    Py.contains "_" lang = false ->
    let dnf :=
      ["dnf"; "install"; "--assumeyes"; "--installroot=/rpool"]
      ++ (if Z.eqb version_id 0 then [] else ["--releasever=" +:+ Py.str_int version_id])
      ++ ["https://zfsonlinux.org/fedora/zfs-release-2-2.fc"
          +:+ Py.str_int (Z.min version_id 37) +:+ ".noarch.rpm";
          "@core"; "kernel"; "kernel-devel"; "kexec-tools"; "efibootmgr";
          "glibc-minimal-langpack"; "glibc-langpack-" +:+ lang; "zfs"; "zfs-dracut"]
      ++ CONFIG.(Config.packages) in
    let sed := ["sed"; "--in-place"; "s/$releasever/37/g"; "/rpool/etc/yum.repos.d/zfs.repo"] in
    yields CONFIG (install_packages host CONFIG version_id) tt
      (command_line dnf :: if Z.ltb 37 version_id then [command_line sed] else [])
      (Exec dnf false :: if Z.ltb 37 version_id then [Exec sed false] else []).
Proof.
  intros host CONFIG version_id lang rest Hlocale Hlang dnf sed.
  unfold install_packages. rewrite Hlocale.
  destruct (index_at_separator "_" lang rest Hlang) as [Hindex Htake].
  change (lang +:+ "_" +:+ rest) with (lang +:+ String "_" rest).
  rewrite Hindex. cbv zeta. rewrite Htake.
  change (command_line dnf :: (if Z.ltb 37 version_id then [command_line sed] else []))
    with ([command_line dnf] ++ (if Z.ltb 37 version_id then [command_line sed] else [])).
  change (Exec dnf false :: (if Z.ltb 37 version_id then [Exec sed false] else []))
    with ([Exec dnf false] ++ (if Z.ltb 37 version_id then [Exec sed false] else [])).
  eapply yields_bind.
  - unfold dnf_install. apply yields_sys.
  - apply yields_when. apply yields_sys.
Qed.

Lemma install_packages_takes_the_language_from_the_locale_witness :
  yields shipped_CONFIG (install_packages quiet_host shipped_CONFIG 38) tt
    ["dnf install --assumeyes --installroot=/rpool --releasever=38 https://zfsonlinux.org/fedora/zfs-release-2-2.fc37.noarch.rpm @core kernel kernel-devel kexec-tools efibootmgr glibc-minimal-langpack glibc-langpack-en zfs zfs-dracut @workstation-product-environment";
     "sed --in-place s/$releasever/37/g /rpool/etc/yum.repos.d/zfs.repo"]
    [Exec ["dnf"; "install"; "--assumeyes"; "--installroot=/rpool"; "--releasever=38";
           "https://zfsonlinux.org/fedora/zfs-release-2-2.fc37.noarch.rpm";
           "@core"; "kernel"; "kernel-devel"; "kexec-tools"; "efibootmgr";
           "glibc-minimal-langpack"; "glibc-langpack-en"; "zfs"; "zfs-dracut";
           "@workstation-product-environment"] false;
     Exec ["sed"; "--in-place"; "s/$releasever/37/g"; "/rpool/etc/yum.repos.d/zfs.repo"]
          false].
Proof.
  apply (install_packages_takes_the_language_from_the_locale quiet_host shipped_CONFIG 38
           "en" "US.UTF-8").
  - reflexivity.
  - reflexivity.
Defined.

(** * Users *)

(** X17. What [setup_users] logs in dry mode: the line for [root], locked
    when no root password is configured, then for every user in order the
    account, the delegation of its home file system, the copy of
    [/etc/skel], the change of owner, the mode 700, the relabelling, and
    the password, which is deleted when the user has none.  No password
    appears in these lines. *)
Theorem setup_users_dry_transcript :
  forall (host : Host) (CONFIG : Config.t) (w : world),
    Config.dry_mode CONFIG = true ->
    let password_line name password (otherwise : string) :=
      if truthy password then "passwd " +:+ name +:+ " --stdin" else otherwise in
    let user_lines (user : User.t) :=
      let name := user.(User.name) in
      let home := str (Path_of "/home" // name) in
      [command_line (["useradd"; "--user-group"]
                     ++ (if user.(User.wheel) then ["--groups"; "wheel"] else [])
                     ++ (if truthy user.(User.comment)
                         then ["--comment"; user.(User.comment)] else [])
                     ++ ["--no-create-home"; "--home-dir"; home; name]);
       command_line ["zfs"; "allow"; "-u"; name; "mount,snapshot,destroy";
                     CONFIG.(Config.root_pool).(ZfsPool.name) +:+ "/home/" +:+ name];
       "cp --archive --recursive /etc/skel " +:+ home;
       "chown --recursive " +:+ name +:+ ":" +:+ name +:+ " " +:+ home;
       "chmod 700 " +:+ home +:+ " ";
       command_line ["restorecon"; home];
       password_line name user.(User.password) (command_line ["passwd"; name; "--delete"])] in
    setup_users host CONFIG w
    = (Ok tt,
       emit (password_line "root" CONFIG.(Config.root_password) "passwd --lock root"
             :: flat_map user_lines CONFIG.(Config.users)) w).
Proof.
  intros host CONFIG w Hd password_line user_lines.
  assert (Hpasswd : forall name password lock,
             dry_yields (passwd host CONFIG name password lock) tt
               [password_line name password
                  (if lock then "passwd --lock root"
                   else command_line ["passwd"; name; "--delete"])]).
  { intros name password lock. unfold passwd, password_line.
    destruct (truthy password); [apply dry_gated, Hd |].
    destruct lock; (eapply yields_dry; [apply yields_sys | exact Hd]). }
  revert w. change (dry_yields (setup_users host CONFIG) tt
                      ([password_line "root" CONFIG.(Config.root_password) "passwd --lock root"]
                       ++ flat_map user_lines CONFIG.(Config.users))).
  unfold setup_users. eapply dry_bind; [apply (Hpasswd "root" _ true) |].
  apply dry_for. intros user. cbv zeta. unfold user_lines.
  eapply dry_eq.
  - eapply dry_bind; [eapply yields_dry; [apply yields_sys | exact Hd] |].
    eapply dry_bind; [eapply yields_dry; [apply yields_sys | exact Hd] |].
    eapply dry_bind; [apply dry_gated, Hd |].
    eapply dry_bind; [apply dry_gated, Hd |].
    eapply dry_bind; [apply dry_gated, Hd |].
    eapply dry_bind; [eapply yields_dry; [apply yields_sys | exact Hd] |].
    apply (Hpasswd _ _ false).
  - reflexivity.
Qed.

Lemma setup_users_dry_transcript_witness :
  setup_users quiet_host alice_CONFIG boot_world
  = (Ok tt,
     emit ["passwd --lock root";
           "useradd --user-group --groups wheel --no-create-home --home-dir /home/alice alice";
           "zfs allow -u alice mount,snapshot,destroy rpool/home/alice";
           "cp --archive --recursive /etc/skel /home/alice";
           "chown --recursive alice:alice /home/alice";
           "chmod 700 /home/alice ";
           "restorecon /home/alice";
           "passwd alice --delete"] boot_world).
Proof.
  exact (setup_users_dry_transcript quiet_host alice_CONFIG boot_world eq_refl).
Defined.

(** * Kernels *)

(** X18. In live mode, whenever
    [compile_kernel_dkms_modules_and_generate_initramfs] returns, it has
    asked [rpm] for the installed kernels and then run [kernel-install add]
    once for every line of the answer without its last character, in
    order, each with the line less its first seven characters as the
    version and [/usr/lib/modules/<version>/vmlinuz] as the image; it has
    made no other call. *)
Theorem one_kernel_install_per_line_of_the_answer :
  forall (host : Host) (CONFIG : Config.t) (w : world),
    Config.dry_mode CONFIG = false ->
    is_ok (compile_kernel_dkms_modules_and_generate_initramfs host CONFIG w).1 = true ->
    let rpm := ["rpm"; "--query"; "kernel"] in
    let answer := (run host (trace w) rpm false).2 in
    let versions := map (Py.drop 7) (Py.splitlines (Py.drop_last answer)) in
    trace (compile_kernel_dkms_modules_and_generate_initramfs host CONFIG w).2
    = trace w
      ++ Exec rpm false
         :: map (fun version =>
                   Exec ["kernel-install"; "add"; version;
                         "/usr/lib/modules/" +:+ version +:+ "/vmlinuz"] false)
                versions.
Proof.
  intros host CONFIG w Hd Hok rpm answer versions. subst rpm answer versions.
  unfold compile_kernel_dkms_modules_and_generate_initramfs in *.
  rewrite bind_run in Hok |- *. rewrite (sys_output_live _ _ _ _ _ _ Hd) in Hok |- *.
  cbv zeta in Hok |- *.
  destruct (os_error host (trace w) (Exec ["rpm"; "--query"; "kernel"] false));
    [discriminate Hok |].
  destruct (Z.eqb _ 0); [| discriminate Hok].
  pose proof (yields_for CONFIG
                (Py.splitlines
                   (Py.drop_last (run host (trace w) ["rpm"; "--query"; "kernel"] false).2))
                (fun kernel_version =>
                   let version := Py.drop (String.length "kernel-") kernel_version in
                   sys host CONFIG ["kernel-install"; "add"; version;
                                    "/usr/lib/modules/" +:+ version +:+ "/vmlinuz"] true)
                (fun kernel_version =>
                   [command_line ["kernel-install"; "add"; Py.drop 7 kernel_version;
                                  "/usr/lib/modules/" +:+ Py.drop 7 kernel_version
                                  +:+ "/vmlinuz"]])
                (fun kernel_version =>
                   [Exec ["kernel-install"; "add"; Py.drop 7 kernel_version;
                          "/usr/lib/modules/" +:+ Py.drop 7 kernel_version +:+ "/vmlinuz"]
                         false])
                (fun kernel_version => yields_sys host CONFIG _ true)) as Hloop.
  unfold yields in Hloop. rewrite Hd in Hloop.
  rewrite (Hloop _ Hok). simpl trace.
  rewrite flat_map_singleton, map_map, <- app_assoc. reflexivity.
Qed.

Lemma one_kernel_install_per_line_of_the_answer_witness :
  let host := uniform_host 0 ("kernel-6.2.9-300.fc38.x86_64" +:+ Py.NL) in
  trace (compile_kernel_dkms_modules_and_generate_initramfs host live_CONFIG boot_world).2
  = [Exec ["rpm"; "--query"; "kernel"] false;
     Exec ["kernel-install"; "add"; "6.2.9-300.fc38.x86_64";
           "/usr/lib/modules/6.2.9-300.fc38.x86_64/vmlinuz"] false].
Proof.
  exact (one_kernel_install_per_line_of_the_answer
           (uniform_host 0 ("kernel-6.2.9-300.fc38.x86_64" +:+ Py.NL)) live_CONFIG boot_world
           eq_refl eq_refl).
Defined.

(** * The live environment *)

(** X19. [install_zfs_to_live_environment] removes [zfs-fuse], installs
    the release package of Fedora [min(version_id, 37)], patches the
    repository file exactly when the release is above 37, installs the
    kernel headers of the running kernel with ZFS, and loads the module
    last; [dnf] is given neither an install root nor a release here. *)
Theorem install_zfs_to_live_environment_commands :
  forall (host : Host) (CONFIG : Config.t) (version_id : Z),
    let commands :=
      [["rpm"; "--erase"; "--nodeps"; "zfs-fuse"];
       ["dnf"; "install"; "--assumeyes";
        "https://zfsonlinux.org/fedora/zfs-release-2-2.fc"
        +:+ Py.str_int (Z.min version_id 37) +:+ ".noarch.rpm"]]
      ++ (if Z.ltb 37 version_id
          then [["sed"; "--in-place"; "s/$releasever/37/g"; "/etc/yum.repos.d/zfs.repo"]]
          else [])
      ++ [["dnf"; "install"; "--assumeyes"; "kernel-devel-" +:+ uname_release host; "zfs"];
          ["modprobe"; "zfs"]] in
    yields CONFIG (install_zfs_to_live_environment host CONFIG version_id) tt
      (map command_line commands) (map (fun argv => Exec argv false) commands).
Proof.
  intros host CONFIG version_id commands. subst commands.
  unfold install_zfs_to_live_environment, dnf_install.
  eapply yields_eq.
  - eapply yields_bind; [apply yields_sys |].
    eapply yields_bind; [apply yields_sys |].
    eapply yields_bind; [apply yields_when, yields_sys |].
    eapply yields_bind; [apply yields_sys | apply yields_sys].
  - destruct (Z.ltb 37 version_id); reflexivity.
  - destruct (Z.ltb 37 version_id); reflexivity.
Qed.

(** * The release of the live system *)

(** X20. In live mode [main] needs a numeric [VERSION_ID]: on a
    configuration that passes the check, when [setenforce] and the shell
    that prints the release both exit with status 0 but the answer without
    its last character is no integer for [int], [main] raises [ValueError]
    having made those two calls and no other. *)
Theorem main_needs_a_numeric_release :
  forall (host : Host) (CONFIG : Config.t) (w : world),
    let setenforce := ["setenforce"; "0"] in
    let ask := ["source /etc/os-release; echo " +:+ Py.DQUOTE +:+ "$VERSION_ID" +:+ Py.DQUOTE] in
    let asked := trace w ++ [Exec setenforce false] in
    Config.dry_mode CONFIG = false ->
    config_ok CONFIG ->
    os_error host (trace w) (Exec setenforce false) = None ->
    (run host (trace w) setenforce false).1 = 0 ->
    os_error host asked (Exec ask true) = None ->
    (run host asked ask true).1 = 0 ->
    PyInt.int (Py.drop_last (run host asked ask true).2) = None ->
    (main host CONFIG w).1 = Raise (ValueError "invalid literal for int() with base 10")
    /\ trace (main host CONFIG w).2 = trace w ++ [Exec setenforce false; Exec ask true].
Proof.
  intros host CONFIG w setenforce ask asked Hd Hok Hos1 Hst1 Hos2 Hst2 Hint.
  subst setenforce ask asked.
  destruct (check_config_for_errors_spec CONFIG w) as [[_ Hcheck] | [Hbad _]];
    [| contradiction].
  destruct (sys_live_exit_status host CONFIG ["setenforce"; "0"] w Hd Hos1) as [_ Hsys].
  cbv zeta in Hsys. rewrite Hst1 in Hsys. simpl in Hsys.
  unfold main.
  rewrite (bind_ok _ _ _ _ _ Hcheck), (bind_ok _ _ _ _ _ Hsys), bind_run.
  rewrite (sys_output_live _ _ _ _ _ _ Hd). cbv zeta.
  change (trace (advance _ [Exec ["setenforce"; "0"] false] w))
    with (trace w ++ [Exec ["setenforce"; "0"] false]).
  rewrite Hos2, Hst2. simpl Z.eqb. cbv iota. rewrite bind_run, Hint. simpl.
  split; [reflexivity |]. rewrite <- app_assoc. reflexivity.
Qed.

Lemma main_needs_a_numeric_release_witness :
  let host := uniform_host 0 ("rawhide" +:+ Py.NL) in
  (main host live_CONFIG boot_world).1
  = Raise (ValueError "invalid literal for int() with base 10")
  /\ trace (main host live_CONFIG boot_world).2
     = trace boot_world
       ++ [Exec ["setenforce"; "0"] false;
           Exec ["source /etc/os-release; echo "
                 +:+ Py.DQUOTE +:+ "$VERSION_ID" +:+ Py.DQUOTE] true].
Proof.
  apply (main_needs_a_numeric_release (uniform_host 0 ("rawhide" +:+ Py.NL)) live_CONFIG
           boot_world eq_refl shipped_CONFIG_ok eq_refl eq_refl eq_refl eq_refl eq_refl).
Defined.
